(** * Google Docs MCP server: client error classification, append, tool handlers

    A shallow embedding of the TypeScript sources of the Google Docs MCP
    server (client.ts, index.ts and the files of tools/) and the proofs of the
    properties stated about them.

    Conventions of the embedding.
    - A JSON document is a value of [json]; [undefined] is [None] in
      [option json].  JSON numbers are rationals ([Q]); a number that a schema
      has checked with [.int()], and the int32 indices of the remote API, are
      [Z].  The result of [parseInt] is a [number]: an integer or [NaN]
      (rounding of integers beyond 2^53 to a double is not modelled).
    - Strings are byte strings, and [length] and [slice] count bytes.  A
      header value is read as Latin-1, the way [Headers.get] returns it.
    - [JSON.stringify] is not modelled: a request body and the text of a tool
      result are kept as the value that is serialised.
    - An [async] function is a computation of the monad [Net]: it threads the
      list of the [fetch] calls issued so far, reads the answers of the remote
      service from an oracle, and either returns or throws. *)

From Stdlib Require Import ZArith QArith List String Ascii Bool Lia.
From Stdlib Require Import DecimalString DecimalPos DecimalZ.
Import ListNotations.
Open Scope string_scope.
Open Scope Z_scope.

Set Implicit Arguments.
Set Warnings "-register-all".

(* ========================================================================= *)
(** * JavaScript values *)
(* ========================================================================= *)

Inductive json : Type :=
| JNull
| JBool (b : bool)
| JNumber (q : Q)
| JString (s : string)
| JArray (items : list json)
| JObject (members : list (string * json)).

(** The result of [parseInt]. *)
Inductive number : Type :=
| Num (z : Z)
| NaN.

(** Template literal [`${n}`] of an integer. *)
Definition string_of_Z (z : Z) : string :=
  NilZero.string_of_int (Z.to_int z).

(** ToBoolean on a value that came out of [JSON.parse]. *)
Definition truthy (j : json) : bool :=
  match j with
  | JNull => false
  | JBool b => b
  | JNumber q => negb (Qnum q =? 0)
  | JString s => negb (s =? EmptyString)%string
  | JArray _ | JObject _ => true
  end.

(** ToBoolean on [string | undefined] and on [string | null]. *)
Definition truthy_string (s : option string) : bool :=
  match s with
  | Some s => negb (s =? EmptyString)%string
  | None => false
  end.

(** Own property [k] of an object made by [JSON.parse] or by a literal; a
    later member with the same key overrides an earlier one. *)
Fixpoint lookup (k : string) (members : list (string * json)) : option json :=
  match members with
  | [] => None
  | (k', v) :: rest =>
      match lookup k rest with
      | Some v' => Some v'
      | None => if (k =? k')%string then Some v else None
      end
  end.

(** [j.k] for a [j] that is neither [null] nor [undefined] and a key [k] that
    no prototype defines ([error], [message]): only objects have it. *)
Definition member (k : string) (j : json) : option json :=
  match j with
  | JObject ms => lookup k ms
  | _ => None
  end.

(** [a || b] where [a] may be [undefined]. *)
Definition js_or (a : option json) (b : option json) : option json :=
  match a with
  | Some v => if truthy v then a else b
  | None => b
  end.

(** [a || b] where [b] is defined. *)
Definition js_or_else (a : option json) (b : json) : json :=
  match a with
  | Some v => if truthy v then v else b
  | None => b
  end.

(* ========================================================================= *)
(** * parseInt(string, 10) *)
(* ========================================================================= *)

(** StrWhiteSpaceChar among the Latin-1 code points: TAB, LF, VT, FF, CR, SP
    and NBSP. *)
Definition isStrWhiteSpaceChar (c : ascii) : bool :=
  let n := nat_of_ascii c in
  existsb (Nat.eqb n) [9; 10; 11; 12; 13; 32; 160]%nat.

Fixpoint trimStart (s : string) : string :=
  match s with
  | String c rest => if isStrWhiteSpaceChar c then trimStart rest else s
  | EmptyString => s
  end.

Definition digit_value (c : ascii) : option Z :=
  let n := Z.of_nat (nat_of_ascii c) in
  if (48 <=? n) && (n <=? 57) then Some (n - 48) else None.

(** The value of the longest prefix of decimal digits; [acc] is the value of
    the digits read so far, [None] when there is none yet. *)
Fixpoint digits_prefix (acc : option Z) (s : string) : option Z :=
  match s with
  | String c rest =>
      match digit_value c with
      | Some d =>
          digits_prefix
            (Some (10 * match acc with Some a => a | None => 0 end + d)) rest
      | None => acc
      end
  | EmptyString => acc
  end.

Definition parseInt (s : string) : number :=
  let S := trimStart s in
  let '(sign, rest) :=
    match S with
    | String "-"%char rest => (-1, rest)
    | String "+"%char rest => (1, rest)
    | _ => (1, S)
    end in
  match digits_prefix None rest with
  | Some mathInt => Num (sign * mathInt)
  | None => NaN
  end.

(* ========================================================================= *)
(** * Errors (utils/errors.ts)

    The error classes are not among the sources; each is the constructor
    applied at its [throw] site, carrying the arguments given there. *)
(* ========================================================================= *)

Inductive Error : Type :=
| AuthenticationError (message : string)
| RateLimitError (message : string) (retryAfterSeconds : number)
| GoogleDocsApiError (message : json) (statusCode : Z)
| TypeError (message : string)
| SyntaxError (message : string)
| Thrown (value : json).   (* a thrown value that is not an Error *)

Inductive Result (A : Type) : Type :=
| Returns (a : A)
| Throws (e : Error).
Arguments Returns {A} a.
Arguments Throws {A} e.

(** [error instanceof Error ? error.message : dflt]. *)
Definition message_or (e : Error) (dflt : json) : json :=
  match e with
  | AuthenticationError m | RateLimitError m _ | TypeError m | SyntaxError m =>
      JString m
  | GoogleDocsApiError m _ => m
  | Thrown _ => dflt
  end.

(* ========================================================================= *)
(** * The answer of the remote service, as [request<T>] reads it *)
(* ========================================================================= *)

Section Response.
Variable T : Type.

Record Response : Type := {
  status : Z;
  (** [response.headers.get('Retry-After')] *)
  header_Retry_After : option string;
  (** [JSON.parse(await response.text())]; [None] when that throws *)
  text_parsed : option json;
  (** [await response.json() as T]; [None] when the body is not JSON *)
  body_json : option T
}.

Definition ok (response : Response) : bool :=
  (200 <=? status response) && (status response <=? 299).

(** [errorJson.error?.message || errorJson.message || message], inside the
    [try]: reading a property of [null] throws a TypeError. *)
Definition envelope_message_or (errorJson : json) (message : json)
  : Result json :=
  match errorJson with
  | JNull => Throws (TypeError "Cannot read properties of null")
  | _ =>
      let error := member "error" errorJson in
      let error_message :=
        match error with
        | None | Some JNull => None
        | Some e => member "message" e
        end in
      Returns
        (js_or_else (js_or error_message (member "message" errorJson))
                    message)
  end.

(** client.ts, [request], lines 153-164: the error thrown for a response
    that is not ok. *)
Definition api_error (response : Response) : Error :=
  let message := JString ("API error: " ++ string_of_Z (status response)) in
  let message :=
    match text_parsed response with
    | Some errorJson =>
        match envelope_message_or errorJson message with
        | Returns m => m
        | Throws _ => message   (* catch: use default message *)
        end
    | None => message           (* JSON.parse threw *)
    end in
  GoogleDocsApiError message (status response).

(** client.ts, [request], lines 142-171: what [request] does with the
    response once [fetch] has resolved.  The value [undefined] returned for
    a 204 is [None]. *)
Definition handle_response (response : Response) : Result (option T) :=
  if status response =? 429 then
    let retryAfter := header_Retry_After response in
    Throws (RateLimitError "Rate limit exceeded"
              (if truthy_string retryAfter
               then match retryAfter with
                    | Some s => parseInt s
                    | None => NaN
                    end
               else Num 60))
  else if (status response =? 401) || (status response =? 403) then
    Throws (AuthenticationError
              "Authentication failed. Check your OAuth access token.")
  else if negb (ok response) then
    Throws (api_error response)
  else if status response =? 204 then
    Returns None
  else
    match body_json response with
    | Some v => Returns (Some v)
    | None => Throws (SyntaxError "Unexpected token in JSON")
    end.
End Response.

Arguments Build_Response {T}.

(* ========================================================================= *)
(** * Entities (types/entities.ts)

    Only the members that the client and the handlers read or write are kept.
    Style objects ([TextStyle], [ParagraphStyle], ...) are plain JSON objects:
    their interfaces are erased at run time and the handlers pass through
    whatever record the caller supplied. *)
(* ========================================================================= *)

Module StructuralElement.
Record t : Type := { startIndex : option Z; endIndex : option Z }.
End StructuralElement.

Module Body.
(** [content] is declared mandatory; [appendText] guards it with [?.]. *)
Record t : Type := { content : option (list StructuralElement.t) }.
End Body.

Module Document.
Record t : Type := {
  documentId : string;
  title : string;
  body : option Body.t
}.
End Document.

Module Location.
Record t : Type := { index : Z }.
End Location.

Module Range.
Record t : Type := { startIndex : Z; endIndex : Z }.
End Range.

Module TableCellLocation.
Record t : Type := {
  tableStartLocation : Location.t;
  rowIndex : Z;
  columnIndex : Z
}.
End TableCellLocation.

Module TableRange.
Record t : Type := {
  tableCellLocation : TableCellLocation.t;
  rowSpan : Z;
  columnSpan : Z
}.
End TableRange.

Module Dimension.
Record t : Type := { magnitude : Q; unit : string }.
End Dimension.

Module Size.
Record t : Type := { width : Dimension.t; height : Dimension.t }.
End Size.

Definition Style : Type := list (string * json).

(** The tagged union [Request]: the one populated member and its value. *)
Module Request.
Inductive t : Type :=
| insertText (text : string) (location : Location.t)
| deleteContentRange (range : Range.t)
| replaceAllText (containsText_text : string) (containsText_matchCase : bool)
                 (replaceText : string)
| updateTextStyle (range : Range.t) (textStyle : Style) (fields : string)
| updateParagraphStyle (range : Range.t) (paragraphStyle : Style)
                       (fields : string)
| createParagraphBullets (range : Range.t) (bulletPreset : option string)
| deleteParagraphBullets (range : Range.t)
| createNamedRange (name : string) (range : Range.t)
| deleteNamedRange (namedRangeId : option string) (name : option string)
| replaceNamedRangeContent (namedRangeId : option string)
                           (namedRangeName : option string) (text : string)
| insertTable (rows : Z) (columns : Z) (location : Location.t)
| insertTableRow (tableCellLocation : TableCellLocation.t)
                 (insertBelow : bool)
| insertTableColumn (tableCellLocation : TableCellLocation.t)
                    (insertRight : bool)
| deleteTableRow (tableCellLocation : TableCellLocation.t)
| deleteTableColumn (tableCellLocation : TableCellLocation.t)
| mergeTableCells (tableRange : TableRange.t)
| unmergeTableCells (tableRange : TableRange.t)
| updateTableCellStyle (tableRange : TableRange.t) (tableCellStyle : Style)
                       (fields : string)
| updateTableRowStyle (tableStartLocation : Location.t)
                      (rowIndices : list Z) (tableRowStyle : Style)
                      (fields : string)
| updateTableColumnProperties (tableStartLocation : Location.t)
                              (columnIndices : list Z)
                              (tableColumnProperties : Style)
                              (fields : string)
| pinTableHeaderRows (tableStartLocation : Location.t)
                     (pinnedHeaderRowsCount : Z)
| insertInlineImage (uri : string) (location : Location.t)
                    (objectSize : option Size.t)
| replaceImage (imageObjectId : string) (uri : string)
| deletePositionedObject (objectId : string)
| insertPageBreak (location : Location.t)
| insertSectionBreak (location : Location.t) (sectionType : string)
| createHeader (type : string) (sectionBreakLocation : option Location.t)
| createFooter (type : string) (sectionBreakLocation : option Location.t)
| deleteHeader (headerId : string)
| deleteFooter (footerId : string)
| createFootnote (location : Location.t)
| updateDocumentStyle (documentStyle : Style) (fields : string)
| updateSectionStyle (range : Range.t) (sectionStyle : Style)
                     (fields : string)
(** a record supplied by the caller of the batch_update tool and cast with
    [as Request[]] *)
| raw (members : list (string * json)).
End Request.

(** One [Reply]; each member is the value the handlers reach through it, e.g.
    [replaceAllText] is [reply.replaceAllText?.occurrencesChanged]. *)
Module Reply.
Record t : Type := {
  replaceAllText : option Z;
  createNamedRange : option string;
  insertInlineImage : option string;
  createHeader : option string;
  createFooter : option string;
  createFootnote : option string
}.
End Reply.

Module BatchUpdateResponse.
(** [replies] is declared mandatory; the handlers guard it with [?.]. *)
Record t : Type := {
  documentId : string;
  replies : option (list Reply.t)
}.
End BatchUpdateResponse.

Module TenantCredentials.
Record t : Type := { accessToken : option string }.
End TenantCredentials.

(** What [testConnection] resolves with. *)
Module ConnectionStatus.
Record t : Type := { connected : bool; message : json }.
End ConnectionStatus.

(* ========================================================================= *)
(** * fetch and the monad of asynchronous computations *)
(* ========================================================================= *)

Inductive Method : Type := GET | POST.

(** The argument of [JSON.stringify] in [createDocument] and [batchUpdate]. *)
Inductive RequestBody : Type :=
| body_title (title : string)
| body_requests (requests : list Request.t).

Module RequestInit.
Record t : Type := { method : option Method; body : option RequestBody }.
Definition empty : t := {| method := None; body := None |}.
End RequestInit.

(** One call of [fetch(url, init)]. *)
Module Fetch.
Record t : Type := {
  url : string;
  method : option Method;
  headers : list (string * string);
  body : option RequestBody
}.
End Fetch.

Inductive FetchResult (T : Type) : Type :=
| Resolves (response : Response T)
| Rejects (e : Error).
Arguments Resolves {T} response.
Arguments Rejects {T} e.

(** The remote service and the network: what [fetch] settles with, given the
    calls issued before and the present call.  There is one view per type
    argument of [request<T>]. *)
Record Remote : Type := {
  serve_Document :
    list Fetch.t -> Fetch.t -> FetchResult Document.t;
  serve_BatchUpdateResponse :
    list Fetch.t -> Fetch.t -> FetchResult BatchUpdateResponse.t
}.

Class Fetched (T : Type) : Type :=
  serve : Remote -> list Fetch.t -> Fetch.t -> FetchResult T.
#[global] Instance Fetched_Document : Fetched Document.t := serve_Document.
#[global] Instance Fetched_BatchUpdateResponse
  : Fetched BatchUpdateResponse.t := serve_BatchUpdateResponse.

Record World : Type := {
  remote : Remote;
  fetches : list Fetch.t      (* the calls of [fetch] so far, oldest first *)
}.

Definition Net (A : Type) : Type := World -> Result A * World.

Definition ret {A} (a : A) : Net A := fun w => (Returns a, w).

Definition throw {A} (e : Error) : Net A := fun w => (Throws e, w).

Definition bind {A B} (m : Net A) (k : A -> Net B) : Net B :=
  fun w =>
    match m w with
    | (Returns a, w') => k a w'
    | (Throws e, w') => (Throws e, w')
    end.

Definition try_catch {A} (body : Net A) (handler : Error -> Net A) : Net A :=
  fun w =>
    match body w with
    | (Returns a, w') => (Returns a, w')
    | (Throws e, w') => handler e w'
    end.

Definition lift {A} (r : Result A) : Net A := fun w => (r, w).

Declare Scope net_scope.
Delimit Scope net_scope with net.
Notation "x <- m ;; k" := (bind m (fun x => k))
  (at level 61, m at next level, right associativity) : net_scope.
Open Scope net_scope.

(** [v.member] on a [v] that may be [undefined]. *)
Definition read {A B} (v : option A) (member : A -> B) (what : string)
  : Net B :=
  match v with
  | Some a => ret (member a)
  | None =>
      throw (TypeError ("Cannot read properties of undefined (reading '"
                          ++ what ++ "')"))
  end.

(* ========================================================================= *)
(** * The client (client.ts) *)
(* ========================================================================= *)

Definition API_BASE_URL : string := "https://docs.googleapis.com/v1".

(** ** encodeURIComponent

    Every byte outside the unreserved set [A-Z a-z 0-9 - _ . ! ~ * ' ( )] is
    written as a percent sign and two upper-case hexadecimal digits; on a
    string held as UTF-8 bytes this is the escape of its code points. *)

Definition uriUnreserved (c : ascii) : bool :=
  let n := nat_of_ascii c in
  ((65 <=? n) && (n <=? 90) || (97 <=? n) && (n <=? 122)
   || (48 <=? n) && (n <=? 57)
   || existsb (Nat.eqb n) [45; 95; 46; 33; 126; 42; 39; 40; 41])%nat.

Definition hexDigit (n : nat) : ascii :=
  ascii_of_nat (if (n <? 10)%nat then 48 + n else 55 + n).

Fixpoint encodeURIComponent (s : string) : string :=
  match s with
  | EmptyString => EmptyString
  | String c rest =>
      if uriUnreserved c then String c (encodeURIComponent rest)
      else
        let n := nat_of_ascii c in
        String "%"%char
          (String (hexDigit (n / 16)) (String (hexDigit (n mod 16))
             (encodeURIComponent rest)))
  end.

Module GoogleDocsClientImpl.
Section Impl.
Variable credentials : TenantCredentials.t.

(** *** HTTP request helper *)

Definition getAuthHeaders : Result (list (string * string)) :=
  let missing :=
    Throws (AuthenticationError
      "No access token provided. Include X-Google-Access-Token header.") in
  match TenantCredentials.accessToken credentials with
  | None => missing
  | Some accessToken =>
      if (accessToken =? EmptyString)%string then missing
      else Returns [("Authorization", "Bearer " ++ accessToken);
                    ("Content-Type", "application/json")]
  end.

(** [options.headers] is never set by this client, so the headers of the
    call are those of [getAuthHeaders], which is evaluated before [fetch]
    is called. *)
Definition request {T} `{Fetched T}
    (endpoint : string) (options : RequestInit.t) : Net (option T) :=
  let url := API_BASE_URL ++ endpoint in
  headers <- lift getAuthHeaders ;;
  fun w =>
    let call := {| Fetch.url := url;
                   Fetch.method := RequestInit.method options;
                   Fetch.headers := headers;
                   Fetch.body := RequestInit.body options |} in
    let w' := {| remote := remote w; fetches := fetches w ++ [call] |} in
    match serve (remote w) (fetches w) call with
    | Rejects e => (Throws e, w')
    | Resolves response => (handle_response response, w')
    end.

(** *** Documents *)

Definition createDocument (title : string) : Net (option Document.t) :=
  request "/documents"
    {| RequestInit.method := Some POST;
       RequestInit.body := Some (body_title title) |}.

Definition getDocument (documentId : string) : Net (option Document.t) :=
  request ("/documents/" ++ encodeURIComponent documentId)
    RequestInit.empty.

Definition batchUpdate (documentId : string) (requests : list Request.t)
  : Net (option BatchUpdateResponse.t) :=
  let body := body_requests requests in
  request ("/documents/" ++ encodeURIComponent documentId ++ ":batchUpdate")
    {| RequestInit.method := Some POST; RequestInit.body := Some body |}.

(** *** Connection *)

Definition testConnection : Net ConnectionStatus.t :=
  try_catch
    (testDoc <- createDocument "MCP Connection Test" ;;
     documentId <- read testDoc Document.documentId "documentId" ;;
     ret {| ConnectionStatus.connected := true;
            ConnectionStatus.message :=
              JString ("Successfully connected to Google Docs API. "
                       ++ "Test document created with ID: " ++ documentId) |})
    (fun error =>
       ret {| ConnectionStatus.connected := false;
              ConnectionStatus.message :=
                message_or error (JString "Connection failed") |}).

(** *** Text operations *)

Definition insertText (documentId text : string) (index : Z) :=
  batchUpdate documentId
    [Request.insertText text {| Location.index := index |}].

Definition deleteContent (documentId : string) (startIndex endIndex : Z) :=
  batchUpdate documentId
    [Request.deleteContentRange
       {| Range.startIndex := startIndex; Range.endIndex := endIndex |}].

Definition replaceAllText (documentId findText replaceText : string)
    (matchCase : option bool) :=
  let matchCase := match matchCase with Some b => b | None => false end in
  batchUpdate documentId
    [Request.replaceAllText findText matchCase replaceText].

(** [content.slice(-1)] *)
Definition slice_last {A} (content : list A) : list A :=
  skipn (List.length content - 1) content.

(** [doc.body?.content?.slice(-1)[0]?.endIndex || 1] for a defined [doc] *)
Definition lastEndIndex (doc : Document.t) : Z :=
  let content :=
    match Document.body doc with
    | Some body => Body.content body
    | None => None
    end in
  let last :=
    match content with
    | Some content => nth_error (slice_last content) 0
    | None => None
    end in
  let endIndex :=
    match last with
    | Some element => StructuralElement.endIndex element
    | None => None
    end in
  match endIndex with
  | Some e => if e =? 0 then 1 else e
  | None => 1
  end.

Definition appendText (documentId text : string)
  : Net (option BatchUpdateResponse.t) :=
  (* First get the document to find the end index *)
  doc <- getDocument documentId ;;
  endIndex <- read doc lastEndIndex "body" ;;
  (* Insert at the end (before the final newline) *)
  insertText documentId text (Z.max 1 (endIndex - 1)).

(** *** Text styling *)

Definition range (startIndex endIndex : Z) : Range.t :=
  {| Range.startIndex := startIndex; Range.endIndex := endIndex |}.

Definition updateTextStyle (documentId : string) (startIndex endIndex : Z)
    (textStyle : Style) (fields : string) :=
  batchUpdate documentId
    [Request.updateTextStyle (range startIndex endIndex) textStyle fields].

Definition updateParagraphStyle (documentId : string)
    (startIndex endIndex : Z) (paragraphStyle : Style) (fields : string) :=
  batchUpdate documentId
    [Request.updateParagraphStyle (range startIndex endIndex)
       paragraphStyle fields].

(** *** Lists/Bullets *)

Definition createParagraphBullets (documentId : string)
    (startIndex endIndex : Z) (bulletPreset : option string) :=
  batchUpdate documentId
    [Request.createParagraphBullets (range startIndex endIndex)
       bulletPreset].

Definition deleteParagraphBullets (documentId : string)
    (startIndex endIndex : Z) :=
  batchUpdate documentId
    [Request.deleteParagraphBullets (range startIndex endIndex)].

(** *** Named ranges *)

Definition createNamedRange (documentId name : string)
    (startIndex endIndex : Z) :=
  batchUpdate documentId
    [Request.createNamedRange name (range startIndex endIndex)].

Definition deleteNamedRange (documentId : string)
    (namedRangeId name : option string) :=
  batchUpdate documentId [Request.deleteNamedRange namedRangeId name].

Definition replaceNamedRangeContent (documentId text : string)
    (namedRangeId namedRangeName : option string) :=
  batchUpdate documentId
    [Request.replaceNamedRangeContent namedRangeId namedRangeName text].

(** *** Tables *)

Definition location (index : Z) : Location.t :=
  {| Location.index := index |}.

Definition cell (tableStartIndex rowIndex columnIndex : Z)
  : TableCellLocation.t :=
  {| TableCellLocation.tableStartLocation := location tableStartIndex;
     TableCellLocation.rowIndex := rowIndex;
     TableCellLocation.columnIndex := columnIndex |}.

Definition tableRange (tableStartIndex rowIndex columnIndex : Z)
    (rowSpan columnSpan : Z) : TableRange.t :=
  {| TableRange.tableCellLocation :=
       cell tableStartIndex rowIndex columnIndex;
     TableRange.rowSpan := rowSpan;
     TableRange.columnSpan := columnSpan |}.

Definition insertTable (documentId : string) (rows columns index : Z) :=
  batchUpdate documentId
    [Request.insertTable rows columns (location index)].

Definition insertTableRow (documentId : string)
    (tableStartIndex rowIndex columnIndex : Z) (insertBelow : bool) :=
  batchUpdate documentId
    [Request.insertTableRow (cell tableStartIndex rowIndex columnIndex)
       insertBelow].

Definition insertTableColumn (documentId : string)
    (tableStartIndex rowIndex columnIndex : Z) (insertRight : bool) :=
  batchUpdate documentId
    [Request.insertTableColumn (cell tableStartIndex rowIndex columnIndex)
       insertRight].

Definition deleteTableRow (documentId : string)
    (tableStartIndex rowIndex columnIndex : Z) :=
  batchUpdate documentId
    [Request.deleteTableRow (cell tableStartIndex rowIndex columnIndex)].

Definition deleteTableColumn (documentId : string)
    (tableStartIndex rowIndex columnIndex : Z) :=
  batchUpdate documentId
    [Request.deleteTableColumn (cell tableStartIndex rowIndex columnIndex)].

Definition mergeTableCells (documentId : string)
    (tableStartIndex rowIndex columnIndex rowSpan columnSpan : Z) :=
  batchUpdate documentId
    [Request.mergeTableCells
       (tableRange tableStartIndex rowIndex columnIndex rowSpan columnSpan)].

Definition unmergeTableCells (documentId : string)
    (tableStartIndex rowIndex columnIndex rowSpan columnSpan : Z) :=
  batchUpdate documentId
    [Request.unmergeTableCells
       (tableRange tableStartIndex rowIndex columnIndex rowSpan columnSpan)].

Definition updateTableCellStyle (documentId : string)
    (tableStartIndex rowIndex columnIndex rowSpan columnSpan : Z)
    (tableCellStyle : Style) (fields : string) :=
  batchUpdate documentId
    [Request.updateTableCellStyle
       (tableRange tableStartIndex rowIndex columnIndex rowSpan columnSpan)
       tableCellStyle fields].

Definition updateTableRowStyle (documentId : string) (tableStartIndex : Z)
    (rowIndices : list Z) (tableRowStyle : Style) (fields : string) :=
  batchUpdate documentId
    [Request.updateTableRowStyle (location tableStartIndex) rowIndices
       tableRowStyle fields].

Definition updateTableColumnProperties (documentId : string)
    (tableStartIndex : Z) (columnIndices : list Z)
    (tableColumnProperties : Style) (fields : string) :=
  batchUpdate documentId
    [Request.updateTableColumnProperties (location tableStartIndex)
       columnIndices tableColumnProperties fields].

Definition pinTableHeaderRows (documentId : string)
    (tableStartIndex pinnedHeaderRowsCount : Z) :=
  batchUpdate documentId
    [Request.pinTableHeaderRows (location tableStartIndex)
       pinnedHeaderRowsCount].

(** *** Images *)

Definition PT (magnitude : Q) : Dimension.t :=
  {| Dimension.magnitude := magnitude; Dimension.unit := "PT" |}.

(** [width && height ? {...} : undefined]: a number is truthy unless it
    is zero. *)
Definition objectSize (width height : option Q) : option Size.t :=
  match width, height with
  | Some w, Some h =>
      if negb (Qnum w =? 0) && negb (Qnum h =? 0)
      then Some {| Size.width := PT w; Size.height := PT h |}
      else None
  | _, _ => None
  end.

Definition insertInlineImage (documentId uri : string) (index : Z)
    (width height : option Q) :=
  batchUpdate documentId
    [Request.insertInlineImage uri (location index)
       (objectSize width height)].

Definition replaceImage (documentId imageObjectId uri : string) :=
  batchUpdate documentId [Request.replaceImage imageObjectId uri].

Definition deletePositionedObject (documentId objectId : string) :=
  batchUpdate documentId [Request.deletePositionedObject objectId].

(** *** Page breaks and section breaks *)

Definition insertPageBreak (documentId : string) (index : Z) :=
  batchUpdate documentId [Request.insertPageBreak (location index)].

Definition insertSectionBreak (documentId : string) (index : Z)
    (sectionType : string) :=
  batchUpdate documentId
    [Request.insertSectionBreak (location index) sectionType].

(** *** Headers and footers *)

(** [sectionBreakIndex ? { index: sectionBreakIndex } : undefined] *)
Definition sectionBreakLocation (sectionBreakIndex : option Z)
  : option Location.t :=
  match sectionBreakIndex with
  | Some i => if i =? 0 then None else Some (location i)
  | None => None
  end.

Definition createHeader (documentId type : string)
    (sectionBreakIndex : option Z) :=
  batchUpdate documentId
    [Request.createHeader type (sectionBreakLocation sectionBreakIndex)].

Definition createFooter (documentId type : string)
    (sectionBreakIndex : option Z) :=
  batchUpdate documentId
    [Request.createFooter type (sectionBreakLocation sectionBreakIndex)].

Definition deleteHeader (documentId headerId : string) :=
  batchUpdate documentId [Request.deleteHeader headerId].

Definition deleteFooter (documentId footerId : string) :=
  batchUpdate documentId [Request.deleteFooter footerId].

(** *** Footnotes *)

Definition createFootnote (documentId : string) (index : Z) :=
  batchUpdate documentId [Request.createFootnote (location index)].

(** *** Document style *)

Definition updateDocumentStyle (documentId : string)
    (documentStyle : Style) (fields : string) :=
  batchUpdate documentId [Request.updateDocumentStyle documentStyle fields].

Definition updateSectionStyle (documentId : string)
    (startIndex endIndex : Z) (sectionStyle : Style) (fields : string) :=
  batchUpdate documentId
    [Request.updateSectionStyle (range startIndex endIndex) sectionStyle
       fields].
End Impl.
End GoogleDocsClientImpl.

(** ** The interface [GoogleDocsClient]

    One call per method of the interface, indexed by what the promise
    resolves with ([undefined], which a 204 produces behind the declared
    type, is [None]).  A client is any function answering these calls. *)
Module Call.
Definition Updated : Type := option BatchUpdateResponse.t.

Inductive t : Type -> Type :=
| testConnection : t ConnectionStatus.t
| createDocument (title : string) : t (option Document.t)
| getDocument (documentId : string) : t (option Document.t)
| batchUpdate (documentId : string) (requests : list Request.t) : t Updated
| insertText (documentId text : string) (index : Z) : t Updated
| deleteContent (documentId : string) (startIndex endIndex : Z) : t Updated
| replaceAllText (documentId findText replaceText : string)
                 (matchCase : option bool) : t Updated
| appendText (documentId text : string) : t Updated
| updateTextStyle (documentId : string) (startIndex endIndex : Z)
                  (textStyle : Style) (fields : string) : t Updated
| updateParagraphStyle (documentId : string) (startIndex endIndex : Z)
                       (paragraphStyle : Style) (fields : string) : t Updated
| createParagraphBullets (documentId : string) (startIndex endIndex : Z)
                         (bulletPreset : option string) : t Updated
| deleteParagraphBullets (documentId : string) (startIndex endIndex : Z)
  : t Updated
| createNamedRange (documentId name : string) (startIndex endIndex : Z)
  : t Updated
| deleteNamedRange (documentId : string) (namedRangeId name : option string)
  : t Updated
| replaceNamedRangeContent (documentId text : string)
                           (namedRangeId namedRangeName : option string)
  : t Updated
| insertTable (documentId : string) (rows columns index : Z) : t Updated
| insertTableRow (documentId : string)
                 (tableStartIndex rowIndex columnIndex : Z)
                 (insertBelow : bool) : t Updated
| insertTableColumn (documentId : string)
                    (tableStartIndex rowIndex columnIndex : Z)
                    (insertRight : bool) : t Updated
| deleteTableRow (documentId : string)
                 (tableStartIndex rowIndex columnIndex : Z) : t Updated
| deleteTableColumn (documentId : string)
                    (tableStartIndex rowIndex columnIndex : Z) : t Updated
| mergeTableCells (documentId : string)
    (tableStartIndex rowIndex columnIndex rowSpan columnSpan : Z) : t Updated
| unmergeTableCells (documentId : string)
    (tableStartIndex rowIndex columnIndex rowSpan columnSpan : Z) : t Updated
| updateTableCellStyle (documentId : string)
    (tableStartIndex rowIndex columnIndex rowSpan columnSpan : Z)
    (tableCellStyle : Style) (fields : string) : t Updated
| updateTableRowStyle (documentId : string) (tableStartIndex : Z)
    (rowIndices : list Z) (tableRowStyle : Style) (fields : string)
  : t Updated
| updateTableColumnProperties (documentId : string) (tableStartIndex : Z)
    (columnIndices : list Z) (tableColumnProperties : Style)
    (fields : string) : t Updated
| pinTableHeaderRows (documentId : string)
    (tableStartIndex pinnedHeaderRowsCount : Z) : t Updated
| insertInlineImage (documentId uri : string) (index : Z)
                    (width height : option Q) : t Updated
| replaceImage (documentId imageObjectId uri : string) : t Updated
| deletePositionedObject (documentId objectId : string) : t Updated
| insertPageBreak (documentId : string) (index : Z) : t Updated
| insertSectionBreak (documentId : string) (index : Z)
                     (sectionType : string) : t Updated
| createHeader (documentId type : string) (sectionBreakIndex : option Z)
  : t Updated
| createFooter (documentId type : string) (sectionBreakIndex : option Z)
  : t Updated
| deleteHeader (documentId headerId : string) : t Updated
| deleteFooter (documentId footerId : string) : t Updated
| createFootnote (documentId : string) (index : Z) : t Updated
| updateDocumentStyle (documentId : string) (documentStyle : Style)
                      (fields : string) : t Updated
| updateSectionStyle (documentId : string) (startIndex endIndex : Z)
                     (sectionStyle : Style) (fields : string) : t Updated.
End Call.

Definition GoogleDocsClient : Type := forall T, Call.t T -> Net T.

(** [createGoogleDocsClient]: the implementation answers each call of the
    interface with its method. *)
Definition createGoogleDocsClient (credentials : TenantCredentials.t)
  : GoogleDocsClient :=
  fun T call =>
    let this := credentials in
    match call in Call.t T return Net T with
    | Call.testConnection => GoogleDocsClientImpl.testConnection this
    | Call.createDocument title => GoogleDocsClientImpl.createDocument this title
    | Call.getDocument d => GoogleDocsClientImpl.getDocument this d
    | Call.batchUpdate d requests =>
        GoogleDocsClientImpl.batchUpdate this d requests
    | Call.insertText d text index =>
        GoogleDocsClientImpl.insertText this d text index
    | Call.deleteContent d s e => GoogleDocsClientImpl.deleteContent this d s e
    | Call.replaceAllText d f r m =>
        GoogleDocsClientImpl.replaceAllText this d f r m
    | Call.appendText d text => GoogleDocsClientImpl.appendText this d text
    | Call.updateTextStyle d s e st f =>
        GoogleDocsClientImpl.updateTextStyle this d s e st f
    | Call.updateParagraphStyle d s e st f =>
        GoogleDocsClientImpl.updateParagraphStyle this d s e st f
    | Call.createParagraphBullets d s e p =>
        GoogleDocsClientImpl.createParagraphBullets this d s e p
    | Call.deleteParagraphBullets d s e =>
        GoogleDocsClientImpl.deleteParagraphBullets this d s e
    | Call.createNamedRange d n s e =>
        GoogleDocsClientImpl.createNamedRange this d n s e
    | Call.deleteNamedRange d i n =>
        GoogleDocsClientImpl.deleteNamedRange this d i n
    | Call.replaceNamedRangeContent d t i n =>
        GoogleDocsClientImpl.replaceNamedRangeContent this d t i n
    | Call.insertTable d r c i => GoogleDocsClientImpl.insertTable this d r c i
    | Call.insertTableRow d t r c b =>
        GoogleDocsClientImpl.insertTableRow this d t r c b
    | Call.insertTableColumn d t r c b =>
        GoogleDocsClientImpl.insertTableColumn this d t r c b
    | Call.deleteTableRow d t r c =>
        GoogleDocsClientImpl.deleteTableRow this d t r c
    | Call.deleteTableColumn d t r c =>
        GoogleDocsClientImpl.deleteTableColumn this d t r c
    | Call.mergeTableCells d t r c rs cs =>
        GoogleDocsClientImpl.mergeTableCells this d t r c rs cs
    | Call.unmergeTableCells d t r c rs cs =>
        GoogleDocsClientImpl.unmergeTableCells this d t r c rs cs
    | Call.updateTableCellStyle d t r c rs cs st f =>
        GoogleDocsClientImpl.updateTableCellStyle this d t r c rs cs st f
    | Call.updateTableRowStyle d t rows st f =>
        GoogleDocsClientImpl.updateTableRowStyle this d t rows st f
    | Call.updateTableColumnProperties d t cols p f =>
        GoogleDocsClientImpl.updateTableColumnProperties this d t cols p f
    | Call.pinTableHeaderRows d t n =>
        GoogleDocsClientImpl.pinTableHeaderRows this d t n
    | Call.insertInlineImage d u i w h =>
        GoogleDocsClientImpl.insertInlineImage this d u i w h
    | Call.replaceImage d i u => GoogleDocsClientImpl.replaceImage this d i u
    | Call.deletePositionedObject d o =>
        GoogleDocsClientImpl.deletePositionedObject this d o
    | Call.insertPageBreak d i => GoogleDocsClientImpl.insertPageBreak this d i
    | Call.insertSectionBreak d i t =>
        GoogleDocsClientImpl.insertSectionBreak this d i t
    | Call.createHeader d t i => GoogleDocsClientImpl.createHeader this d t i
    | Call.createFooter d t i => GoogleDocsClientImpl.createFooter this d t i
    | Call.deleteHeader d h => GoogleDocsClientImpl.deleteHeader this d h
    | Call.deleteFooter d f => GoogleDocsClientImpl.deleteFooter this d f
    | Call.createFootnote d i => GoogleDocsClientImpl.createFootnote this d i
    | Call.updateDocumentStyle d st f =>
        GoogleDocsClientImpl.updateDocumentStyle this d st f
    | Call.updateSectionStyle d s e st f =>
        GoogleDocsClientImpl.updateSectionStyle this d s e st f
    end.

(* ========================================================================= *)
(** * Tool results and formatters *)
(* ========================================================================= *)

(** The raw response handed to a formatter. *)
Inductive Data : Type :=
| data_undefined
| data_empty_object
| data_Document (document : Document.t)
| data_BatchUpdateResponse (response : BatchUpdateResponse.t)
| data_ConnectionStatus (status : ConnectionStatus.t).

Definition data_of_document (d : option Document.t) : Data :=
  match d with Some d => data_Document d | None => data_undefined end.

Definition data_of_update (r : Call.Updated) : Data :=
  match r with
  | Some r => data_BatchUpdateResponse r
  | None => data_undefined
  end.

(** The [text] of a content item: the value given to [JSON.stringify(_, null,
    2)], or a template literal. *)
Inductive Text : Type :=
| text_message_data (message : string) (data : Data)
| text_error (error : json)
| text_data (data : Data)
| text_template (prefix : string) (value : json).

(** [{ content: [{ type: 'text', text }], isError }]; an absent [isError]
    is [false]. *)
Module CallToolResult.
Record t : Type := { content : list Text; isError : bool }.
End CallToolResult.

(** Modelled from the spec: utils/formatters.ts ([formatSuccess],
    [formatError], [formatResponse]) is not among the sources.  The spec gives
    the uniform envelope: [{ message: string, data: <raw response> }] for
    success, [{ error: message }] with an error flag for failure.
    [formatResponse], which only the get tool uses, is taken as the raw
    response without a message. *)
Definition formatSuccess (message : string) (data : Data) : CallToolResult.t :=
  {| CallToolResult.content := [text_message_data message data];
     CallToolResult.isError := false |}.

Definition formatError (error : Error) : CallToolResult.t :=
  {| CallToolResult.content :=
       [text_error (message_or error (JString "Unknown error"))];
     CallToolResult.isError := true |}.

Definition formatResponse (data : Data) : CallToolResult.t :=
  {| CallToolResult.content := [text_data data];
     CallToolResult.isError := false |}.

(* ========================================================================= *)
(** * Input schemas (zod)

    A schema reads the value of a property, [None] when the property is
    absent, and either yields the parsed value or fails. *)
(* ========================================================================= *)

Module z.
Definition t (A : Type) : Type := option json -> option A.

Definition string : t String.string :=
  fun v => match v with Some (JString s) => Some s | _ => None end.

Definition number : t Q :=
  fun v => match v with Some (JNumber q) => Some q | _ => None end.

Definition boolean : t bool :=
  fun v => match v with Some (JBool b) => Some b | _ => None end.

(** [.int()] *)
Definition int (s : t Q) : t Z :=
  fun v =>
    match s v with
    | Some q =>
        if Qnum q mod Zpos (Qden q) =? 0
        then Some (Qnum q / Zpos (Qden q)) else None
    | None => None
    end.

(** [.min(m)] after [.int()] *)
Definition min (m : Z) (s : t Z) : t Z :=
  fun v =>
    match s v with
    | Some n => if m <=? n then Some n else None
    | None => None
    end.

(** [.min(m)] on a number *)
Definition min_number (m : Z) (s : t Q) : t Q :=
  fun v =>
    match s v with
    | Some q => if m * Zpos (Qden q) <=? Qnum q then Some q else None
    | None => None
    end.

(** [.positive()] *)
Definition positive (s : t Q) : t Q :=
  fun v =>
    match s v with
    | Some q => if 0 <? Qnum q then Some q else None
    | None => None
    end.

(** [.url()], given the test that the URL constructor accepts the string *)
Definition url (isURL : String.string -> bool) (s : t String.string)
  : t String.string :=
  fun v =>
    match s v with
    | Some u => if isURL u then Some u else None
    | None => None
    end.

Definition enum (values : list String.string) : t String.string :=
  fun v =>
    match v with
    | Some (JString s) =>
        if existsb (String.eqb s) values then Some s else None
    | _ => None
    end.

Definition optional {A} (s : t A) : t (option A) :=
  fun v =>
    match v with
    | None => Some None
    | Some _ => option_map Some (s v)
    end.

Definition default {A} (d : A) (s : t A) : t A :=
  fun v =>
    match v with
    | None => Some d
    | Some _ => s v
    end.

Fixpoint all {A} (s : t A) (items : list json) : option (list A) :=
  match items with
  | [] => Some []
  | item :: rest =>
      match s (Some item), all s rest with
      | Some a, Some l => Some (a :: l)
      | _, _ => None
      end
  end.

Definition array {A} (s : t A) : t (list A) :=
  fun v => match v with Some (JArray items) => all s items | _ => None end.

(** [z.record(z.string(), z.unknown())] *)
Definition record : t (list (String.string * json)) :=
  fun v => match v with Some (JObject ms) => Some ms | _ => None end.

(** [z.object(shape)], the schema [server.tool] builds from a raw shape *)
Definition object {A} (shape : list (String.string * json) -> option A)
  : t A :=
  fun v => match v with Some (JObject ms) => shape ms | _ => None end.
End z.

Declare Scope shape_scope.
Delimit Scope shape_scope with shape.
Notation "x <~ s 'of' k 'in' o ;; rest" :=
  (match s (lookup k o) with Some x => rest | None => None end)
  (at level 61, s at next level, k at next level, o at next level,
   right associativity) : shape_scope.

(* ========================================================================= *)
(** * Tools *)
(* ========================================================================= *)

(** What [server.tool(name, description, shape, handler)] registers; the
    description is documentation only. *)
Module Tool.
Record t : Type := {
  name : string;
  Args : Type;
  inputSchema : z.t Args;
  handler : Args -> Net CallToolResult.t
}.
End Tool.

Definition quote : string := String (ascii_of_nat 34) EmptyString.

(** [`${s}`] of [string | undefined] *)
Definition show (s : option string) : string :=
  match s with Some s => s | None => "undefined" end.

(** [result.replies?.[0]] *)
Definition first_reply (result : Call.Updated) : Net (option Reply.t) :=
  read result
    (fun r =>
       match BatchUpdateResponse.replies r with
       | Some replies => nth_error replies 0
       | None => None
       end)
    "replies".

(** [reply?.member?.id ? ` (ID: ${id})` : ''] *)
Definition id_suffix (reply : option Reply.t)
    (member : Reply.t -> option string) : string :=
  match reply with
  | Some r =>
      if truthy_string (member r) then " (ID: " ++ show (member r) ++ ")"
      else EmptyString
  | None => EmptyString
  end.

Section Tools.
Variable client : GoogleDocsClient.
(** whether [new URL(s)] accepts [s], which is what [.url()] tests *)
Variable isURL : string -> bool.

Local Open Scope shape_scope.

(** ** tools/documents.ts *)

Definition googledocs_create : Tool.t :=
  {| Tool.name := "googledocs_create";
     Tool.inputSchema := z.object (fun o =>
       title <~ z.string of "title" in o ;;
       Some title);
     Tool.handler := fun title =>
       try_catch
         (document <- client (Call.createDocument title) ;;
          documentId <- read document Document.documentId "documentId" ;;
          ret (formatSuccess ("Document created: " ++ documentId)
                 (data_of_document document)))
         (fun error => ret (formatError error)) |}.

Definition googledocs_get : Tool.t :=
  {| Tool.name := "googledocs_get";
     Tool.inputSchema := z.object (fun o =>
       documentId <~ z.string of "documentId" in o ;;
       Some documentId);
     Tool.handler := fun documentId =>
       try_catch
         (document <- client (Call.getDocument documentId) ;;
          ret (formatResponse (data_of_document document)))
         (fun error => ret (formatError error)) |}.

Definition googledocs_batch_update : Tool.t :=
  {| Tool.name := "googledocs_batch_update";
     Tool.inputSchema := z.object (fun o =>
       documentId <~ z.string of "documentId" in o ;;
       requests <~ z.array z.record of "requests" in o ;;
       Some (documentId, requests));
     Tool.handler := fun '(documentId, requests) =>
       try_catch
         (result <- client
            (Call.batchUpdate documentId (map Request.raw requests)) ;;
          ret (formatSuccess "Batch update completed"
                 (data_of_update result)))
         (fun error => ret (formatError error)) |}.

Definition registerDocumentTools : list Tool.t :=
  [googledocs_create; googledocs_get; googledocs_batch_update].

(** ** tools/content.ts *)

Definition googledocs_insert_text : Tool.t :=
  {| Tool.name := "googledocs_insert_text";
     Tool.inputSchema := z.object (fun o =>
       documentId <~ z.string of "documentId" in o ;;
       text <~ z.string of "text" in o ;;
       index <~ z.min 1 (z.int z.number) of "index" in o ;;
       Some (documentId, text, index));
     Tool.handler := fun '(documentId, text, index) =>
       try_catch
         (result <- client (Call.insertText documentId text index) ;;
          ret (formatSuccess
                 ("Text inserted at index " ++ string_of_Z index)
                 (data_of_update result)))
         (fun error => ret (formatError error)) |}.

Definition googledocs_delete_content : Tool.t :=
  {| Tool.name := "googledocs_delete_content";
     Tool.inputSchema := z.object (fun o =>
       documentId <~ z.string of "documentId" in o ;;
       startIndex <~ z.min 1 (z.int z.number) of "startIndex" in o ;;
       endIndex <~ z.min 1 (z.int z.number) of "endIndex" in o ;;
       Some (documentId, startIndex, endIndex));
     Tool.handler := fun '(documentId, startIndex, endIndex) =>
       try_catch
         (result <- client
            (Call.deleteContent documentId startIndex endIndex) ;;
          ret (formatSuccess
                 ("Content deleted from " ++ string_of_Z startIndex
                  ++ " to " ++ string_of_Z endIndex)
                 (data_of_update result)))
         (fun error => ret (formatError error)) |}.

(** [result.replies?.[0]?.replaceAllText?.occurrencesChanged || 0] *)
Definition occurrencesChanged (reply : option Reply.t) : Z :=
  match reply with
  | Some r =>
      match Reply.replaceAllText r with
      | Some n => n
      | None => 0
      end
  | None => 0
  end.

Definition googledocs_replace_text : Tool.t :=
  {| Tool.name := "googledocs_replace_text";
     Tool.inputSchema := z.object (fun o =>
       documentId <~ z.string of "documentId" in o ;;
       findText <~ z.string of "findText" in o ;;
       replaceText <~ z.string of "replaceText" in o ;;
       matchCase <~ z.default false z.boolean of "matchCase" in o ;;
       Some (documentId, findText, replaceText, matchCase));
     Tool.handler := fun '(documentId, findText, replaceText, matchCase) =>
       try_catch
         (result <- client
            (Call.replaceAllText documentId findText replaceText
               (Some matchCase)) ;;
          reply <- first_reply result ;;
          let occurrences := occurrencesChanged reply in
          ret (formatSuccess
                 ("Replaced " ++ string_of_Z occurrences
                  ++ " occurrence(s) of " ++ quote ++ findText ++ quote)
                 (data_of_update result)))
         (fun error => ret (formatError error)) |}.

Definition googledocs_append_text : Tool.t :=
  {| Tool.name := "googledocs_append_text";
     Tool.inputSchema := z.object (fun o =>
       documentId <~ z.string of "documentId" in o ;;
       text <~ z.string of "text" in o ;;
       Some (documentId, text));
     Tool.handler := fun '(documentId, text) =>
       try_catch
         (result <- client (Call.appendText documentId text) ;;
          ret (formatSuccess "Text appended to document"
                 (data_of_update result)))
         (fun error => ret (formatError error)) |}.

Definition googledocs_insert_page_break : Tool.t :=
  {| Tool.name := "googledocs_insert_page_break";
     Tool.inputSchema := z.object (fun o =>
       documentId <~ z.string of "documentId" in o ;;
       index <~ z.min 1 (z.int z.number) of "index" in o ;;
       Some (documentId, index));
     Tool.handler := fun '(documentId, index) =>
       try_catch
         (result <- client (Call.insertPageBreak documentId index) ;;
          ret (formatSuccess
                 ("Page break inserted at index " ++ string_of_Z index)
                 (data_of_update result)))
         (fun error => ret (formatError error)) |}.

Definition googledocs_insert_section_break : Tool.t :=
  {| Tool.name := "googledocs_insert_section_break";
     Tool.inputSchema := z.object (fun o =>
       documentId <~ z.string of "documentId" in o ;;
       index <~ z.min 1 (z.int z.number) of "index" in o ;;
       sectionType <~
         z.default "NEXT_PAGE" (z.enum ["CONTINUOUS"; "NEXT_PAGE"])
         of "sectionType" in o ;;
       Some (documentId, index, sectionType));
     Tool.handler := fun '(documentId, index, sectionType) =>
       try_catch
         (result <- client
            (Call.insertSectionBreak documentId index sectionType) ;;
          ret (formatSuccess
                 ("Section break (" ++ sectionType
                  ++ ") inserted at index " ++ string_of_Z index)
                 (data_of_update result)))
         (fun error => ret (formatError error)) |}.

Definition registerContentTools : list Tool.t :=
  [googledocs_insert_text; googledocs_delete_content;
   googledocs_replace_text; googledocs_append_text;
   googledocs_insert_page_break; googledocs_insert_section_break].

(** ** tools/formatting.ts *)

(** [textStyle.k = v; fields.push(k)] when [v !== undefined] *)
Definition assign (k : string) (v : option json)
    (acc : Style * list string) : Style * list string :=
  match v with
  | Some v => ((fst acc ++ [(k, v)])%list, (snd acc ++ [k])%list)
  | None => acc
  end.

Definition dimension_PT (magnitude : Q) : json :=
  JObject [("magnitude", JNumber magnitude); ("unit", JString "PT")].

Definition googledocs_format_text : Tool.t :=
  {| Tool.name := "googledocs_format_text";
     Tool.inputSchema := z.object (fun o =>
       documentId <~ z.string of "documentId" in o ;;
       startIndex <~ z.min 1 (z.int z.number) of "startIndex" in o ;;
       endIndex <~ z.min 1 (z.int z.number) of "endIndex" in o ;;
       bold <~ z.optional z.boolean of "bold" in o ;;
       italic <~ z.optional z.boolean of "italic" in o ;;
       underline <~ z.optional z.boolean of "underline" in o ;;
       strikethrough <~ z.optional z.boolean of "strikethrough" in o ;;
       fontSize <~ z.optional (z.positive z.number) of "fontSize" in o ;;
       fontFamily <~ z.optional z.string of "fontFamily" in o ;;
       Some (documentId, startIndex, endIndex, bold, italic, underline,
             strikethrough, fontSize, fontFamily));
     Tool.handler :=
       fun '(documentId, startIndex, endIndex, bold, italic, underline,
             strikethrough, fontSize, fontFamily) =>
       try_catch
         (let acc : Style * list string := ([], []) in
          let acc := assign "bold" (option_map JBool bold) acc in
          let acc := assign "italic" (option_map JBool italic) acc in
          let acc := assign "underline" (option_map JBool underline) acc in
          let acc :=
            assign "strikethrough" (option_map JBool strikethrough) acc in
          let acc :=
            assign "fontSize" (option_map dimension_PT fontSize) acc in
          let acc :=
            assign "weightedFontFamily"
              (option_map
                 (fun f => JObject [("fontFamily", JString f)]) fontFamily)
              acc in
          let '(textStyle, fields) := acc in
          if (List.length fields =? 0)%nat then
            ret (formatSuccess "No formatting changes specified"
                   data_empty_object)
          else
            result <- client
              (Call.updateTextStyle documentId startIndex endIndex
                 textStyle (String.concat "," fields)) ;;
            ret (formatSuccess
                   ("Text formatted from " ++ string_of_Z startIndex
                    ++ " to " ++ string_of_Z endIndex)
                   (data_of_update result)))
         (fun error => ret (formatError error)) |}.

Definition googledocs_update_text_style : Tool.t :=
  {| Tool.name := "googledocs_update_text_style";
     Tool.inputSchema := z.object (fun o =>
       documentId <~ z.string of "documentId" in o ;;
       startIndex <~ z.min 1 (z.int z.number) of "startIndex" in o ;;
       endIndex <~ z.min 1 (z.int z.number) of "endIndex" in o ;;
       textStyle <~ z.record of "textStyle" in o ;;
       fields <~ z.string of "fields" in o ;;
       Some (documentId, startIndex, endIndex, textStyle, fields));
     Tool.handler :=
       fun '(documentId, startIndex, endIndex, textStyle, fields) =>
       try_catch
         (result <- client
            (Call.updateTextStyle documentId startIndex endIndex
               textStyle fields) ;;
          ret (formatSuccess
                 ("Text style updated from " ++ string_of_Z startIndex
                  ++ " to " ++ string_of_Z endIndex)
                 (data_of_update result)))
         (fun error => ret (formatError error)) |}.

(** [if (alignment)]: a truthy string *)
Definition if_truthy (s : option string) : option json :=
  if truthy_string s then option_map JString s else None.

Definition googledocs_format_paragraph : Tool.t :=
  {| Tool.name := "googledocs_format_paragraph";
     Tool.inputSchema := z.object (fun o =>
       documentId <~ z.string of "documentId" in o ;;
       startIndex <~ z.min 1 (z.int z.number) of "startIndex" in o ;;
       endIndex <~ z.min 1 (z.int z.number) of "endIndex" in o ;;
       alignment <~
         z.optional (z.enum ["START"; "CENTER"; "END"; "JUSTIFIED"])
         of "alignment" in o ;;
       headingType <~
         z.optional
           (z.enum ["NORMAL_TEXT"; "TITLE"; "SUBTITLE"; "HEADING_1";
                    "HEADING_2"; "HEADING_3"; "HEADING_4"; "HEADING_5";
                    "HEADING_6"])
         of "headingType" in o ;;
       lineSpacing <~ z.optional (z.positive z.number)
         of "lineSpacing" in o ;;
       spaceAbove <~ z.optional (z.min_number 0 z.number)
         of "spaceAbove" in o ;;
       spaceBelow <~ z.optional (z.min_number 0 z.number)
         of "spaceBelow" in o ;;
       Some (documentId, startIndex, endIndex, alignment, headingType,
             lineSpacing, spaceAbove, spaceBelow));
     Tool.handler :=
       fun '(documentId, startIndex, endIndex, alignment, headingType,
             lineSpacing, spaceAbove, spaceBelow) =>
       try_catch
         (let acc : Style * list string := ([], []) in
          let acc := assign "alignment" (if_truthy alignment) acc in
          let acc := assign "namedStyleType" (if_truthy headingType) acc in
          let acc :=
            assign "lineSpacing" (option_map JNumber lineSpacing) acc in
          let acc :=
            assign "spaceAbove" (option_map dimension_PT spaceAbove) acc in
          let acc :=
            assign "spaceBelow" (option_map dimension_PT spaceBelow) acc in
          let '(paragraphStyle, fields) := acc in
          if (List.length fields =? 0)%nat then
            ret (formatSuccess "No paragraph formatting changes specified"
                   data_empty_object)
          else
            result <- client
              (Call.updateParagraphStyle documentId startIndex endIndex
                 paragraphStyle (String.concat "," fields)) ;;
            ret (formatSuccess
                   ("Paragraph formatted from " ++ string_of_Z startIndex
                    ++ " to " ++ string_of_Z endIndex)
                   (data_of_update result)))
         (fun error => ret (formatError error)) |}.

Definition googledocs_update_paragraph_style : Tool.t :=
  {| Tool.name := "googledocs_update_paragraph_style";
     Tool.inputSchema := z.object (fun o =>
       documentId <~ z.string of "documentId" in o ;;
       startIndex <~ z.min 1 (z.int z.number) of "startIndex" in o ;;
       endIndex <~ z.min 1 (z.int z.number) of "endIndex" in o ;;
       paragraphStyle <~ z.record of "paragraphStyle" in o ;;
       fields <~ z.string of "fields" in o ;;
       Some (documentId, startIndex, endIndex, paragraphStyle, fields));
     Tool.handler :=
       fun '(documentId, startIndex, endIndex, paragraphStyle, fields) =>
       try_catch
         (result <- client
            (Call.updateParagraphStyle documentId startIndex endIndex
               paragraphStyle fields) ;;
          ret (formatSuccess
                 ("Paragraph style updated from " ++ string_of_Z startIndex
                  ++ " to " ++ string_of_Z endIndex)
                 (data_of_update result)))
         (fun error => ret (formatError error)) |}.

Definition googledocs_update_document_style : Tool.t :=
  {| Tool.name := "googledocs_update_document_style";
     Tool.inputSchema := z.object (fun o =>
       documentId <~ z.string of "documentId" in o ;;
       documentStyle <~ z.record of "documentStyle" in o ;;
       fields <~ z.string of "fields" in o ;;
       Some (documentId, documentStyle, fields));
     Tool.handler := fun '(documentId, documentStyle, fields) =>
       try_catch
         (result <- client
            (Call.updateDocumentStyle documentId documentStyle fields) ;;
          ret (formatSuccess "Document style updated"
                 (data_of_update result)))
         (fun error => ret (formatError error)) |}.

Definition googledocs_update_section_style : Tool.t :=
  {| Tool.name := "googledocs_update_section_style";
     Tool.inputSchema := z.object (fun o =>
       documentId <~ z.string of "documentId" in o ;;
       startIndex <~ z.min 1 (z.int z.number) of "startIndex" in o ;;
       endIndex <~ z.min 1 (z.int z.number) of "endIndex" in o ;;
       sectionStyle <~ z.record of "sectionStyle" in o ;;
       fields <~ z.string of "fields" in o ;;
       Some (documentId, startIndex, endIndex, sectionStyle, fields));
     Tool.handler :=
       fun '(documentId, startIndex, endIndex, sectionStyle, fields) =>
       try_catch
         (result <- client
            (Call.updateSectionStyle documentId startIndex endIndex
               sectionStyle fields) ;;
          ret (formatSuccess
                 ("Section style updated from " ++ string_of_Z startIndex
                  ++ " to " ++ string_of_Z endIndex)
                 (data_of_update result)))
         (fun error => ret (formatError error)) |}.

Definition registerFormattingTools : list Tool.t :=
  [googledocs_format_text; googledocs_update_text_style;
   googledocs_format_paragraph; googledocs_update_paragraph_style;
   googledocs_update_document_style; googledocs_update_section_style].

(** ** tools/tables.ts *)

(** [indices.join(', ')] *)
Definition join_indices (indices : list Z) : string :=
  String.concat ", " (map string_of_Z indices).

Definition googledocs_insert_table : Tool.t :=
  {| Tool.name := "googledocs_insert_table";
     Tool.inputSchema := z.object (fun o =>
       documentId <~ z.string of "documentId" in o ;;
       rows <~ z.min 1 (z.int z.number) of "rows" in o ;;
       columns <~ z.min 1 (z.int z.number) of "columns" in o ;;
       index <~ z.min 1 (z.int z.number) of "index" in o ;;
       Some (documentId, rows, columns, index));
     Tool.handler := fun '(documentId, rows, columns, index) =>
       try_catch
         (result <- client
            (Call.insertTable documentId rows columns index) ;;
          ret (formatSuccess
                 ("Table (" ++ string_of_Z rows ++ "x" ++ string_of_Z columns
                  ++ ") inserted at index " ++ string_of_Z index)
                 (data_of_update result)))
         (fun error => ret (formatError error)) |}.

Definition googledocs_insert_table_row : Tool.t :=
  {| Tool.name := "googledocs_insert_table_row";
     Tool.inputSchema := z.object (fun o =>
       documentId <~ z.string of "documentId" in o ;;
       tableStartIndex <~ z.min 1 (z.int z.number) of "tableStartIndex" in o ;;
       rowIndex <~ z.min 0 (z.int z.number) of "rowIndex" in o ;;
       columnIndex <~ z.default 0 (z.min 0 (z.int z.number))
         of "columnIndex" in o ;;
       insertBelow <~ z.default true z.boolean of "insertBelow" in o ;;
       Some (documentId, tableStartIndex, rowIndex, columnIndex, insertBelow));
     Tool.handler :=
       fun '(documentId, tableStartIndex, rowIndex, columnIndex, insertBelow) =>
       try_catch
         (result <- client
            (Call.insertTableRow documentId tableStartIndex rowIndex
               columnIndex insertBelow) ;;
          ret (formatSuccess
                 ("Row inserted " ++ (if insertBelow then "below" else "above")
                  ++ " row " ++ string_of_Z rowIndex)
                 (data_of_update result)))
         (fun error => ret (formatError error)) |}.

Definition googledocs_insert_table_column : Tool.t :=
  {| Tool.name := "googledocs_insert_table_column";
     Tool.inputSchema := z.object (fun o =>
       documentId <~ z.string of "documentId" in o ;;
       tableStartIndex <~ z.min 1 (z.int z.number) of "tableStartIndex" in o ;;
       rowIndex <~ z.default 0 (z.min 0 (z.int z.number)) of "rowIndex" in o ;;
       columnIndex <~ z.min 0 (z.int z.number) of "columnIndex" in o ;;
       insertRight <~ z.default true z.boolean of "insertRight" in o ;;
       Some (documentId, tableStartIndex, rowIndex, columnIndex, insertRight));
     Tool.handler :=
       fun '(documentId, tableStartIndex, rowIndex, columnIndex, insertRight) =>
       try_catch
         (result <- client
            (Call.insertTableColumn documentId tableStartIndex rowIndex
               columnIndex insertRight) ;;
          ret (formatSuccess
                 ("Column inserted "
                  ++ (if insertRight then "right of" else "left of")
                  ++ " column " ++ string_of_Z columnIndex)
                 (data_of_update result)))
         (fun error => ret (formatError error)) |}.

Definition googledocs_delete_table_row : Tool.t :=
  {| Tool.name := "googledocs_delete_table_row";
     Tool.inputSchema := z.object (fun o =>
       documentId <~ z.string of "documentId" in o ;;
       tableStartIndex <~ z.min 1 (z.int z.number) of "tableStartIndex" in o ;;
       rowIndex <~ z.min 0 (z.int z.number) of "rowIndex" in o ;;
       columnIndex <~ z.default 0 (z.min 0 (z.int z.number))
         of "columnIndex" in o ;;
       Some (documentId, tableStartIndex, rowIndex, columnIndex));
     Tool.handler :=
       fun '(documentId, tableStartIndex, rowIndex, columnIndex) =>
       try_catch
         (result <- client
            (Call.deleteTableRow documentId tableStartIndex rowIndex
               columnIndex) ;;
          ret (formatSuccess
                 ("Row " ++ string_of_Z rowIndex ++ " deleted")
                 (data_of_update result)))
         (fun error => ret (formatError error)) |}.

Definition googledocs_delete_table_column : Tool.t :=
  {| Tool.name := "googledocs_delete_table_column";
     Tool.inputSchema := z.object (fun o =>
       documentId <~ z.string of "documentId" in o ;;
       tableStartIndex <~ z.min 1 (z.int z.number) of "tableStartIndex" in o ;;
       rowIndex <~ z.default 0 (z.min 0 (z.int z.number)) of "rowIndex" in o ;;
       columnIndex <~ z.min 0 (z.int z.number) of "columnIndex" in o ;;
       Some (documentId, tableStartIndex, rowIndex, columnIndex));
     Tool.handler :=
       fun '(documentId, tableStartIndex, rowIndex, columnIndex) =>
       try_catch
         (result <- client
            (Call.deleteTableColumn documentId tableStartIndex rowIndex
               columnIndex) ;;
          ret (formatSuccess
                 ("Column " ++ string_of_Z columnIndex ++ " deleted")
                 (data_of_update result)))
         (fun error => ret (formatError error)) |}.

Definition googledocs_merge_table_cells : Tool.t :=
  {| Tool.name := "googledocs_merge_table_cells";
     Tool.inputSchema := z.object (fun o =>
       documentId <~ z.string of "documentId" in o ;;
       tableStartIndex <~ z.min 1 (z.int z.number) of "tableStartIndex" in o ;;
       rowIndex <~ z.min 0 (z.int z.number) of "rowIndex" in o ;;
       columnIndex <~ z.min 0 (z.int z.number) of "columnIndex" in o ;;
       rowSpan <~ z.min 1 (z.int z.number) of "rowSpan" in o ;;
       columnSpan <~ z.min 1 (z.int z.number) of "columnSpan" in o ;;
       Some (documentId, tableStartIndex, rowIndex, columnIndex, rowSpan,
             columnSpan));
     Tool.handler :=
       fun '(documentId, tableStartIndex, rowIndex, columnIndex, rowSpan,
             columnSpan) =>
       try_catch
         (result <- client
            (Call.mergeTableCells documentId tableStartIndex rowIndex
               columnIndex rowSpan columnSpan) ;;
          ret (formatSuccess
                 ("Merged " ++ string_of_Z rowSpan ++ "x" ++ string_of_Z columnSpan
                  ++ " cells starting at (" ++ string_of_Z rowIndex ++ ", "
                  ++ string_of_Z columnIndex ++ ")")
                 (data_of_update result)))
         (fun error => ret (formatError error)) |}.

Definition googledocs_unmerge_table_cells : Tool.t :=
  {| Tool.name := "googledocs_unmerge_table_cells";
     Tool.inputSchema := z.object (fun o =>
       documentId <~ z.string of "documentId" in o ;;
       tableStartIndex <~ z.min 1 (z.int z.number) of "tableStartIndex" in o ;;
       rowIndex <~ z.min 0 (z.int z.number) of "rowIndex" in o ;;
       columnIndex <~ z.min 0 (z.int z.number) of "columnIndex" in o ;;
       rowSpan <~ z.min 1 (z.int z.number) of "rowSpan" in o ;;
       columnSpan <~ z.min 1 (z.int z.number) of "columnSpan" in o ;;
       Some (documentId, tableStartIndex, rowIndex, columnIndex, rowSpan,
             columnSpan));
     Tool.handler :=
       fun '(documentId, tableStartIndex, rowIndex, columnIndex, rowSpan,
             columnSpan) =>
       try_catch
         (result <- client
            (Call.unmergeTableCells documentId tableStartIndex rowIndex
               columnIndex rowSpan columnSpan) ;;
          ret (formatSuccess
                 ("Unmerged cells at (" ++ string_of_Z rowIndex ++ ", "
                  ++ string_of_Z columnIndex ++ ")")
                 (data_of_update result)))
         (fun error => ret (formatError error)) |}.

Definition googledocs_update_table_cell_style : Tool.t :=
  {| Tool.name := "googledocs_update_table_cell_style";
     Tool.inputSchema := z.object (fun o =>
       documentId <~ z.string of "documentId" in o ;;
       tableStartIndex <~ z.min 1 (z.int z.number) of "tableStartIndex" in o ;;
       rowIndex <~ z.min 0 (z.int z.number) of "rowIndex" in o ;;
       columnIndex <~ z.min 0 (z.int z.number) of "columnIndex" in o ;;
       rowSpan <~ z.default 1 (z.min 1 (z.int z.number)) of "rowSpan" in o ;;
       columnSpan <~ z.default 1 (z.min 1 (z.int z.number))
         of "columnSpan" in o ;;
       tableCellStyle <~ z.record of "tableCellStyle" in o ;;
       fields <~ z.string of "fields" in o ;;
       Some (documentId, tableStartIndex, rowIndex, columnIndex, rowSpan,
             columnSpan, tableCellStyle, fields));
     Tool.handler :=
       fun '(documentId, tableStartIndex, rowIndex, columnIndex, rowSpan,
             columnSpan, tableCellStyle, fields) =>
       try_catch
         (result <- client
            (Call.updateTableCellStyle documentId tableStartIndex rowIndex
               columnIndex rowSpan columnSpan tableCellStyle fields) ;;
          ret (formatSuccess
                 ("Table cell style updated")
                 (data_of_update result)))
         (fun error => ret (formatError error)) |}.

Definition googledocs_update_table_row_style : Tool.t :=
  {| Tool.name := "googledocs_update_table_row_style";
     Tool.inputSchema := z.object (fun o =>
       documentId <~ z.string of "documentId" in o ;;
       tableStartIndex <~ z.min 1 (z.int z.number) of "tableStartIndex" in o ;;
       rowIndices <~ z.array (z.min 0 (z.int z.number)) of "rowIndices" in o ;;
       tableRowStyle <~ z.record of "tableRowStyle" in o ;;
       fields <~ z.string of "fields" in o ;;
       Some (documentId, tableStartIndex, rowIndices, tableRowStyle, fields));
     Tool.handler :=
       fun '(documentId, tableStartIndex, rowIndices, tableRowStyle, fields) =>
       try_catch
         (result <- client
            (Call.updateTableRowStyle documentId tableStartIndex rowIndices
               tableRowStyle fields) ;;
          ret (formatSuccess
                 ("Table row style updated for rows: "
                  ++ join_indices rowIndices)
                 (data_of_update result)))
         (fun error => ret (formatError error)) |}.

Definition googledocs_update_table_column_properties : Tool.t :=
  {| Tool.name := "googledocs_update_table_column_properties";
     Tool.inputSchema := z.object (fun o =>
       documentId <~ z.string of "documentId" in o ;;
       tableStartIndex <~ z.min 1 (z.int z.number) of "tableStartIndex" in o ;;
       columnIndices <~ z.array (z.min 0 (z.int z.number))
         of "columnIndices" in o ;;
       tableColumnProperties <~ z.record of "tableColumnProperties" in o ;;
       fields <~ z.string of "fields" in o ;;
       Some (documentId, tableStartIndex, columnIndices,
             tableColumnProperties, fields));
     Tool.handler :=
       fun '(documentId, tableStartIndex, columnIndices,
             tableColumnProperties, fields) =>
       try_catch
         (result <- client
            (Call.updateTableColumnProperties documentId tableStartIndex
               columnIndices tableColumnProperties fields) ;;
          ret (formatSuccess
                 ("Table column properties updated for columns: "
                  ++ join_indices columnIndices)
                 (data_of_update result)))
         (fun error => ret (formatError error)) |}.

Definition googledocs_pin_table_header_rows : Tool.t :=
  {| Tool.name := "googledocs_pin_table_header_rows";
     Tool.inputSchema := z.object (fun o =>
       documentId <~ z.string of "documentId" in o ;;
       tableStartIndex <~ z.min 1 (z.int z.number) of "tableStartIndex" in o ;;
       pinnedHeaderRowsCount <~ z.min 0 (z.int z.number)
         of "pinnedHeaderRowsCount" in o ;;
       Some (documentId, tableStartIndex, pinnedHeaderRowsCount));
     Tool.handler :=
       fun '(documentId, tableStartIndex, pinnedHeaderRowsCount) =>
       try_catch
         (result <- client
            (Call.pinTableHeaderRows documentId tableStartIndex
               pinnedHeaderRowsCount) ;;
          ret (formatSuccess
                 ("Pinned " ++ string_of_Z pinnedHeaderRowsCount
                  ++ " header row(s)")
                 (data_of_update result)))
         (fun error => ret (formatError error)) |}.

Definition registerTableTools : list Tool.t :=
  [googledocs_insert_table; googledocs_insert_table_row;
   googledocs_insert_table_column; googledocs_delete_table_row;
   googledocs_delete_table_column; googledocs_merge_table_cells;
   googledocs_unmerge_table_cells; googledocs_update_table_cell_style;
   googledocs_update_table_row_style;
   googledocs_update_table_column_properties;
   googledocs_pin_table_header_rows].

(** ** tools/images.ts *)

Definition googledocs_insert_image : Tool.t :=
  {| Tool.name := "googledocs_insert_image";
     Tool.inputSchema := z.object (fun o =>
       documentId <~ z.string of "documentId" in o ;;
       uri <~ z.url isURL z.string of "uri" in o ;;
       index <~ z.min 1 (z.int z.number) of "index" in o ;;
       width <~ z.optional (z.positive z.number) of "width" in o ;;
       height <~ z.optional (z.positive z.number) of "height" in o ;;
       Some (documentId, uri, index, width, height));
     Tool.handler := fun '(documentId, uri, index, width, height) =>
       try_catch
         (result <- client
            (Call.insertInlineImage documentId uri index width height) ;;
          reply <- first_reply result ;;
          ret (formatSuccess
                 ("Image inserted at index " ++ string_of_Z index
                  ++ id_suffix reply Reply.insertInlineImage)
                 (data_of_update result)))
         (fun error => ret (formatError error)) |}.

Definition googledocs_replace_image : Tool.t :=
  {| Tool.name := "googledocs_replace_image";
     Tool.inputSchema := z.object (fun o =>
       documentId <~ z.string of "documentId" in o ;;
       imageObjectId <~ z.string of "imageObjectId" in o ;;
       uri <~ z.url isURL z.string of "uri" in o ;;
       Some (documentId, imageObjectId, uri));
     Tool.handler := fun '(documentId, imageObjectId, uri) =>
       try_catch
         (result <- client
            (Call.replaceImage documentId imageObjectId uri) ;;
          ret (formatSuccess
                 ("Image " ++ imageObjectId ++ " replaced")
                 (data_of_update result)))
         (fun error => ret (formatError error)) |}.

Definition googledocs_delete_positioned_object : Tool.t :=
  {| Tool.name := "googledocs_delete_positioned_object";
     Tool.inputSchema := z.object (fun o =>
       documentId <~ z.string of "documentId" in o ;;
       objectId <~ z.string of "objectId" in o ;;
       Some (documentId, objectId));
     Tool.handler := fun '(documentId, objectId) =>
       try_catch
         (result <- client
            (Call.deletePositionedObject documentId objectId) ;;
          ret (formatSuccess
                 ("Positioned object " ++ objectId ++ " deleted")
                 (data_of_update result)))
         (fun error => ret (formatError error)) |}.

Definition registerImageTools : list Tool.t :=
  [googledocs_insert_image; googledocs_replace_image;
   googledocs_delete_positioned_object].

(** ** tools/lists.ts *)

Definition bulletPresets : list string :=
  ["BULLET_DISC_CIRCLE_SQUARE"; "BULLET_DIAMONDX_ARROW3D_SQUARE";
   "BULLET_CHECKBOX"; "BULLET_ARROW_DIAMOND_DISC";
   "BULLET_STAR_CIRCLE_SQUARE"; "BULLET_ARROW3D_CIRCLE_SQUARE";
   "BULLET_LEFTTRIANGLE_DIAMOND_DISC"; "NUMBERED_DECIMAL_ALPHA_ROMAN";
   "NUMBERED_DECIMAL_ALPHA_ROMAN_PARENS"; "NUMBERED_DECIMAL_NESTED";
   "NUMBERED_UPPERALPHA_ALPHA_ROMAN";
   "NUMBERED_UPPERROMAN_UPPERALPHA_DECIMAL";
   "NUMBERED_ZERODECIMAL_ALPHA_ROMAN"].

Definition googledocs_create_bullets : Tool.t :=
  {| Tool.name := "googledocs_create_bullets";
     Tool.inputSchema := z.object (fun o =>
       documentId <~ z.string of "documentId" in o ;;
       startIndex <~ z.min 1 (z.int z.number) of "startIndex" in o ;;
       endIndex <~ z.min 1 (z.int z.number) of "endIndex" in o ;;
       bulletPreset <~ z.optional (z.enum bulletPresets)
         of "bulletPreset" in o ;;
       Some (documentId, startIndex, endIndex, bulletPreset));
     Tool.handler := fun '(documentId, startIndex, endIndex, bulletPreset) =>
       try_catch
         (result <- client
            (Call.createParagraphBullets documentId startIndex endIndex
               bulletPreset) ;;
          ret (formatSuccess
                 ("Bullets created from " ++ string_of_Z startIndex ++ " to "
                  ++ string_of_Z endIndex)
                 (data_of_update result)))
         (fun error => ret (formatError error)) |}.

Definition googledocs_delete_bullets : Tool.t :=
  {| Tool.name := "googledocs_delete_bullets";
     Tool.inputSchema := z.object (fun o =>
       documentId <~ z.string of "documentId" in o ;;
       startIndex <~ z.min 1 (z.int z.number) of "startIndex" in o ;;
       endIndex <~ z.min 1 (z.int z.number) of "endIndex" in o ;;
       Some (documentId, startIndex, endIndex));
     Tool.handler := fun '(documentId, startIndex, endIndex) =>
       try_catch
         (result <- client
            (Call.deleteParagraphBullets documentId startIndex endIndex) ;;
          ret (formatSuccess
                 ("Bullets removed from " ++ string_of_Z startIndex ++ " to "
                  ++ string_of_Z endIndex)
                 (data_of_update result)))
         (fun error => ret (formatError error)) |}.

Definition registerListTools : list Tool.t :=
  [googledocs_create_bullets; googledocs_delete_bullets].

(** ** tools/headersfooters.ts *)

Definition googledocs_create_header : Tool.t :=
  {| Tool.name := "googledocs_create_header";
     Tool.inputSchema := z.object (fun o =>
       documentId <~ z.string of "documentId" in o ;;
       type <~ z.default "DEFAULT" (z.enum ["DEFAULT"]) of "type" in o ;;
       sectionBreakIndex <~ z.optional (z.min 1 (z.int z.number))
         of "sectionBreakIndex" in o ;;
       Some (documentId, type, sectionBreakIndex));
     Tool.handler := fun '(documentId, type, sectionBreakIndex) =>
       try_catch
         (result <- client
            (Call.createHeader documentId type sectionBreakIndex) ;;
          reply <- first_reply result ;;
          ret (formatSuccess
                 ("Header created" ++ id_suffix reply Reply.createHeader)
                 (data_of_update result)))
         (fun error => ret (formatError error)) |}.

Definition googledocs_create_footer : Tool.t :=
  {| Tool.name := "googledocs_create_footer";
     Tool.inputSchema := z.object (fun o =>
       documentId <~ z.string of "documentId" in o ;;
       type <~ z.default "DEFAULT" (z.enum ["DEFAULT"]) of "type" in o ;;
       sectionBreakIndex <~ z.optional (z.min 1 (z.int z.number))
         of "sectionBreakIndex" in o ;;
       Some (documentId, type, sectionBreakIndex));
     Tool.handler := fun '(documentId, type, sectionBreakIndex) =>
       try_catch
         (result <- client
            (Call.createFooter documentId type sectionBreakIndex) ;;
          reply <- first_reply result ;;
          ret (formatSuccess
                 ("Footer created" ++ id_suffix reply Reply.createFooter)
                 (data_of_update result)))
         (fun error => ret (formatError error)) |}.

Definition googledocs_delete_header : Tool.t :=
  {| Tool.name := "googledocs_delete_header";
     Tool.inputSchema := z.object (fun o =>
       documentId <~ z.string of "documentId" in o ;;
       headerId <~ z.string of "headerId" in o ;;
       Some (documentId, headerId));
     Tool.handler := fun '(documentId, headerId) =>
       try_catch
         (result <- client
            (Call.deleteHeader documentId headerId) ;;
          ret (formatSuccess
                 ("Header " ++ headerId ++ " deleted")
                 (data_of_update result)))
         (fun error => ret (formatError error)) |}.

Definition googledocs_delete_footer : Tool.t :=
  {| Tool.name := "googledocs_delete_footer";
     Tool.inputSchema := z.object (fun o =>
       documentId <~ z.string of "documentId" in o ;;
       footerId <~ z.string of "footerId" in o ;;
       Some (documentId, footerId));
     Tool.handler := fun '(documentId, footerId) =>
       try_catch
         (result <- client
            (Call.deleteFooter documentId footerId) ;;
          ret (formatSuccess
                 ("Footer " ++ footerId ++ " deleted")
                 (data_of_update result)))
         (fun error => ret (formatError error)) |}.

Definition googledocs_create_footnote : Tool.t :=
  {| Tool.name := "googledocs_create_footnote";
     Tool.inputSchema := z.object (fun o =>
       documentId <~ z.string of "documentId" in o ;;
       index <~ z.min 1 (z.int z.number) of "index" in o ;;
       Some (documentId, index));
     Tool.handler := fun '(documentId, index) =>
       try_catch
         (result <- client
            (Call.createFootnote documentId index) ;;
          reply <- first_reply result ;;
          ret (formatSuccess
                 ("Footnote created at index " ++ string_of_Z index
                  ++ id_suffix reply Reply.createFootnote)
                 (data_of_update result)))
         (fun error => ret (formatError error)) |}.

Definition registerHeaderFooterTools : list Tool.t :=
  [googledocs_create_header; googledocs_create_footer;
   googledocs_delete_header; googledocs_delete_footer;
   googledocs_create_footnote].

(** ** tools/namedranges.ts *)

Definition googledocs_create_named_range : Tool.t :=
  {| Tool.name := "googledocs_create_named_range";
     Tool.inputSchema := z.object (fun o =>
       documentId <~ z.string of "documentId" in o ;;
       name <~ z.string of "name" in o ;;
       startIndex <~ z.min 1 (z.int z.number) of "startIndex" in o ;;
       endIndex <~ z.min 1 (z.int z.number) of "endIndex" in o ;;
       Some (documentId, name, startIndex, endIndex));
     Tool.handler := fun '(documentId, name, startIndex, endIndex) =>
       try_catch
         (result <- client
            (Call.createNamedRange documentId name startIndex endIndex) ;;
          reply <- first_reply result ;;
          ret (formatSuccess
                 ("Named range " ++ quote ++ name ++ quote ++ " created"
                  ++ id_suffix reply Reply.createNamedRange)
                 (data_of_update result)))
         (fun error => ret (formatError error)) |}.

(** The result both named-range handlers return when no identifier is
    given: it is built in the handler, not by [formatError]. *)
Definition missing_identifier (error : string) : CallToolResult.t :=
  {| CallToolResult.content := [text_error (JString error)];
     CallToolResult.isError := true |}.

Definition googledocs_delete_named_range : Tool.t :=
  {| Tool.name := "googledocs_delete_named_range";
     Tool.inputSchema := z.object (fun o =>
       documentId <~ z.string of "documentId" in o ;;
       namedRangeId <~ z.optional z.string of "namedRangeId" in o ;;
       name <~ z.optional z.string of "name" in o ;;
       Some (documentId, namedRangeId, name));
     Tool.handler := fun '(documentId, namedRangeId, name) =>
       if negb (truthy_string namedRangeId) && negb (truthy_string name)
       then
         ret (missing_identifier
                "Either namedRangeId or name must be provided")
       else
         try_catch
           (result <- client
              (Call.deleteNamedRange documentId namedRangeId name) ;;
            ret (formatSuccess
                   ("Named range "
                    ++ (if truthy_string namedRangeId
                        then "ID: " ++ show namedRangeId
                        else quote ++ show name ++ quote)
                    ++ " deleted")
                   (data_of_update result)))
           (fun error => ret (formatError error)) |}.

Definition googledocs_replace_named_range_content : Tool.t :=
  {| Tool.name := "googledocs_replace_named_range_content";
     Tool.inputSchema := z.object (fun o =>
       documentId <~ z.string of "documentId" in o ;;
       text <~ z.string of "text" in o ;;
       namedRangeId <~ z.optional z.string of "namedRangeId" in o ;;
       namedRangeName <~ z.optional z.string of "namedRangeName" in o ;;
       Some (documentId, text, namedRangeId, namedRangeName));
     Tool.handler := fun '(documentId, text, namedRangeId, namedRangeName) =>
       if negb (truthy_string namedRangeId)
          && negb (truthy_string namedRangeName)
       then
         ret (missing_identifier
                "Either namedRangeId or namedRangeName must be provided")
       else
         try_catch
           (result <- client
              (Call.replaceNamedRangeContent documentId text namedRangeId
                 namedRangeName) ;;
            ret (formatSuccess
                   ("Named range content replaced with " ++ quote
                    ++ substring 0 50 text
                    ++ (if (50 <? String.length text)%nat then "..."
                        else EmptyString)
                    ++ quote)
                   (data_of_update result)))
           (fun error => ret (formatError error)) |}.

Definition registerNamedRangeTools : list Tool.t :=
  [googledocs_create_named_range; googledocs_delete_named_range;
   googledocs_replace_named_range_content].

(** ** index.ts: the test connection tool and the registrations of
    [createStatelessServer] *)

Definition googledocs_test_connection : Tool.t :=
  {| Tool.name := "googledocs_test_connection";
     Tool.inputSchema := z.object (fun _ => Some tt);
     Tool.handler := fun _ : unit =>
       try_catch
         (result <- client Call.testConnection ;;
          ret {| CallToolResult.content :=
                   [text_data (data_ConnectionStatus result)];
                 CallToolResult.isError := false |})
         (fun error =>
            ret {| CallToolResult.content :=
                     [text_template "Connection failed: "
                        (message_or error (JString "Unknown error"))];
                   CallToolResult.isError := true |}) |}.

Definition registerAllTools : list Tool.t :=
  (registerDocumentTools ++ registerContentTools
   ++ registerFormattingTools ++ registerTableTools
   ++ registerImageTools ++ registerListTools
   ++ registerNamedRangeTools ++ registerHeaderFooterTools
   ++ [googledocs_test_connection])%list.
End Tools.

(** The tools of the server built for one tenant. *)
Definition createStatelessServer (credentials : TenantCredentials.t)
    (isURL : string -> bool) : list Tool.t :=
  let client := createGoogleDocsClient credentials in
  registerAllTools client isURL.

(** ** Dispatch of a tools/call request

    This is the contract of the MCP SDK's [McpServer], which the repository
    relies on and does not implement: the tool is looked up by name, the
    arguments are parsed with its input schema, and the handler is called
    with the parsed value only when parsing succeeds; otherwise the call is
    answered with an InvalidParams protocol error. *)

Inductive CallToolOutcome : Type :=
| tool_result (result : CallToolResult.t)
| protocol_error (code : Z) (message : string).

Definition InvalidParams : Z := -32602.

Fixpoint find_tool (tools : list Tool.t) (name : string) : option Tool.t :=
  match tools with
  | [] => None
  | tool :: rest =>
      if (Tool.name tool =? name)%string then Some tool
      else find_tool rest name
  end.

Definition callTool (tools : list Tool.t) (name : string)
    (arguments : option json) : Net CallToolOutcome :=
  match find_tool tools name with
  | None => ret (protocol_error InvalidParams ("Tool " ++ name ++ " not found"))
  | Some tool =>
      match Tool.inputSchema tool arguments with
      | None =>
          ret (protocol_error InvalidParams
                 ("Invalid arguments for tool " ++ name))
      | Some args =>
          result <- Tool.handler tool args ;;
          ret (tool_result result)
      end
  end.

(* ========================================================================= *)
(** * Vocabulary of the statements *)
(* ========================================================================= *)

(** The calls of [fetch] that running [m] from [w] adds. *)
Definition issued {A} (m : Net A) (w : World) : list Fetch.t :=
  skipn (List.length (fetches w)) (fetches (snd (m w))).

(** [f] is a batch-update request for [documentId] carrying [requests]. *)
Definition submits (f : Fetch.t) (documentId : string)
    (requests : list Request.t) : Prop :=
  Fetch.url f
  = API_BASE_URL ++ "/documents/" ++ encodeURIComponent documentId
    ++ ":batchUpdate"
  /\ Fetch.method f = Some POST
  /\ Fetch.body f = Some (body_requests requests).

(** A request that changes remote state: anything but a GET. *)
Definition mutating (f : Fetch.t) : bool :=
  match Fetch.method f with
  | Some POST => true
  | Some GET | None => false
  end.

(** Credentials with a non-empty access token, the ones [getAuthHeaders]
    accepts. *)
Definition has_token (credentials : TenantCredentials.t) : Prop :=
  truthy_string (TenantCredentials.accessToken credentials) = true.

(** The number that the decimal digits [d] denote after the digits read
    so far, whose value is [acc]. *)
Fixpoint uint_value (acc : Z) (d : Decimal.uint) : Z :=
  match d with
  | Decimal.Nil => acc
  | Decimal.D0 d => uint_value (10 * acc + 0) d
  | Decimal.D1 d => uint_value (10 * acc + 1) d
  | Decimal.D2 d => uint_value (10 * acc + 2) d
  | Decimal.D3 d => uint_value (10 * acc + 3) d
  | Decimal.D4 d => uint_value (10 * acc + 4) d
  | Decimal.D5 d => uint_value (10 * acc + 5) d
  | Decimal.D6 d => uint_value (10 * acc + 6) d
  | Decimal.D7 d => uint_value (10 * acc + 7) d
  | Decimal.D8 d => uint_value (10 * acc + 8) d
  | Decimal.D9 d => uint_value (10 * acc + 9) d
  end.

(** The generic message of the classification policy. *)
Definition generic_message (status : Z) : json :=
  JString ("API error: " ++ string_of_Z status).

(** The message of a JSON error envelope, in the spec's words: the [message]
    of the [error] member of the body, else the [message] of the body
    itself; a message that is absent or empty (falsy) is no message. *)
Definition envelope_message (body : json) : option json :=
  match body with
  | JObject members =>
      let own :=
        match lookup "message" members with
        | Some m => if truthy m then Some m else None
        | None => None
        end in
      match lookup "error" members with
      | Some (JObject error) =>
          match lookup "message" error with
          | Some m => if truthy m then Some m else own
          | None => own
          end
      | _ => own
      end
  | _ => None
  end.

(** The body content list of the document is absent or empty. *)
Definition no_content (doc : Document.t) : Prop :=
  match Document.body doc with
  | None => True
  | Some body =>
      match Body.content body with
      | None => True
      | Some content => content = []
      end
  end.

(** The last body content block of [doc] ends at [e]. *)
Definition last_block_ends_at (doc : Document.t) (e : Z) : Prop :=
  exists body blocks last,
    Document.body doc = Some body
    /\ Body.content body = Some (blocks ++ [last])%list
    /\ StructuralElement.endIndex last = Some e.

(** The two calls [appendText] can make. *)
Definition getDocument_fetch (accessToken documentId : string) : Fetch.t :=
  {| Fetch.url :=
       API_BASE_URL ++ "/documents/" ++ encodeURIComponent documentId;
     Fetch.method := None;
     Fetch.headers := [("Authorization", "Bearer " ++ accessToken);
                       ("Content-Type", "application/json")];
     Fetch.body := None |}.

Definition batchUpdate_fetch (accessToken documentId : string)
    (requests : list Request.t) : Fetch.t :=
  {| Fetch.url :=
       API_BASE_URL ++ "/documents/" ++ encodeURIComponent documentId
       ++ ":batchUpdate";
     Fetch.method := Some POST;
     Fetch.headers := [("Authorization", "Bearer " ++ accessToken);
                       ("Content-Type", "application/json")];
     Fetch.body := Some (body_requests requests) |}.

(** A tool result has one text item, which is an error text exactly when the
    result is flagged. *)
Definition structured (result : CallToolResult.t) : Prop :=
  match CallToolResult.content result with
  | [text_message_data _ _] | [text_data _] =>
      CallToolResult.isError result = false
  | [text_error _] | [text_template _ _] =>
      CallToolResult.isError result = true
  | _ => False
  end.

(** The client methods that do not go through [batchUpdate]. *)
Definition bypasses_batchUpdate {T} (call : Call.t T) : bool :=
  match call with
  | Call.createDocument _ | Call.testConnection => true
  | _ => false
  end.

Definition is_getDocument {T} (call : Call.t T) : bool :=
  match call with
  | Call.getDocument _ => true
  | _ => false
  end.

(** The method [batchUpdate] itself, whose operations the caller supplies. *)
Definition is_batchUpdate {T} (call : Call.t T) : bool :=
  match call with
  | Call.batchUpdate _ _ => true
  | _ => false
  end.

(** If [f] changes remote state, it is a batch update, of one operation
    when [single] is set. *)
Definition through_batchUpdate (single : bool) (f : Fetch.t) : Prop :=
  mutating f = true ->
  exists documentId requests,
    submits f documentId requests
    /\ (single = true -> List.length requests = 1%nat).

(** [f] creates a document: a POST of the title to the collection. *)
Definition creates_document (f : Fetch.t) : Prop :=
  Fetch.url f = API_BASE_URL ++ "/documents"
  /\ Fetch.method f = Some POST
  /\ exists title, Fetch.body f = Some (body_title title).

(** ** Sample values for the closed lemmas *)
Module Sample.
Definition credentials : TenantCredentials.t :=
  {| TenantCredentials.accessToken := Some "ya29.token" |}.

Definition block (s e : Z) : StructuralElement.t :=
  {| StructuralElement.startIndex := Some s;
     StructuralElement.endIndex := Some e |}.

Definition document : Document.t :=
  {| Document.documentId := "doc1";
     Document.title := "Notes";
     Document.body :=
       Some {| Body.content := Some [block 0 1; block 1 50] |} |}.

Definition updated : BatchUpdateResponse.t :=
  {| BatchUpdateResponse.documentId := "doc1";
     BatchUpdateResponse.replies := Some [] |}.

Definition response {T} (status : Z) (retryAfter : option string)
    (text : option json) (body : option T) : Response T :=
  {| status := status; header_Retry_After := retryAfter;
     text_parsed := text; body_json := body |}.

(** A remote that answers every request with 200 and the sample values. *)
Definition service : Remote :=
  {| serve_Document := fun _ _ =>
       Resolves (response 200 None None (Some document));
     serve_BatchUpdateResponse := fun _ _ =>
       Resolves (response 200 None None (Some updated)) |}.

Definition world : World := {| remote := service; fetches := [] |}.

(** A document without a body, and a remote that serves it. *)
Definition blank : Document.t :=
  {| Document.documentId := "doc2";
     Document.title := "Empty";
     Document.body := None |}.

Definition blank_world : World :=
  {| remote :=
       {| serve_Document := fun _ _ =>
            Resolves (response 200 None None (Some blank));
          serve_BatchUpdateResponse := fun _ _ =>
            Resolves (response 200 None None (Some updated)) |};
     fetches := [] |}.

(** A remote that answers every request with 429 and Retry-After: 30. *)
Definition throttled_world : World :=
  {| remote :=
       {| serve_Document := fun _ _ =>
            Resolves (response 429 (Some "30") None None);
          serve_BatchUpdateResponse := fun _ _ =>
            Resolves (response 429 (Some "30") None None) |};
     fetches := [] |}.

Definition isURL (s : string) : bool := prefix "http" s.

Definition client : GoogleDocsClient := createGoogleDocsClient credentials.

Definition server : list Tool.t := createStatelessServer credentials isURL.

Definition http_date : string := "Wed, 21 Oct 2015 07:28:00 GMT".
End Sample.

(* ========================================================================= *)
(** * Vocabulary of the further properties *)
(* ========================================================================= *)

(** The token [getAuthHeaders] sends: the access token when it is not
    empty. *)
Definition bearer (credentials : TenantCredentials.t) : option string :=
  match TenantCredentials.accessToken credentials with
  | Some accessToken =>
      if (accessToken =? EmptyString)%string then None else Some accessToken
  | None => None
  end.

(** The call [createDocument] makes. *)
Definition createDocument_fetch (accessToken title : string) : Fetch.t :=
  {| Fetch.url := API_BASE_URL ++ "/documents";
     Fetch.method := Some POST;
     Fetch.headers := [("Authorization", "Bearer " ++ accessToken);
                       ("Content-Type", "application/json")];
     Fetch.body := Some (body_title title) |}.

Definition no_token_message : string :=
  "No access token provided. Include X-Google-Access-Token header.".


Definition is_appendText {T} (call : Call.t T) : bool :=
  match call with
  | Call.appendText _ _ => true
  | _ => false
  end.

(** The document positions an operation carries: the index of a location
    and the two ends of a range.  A raw operation of the batch_update tool
    is opaque. *)
Definition request_positions (r : Request.t) : list Z :=
  let at_ (l : Location.t) := [Location.index l] in
  let span (r : Range.t) := [Range.startIndex r; Range.endIndex r] in
  let cell_ (c : TableCellLocation.t) :=
    at_ (TableCellLocation.tableStartLocation c) in
  let cells (t : TableRange.t) := cell_ (TableRange.tableCellLocation t) in
  match r with
  | Request.insertText _ l | Request.insertTable _ _ l
  | Request.insertInlineImage _ l _ | Request.insertPageBreak l
  | Request.insertSectionBreak l _ | Request.createFootnote l
  | Request.updateTableRowStyle l _ _ _
  | Request.updateTableColumnProperties l _ _ _
  | Request.pinTableHeaderRows l _ => at_ l
  | Request.deleteContentRange r | Request.updateTextStyle r _ _
  | Request.updateParagraphStyle r _ _ | Request.createParagraphBullets r _
  | Request.deleteParagraphBullets r | Request.createNamedRange _ r
  | Request.updateSectionStyle r _ _ => span r
  | Request.insertTableRow c _ | Request.insertTableColumn c _
  | Request.deleteTableRow c | Request.deleteTableColumn c => cell_ c
  | Request.mergeTableCells t | Request.unmergeTableCells t
  | Request.updateTableCellStyle t _ _ => cells t
  | Request.createHeader _ (Some l) | Request.createFooter _ (Some l) => at_ l
  | Request.createHeader _ None | Request.createFooter _ None
  | Request.replaceAllText _ _ _ | Request.deleteNamedRange _ _
  | Request.replaceNamedRangeContent _ _ _ | Request.replaceImage _ _
  | Request.deletePositionedObject _ | Request.deleteHeader _
  | Request.deleteFooter _ | Request.updateDocumentStyle _ _
  | Request.raw _ => []
  end.

Definition fetch_positions (f : Fetch.t) : list Z :=
  match Fetch.body f with
  | Some (body_requests requests) => flat_map request_positions requests
  | Some (body_title _) | None => []
  end.

(** index.ts, the [tools] member of the body that the default route of the
    worker returns: one line per tool, the name, a dash and a caption. *)
Definition advertised_tools : list string :=
  [ (* Documents *)
    "googledocs_create - Create a new document";
    "googledocs_get - Get a document by ID";
    "googledocs_batch_update - Apply multiple updates in one request";
    "googledocs_test_connection - Test API connection";
    (* Content *)
    "googledocs_insert_text - Insert text at position";
    "googledocs_delete_content - Delete content range";
    "googledocs_replace_text - Replace all occurrences";
    "googledocs_append_text - Append text to document";
    "googledocs_insert_page_break - Insert page break";
    "googledocs_insert_section_break - Insert section break";
    (* Formatting *)
    "googledocs_format_text - Basic text formatting";
    "googledocs_update_text_style - Advanced text styling";
    "googledocs_format_paragraph - Basic paragraph formatting";
    "googledocs_update_paragraph_style - Advanced paragraph styling";
    "googledocs_update_document_style - Document-wide styling";
    "googledocs_update_section_style - Section styling";
    (* Tables *)
    "googledocs_insert_table - Insert a table";
    "googledocs_insert_table_row - Insert a row";
    "googledocs_insert_table_column - Insert a column";
    "googledocs_delete_table_row - Delete a row";
    "googledocs_delete_table_column - Delete a column";
    "googledocs_merge_table_cells - Merge cells";
    "googledocs_unmerge_table_cells - Unmerge cells";
    "googledocs_update_table_cell_style - Cell styling";
    "googledocs_update_table_row_style - Row styling";
    "googledocs_update_table_column_properties - Column properties";
    "googledocs_pin_table_header_rows - Pin header rows";
    (* Images *)
    "googledocs_insert_image - Insert inline image";
    "googledocs_replace_image - Replace an image";
    "googledocs_delete_positioned_object - Delete positioned object";
    (* Lists *)
    "googledocs_create_bullets - Create bulleted/numbered list";
    "googledocs_delete_bullets - Remove bullets";
    (* Named Ranges *)
    "googledocs_create_named_range - Create named range";
    "googledocs_delete_named_range - Delete named range";
    "googledocs_replace_named_range_content - Replace named range content";
    (* Headers/Footers/Footnotes *)
    "googledocs_create_header - Create header";
    "googledocs_create_footer - Create footer";
    "googledocs_delete_header - Delete header";
    "googledocs_delete_footer - Delete footer";
    "googledocs_create_footnote - Create footnote" ].

(** The name in a line of [advertised_tools]: what comes before the first
    space. *)
Fixpoint advertised_name (line : string) : string :=
  match line with
  | EmptyString => EmptyString
  | String c rest =>
      if Ascii.eqb c " " then EmptyString
      else String c (advertised_name rest)
  end.

(** Whether a name occurs in a list of names. *)
Definition mem_name (name : string) (names : list string) : bool :=
  existsb (String.eqb name) names.



(** The results a handler builds without calling the client. *)
Definition local_result (result : CallToolResult.t) : Prop :=
  (exists message, result = missing_identifier message)
  \/ (exists message, result = formatSuccess message data_empty_object).

(** The names of the registered tools, in the order of registration. *)
Definition tool_names (tools : list Tool.t) : list string :=
  map Tool.name tools.


(** The document positions among the arguments of a call of the client. *)
Definition call_positions {T} (call : Call.t T) : list Z :=
  match call with
  | Call.batchUpdate _ requests => flat_map request_positions requests
  | Call.insertText _ _ i | Call.insertTable _ _ _ i
  | Call.insertInlineImage _ _ i _ _ | Call.insertPageBreak _ i
  | Call.insertSectionBreak _ i _ | Call.createFootnote _ i => [i]
  | Call.deleteContent _ s e | Call.updateTextStyle _ s e _ _
  | Call.updateParagraphStyle _ s e _ _ | Call.createParagraphBullets _ s e _
  | Call.deleteParagraphBullets _ s e | Call.createNamedRange _ _ s e
  | Call.updateSectionStyle _ s e _ _ => [s; e]
  | Call.insertTableRow _ t _ _ _ | Call.insertTableColumn _ t _ _ _
  | Call.deleteTableRow _ t _ _ | Call.deleteTableColumn _ t _ _
  | Call.mergeTableCells _ t _ _ _ _ | Call.unmergeTableCells _ t _ _ _ _
  | Call.updateTableCellStyle _ t _ _ _ _ _ _
  | Call.updateTableRowStyle _ t _ _ _
  | Call.updateTableColumnProperties _ t _ _ _
  | Call.pinTableHeaderRows _ t _ => [t]
  | Call.createHeader _ _ (Some i) | Call.createFooter _ _ (Some i) => [i]
  | _ => []
  end.

(* ========================================================================= *)
(** * Error classification of [request] *)
(* ========================================================================= *)

Lemma parseInt_http_date : parseInt Sample.http_date = NaN.
Proof. reflexivity. Qed.

Lemma retry_after_absent T status text (body : option T) :
  status = 429 ->
  handle_response (Sample.response status None text body)
  = Throws (RateLimitError "Rate limit exceeded" (Num 60)).
Proof. intros ->. reflexivity. Qed.

Lemma retry_after_30 T text (body : option T) :
  handle_response (Sample.response 429 (Some "30") text body)
  = Throws (RateLimitError "Rate limit exceeded" (Num 30)).
Proof. reflexivity. Qed.

(** [parseInt] reads back the decimal writing of a natural number. *)

Lemma digits_prefix_uint (d : Decimal.uint) (acc : Z) :
  digits_prefix (Some acc) (NilEmpty.string_of_uint d)
  = Some (uint_value acc d).
Proof.
  revert acc. induction d; intros acc; cbn [NilEmpty.string_of_uint];
    [ reflexivity | .. ];
    cbn [digits_prefix uint_value]; cbn; apply IHd.
Qed.

Lemma of_uint_acc_value (d : Decimal.uint) (acc : positive) :
  Zpos (Pos.of_uint_acc d acc) = uint_value (Zpos acc) d.
Proof.
  revert acc. induction d; intros acc; cbn [Pos.of_uint_acc uint_value];
    [ reflexivity | .. ];
    rewrite IHd; f_equal; lia.
Qed.

Lemma of_uint_value (d : Decimal.uint) :
  Z.of_N (Pos.of_uint d) = uint_value 0 d.
Proof.
  induction d; cbn [Pos.of_uint uint_value];
    [ reflexivity | exact IHd | .. ];
    cbn [Z.of_N]; rewrite of_uint_acc_value; reflexivity.
Qed.

Lemma parseInt_digits (d : Decimal.uint) :
  d <> Decimal.Nil ->
  parseInt (NilEmpty.string_of_uint d) = Num (uint_value 0 d).
Proof.
  intros Hd. unfold parseInt.
  destruct d; [ contradiction | .. ];
    cbn [NilEmpty.string_of_uint trimStart];
    match goal with
    | |- context [isStrWhiteSpaceChar ?c] =>
        change (isStrWhiteSpaceChar c) with false
    end;
    cbv beta iota zeta; cbn [digits_prefix];
    match goal with
    | |- context [digit_value ?c] =>
        let v := eval vm_compute in (digit_value c) in
        change (digit_value c) with v
    end;
    cbv beta iota; rewrite digits_prefix_uint; cbn [uint_value];
    f_equal; apply Z.mul_1_l.
Qed.

Lemma parseInt_string_of_Z (n : Z) :
  0 <= n -> parseInt (string_of_Z n) = Num n.
Proof.
  intros Hn. unfold string_of_Z.
  pose proof (DecimalZ.of_to n) as Hback.
  destruct n as [ | p | p ]; [ reflexivity | | lia ].
  cbn [Z.to_int NilZero.string_of_int] in *.
  unfold NilZero.string_of_uint.
  assert (Hnil : Pos.to_uint p <> Decimal.Nil)
    by apply DecimalPos.Unsigned.to_uint_nonnil.
  destruct (Pos.to_uint p) eqn:Hp; [ contradiction | .. ];
    rewrite <- Hp in *; rewrite (parseInt_digits Hnil); f_equal;
    rewrite <- of_uint_value; exact Hback.
Qed.

(** With a numeric Retry-After header, the error carries its value. *)
Lemma retry_after_numeric T (n : Z) text (body : option T) :
  0 <= n ->
  handle_response (Sample.response 429 (Some (string_of_Z n)) text body)
  = Throws (RateLimitError "Rate limit exceeded" (Num n)).
Proof.
  intros Hn. unfold handle_response. cbn.
  rewrite (parseInt_string_of_Z Hn).
  destruct (string_of_Z n) eqn:Hs; [ | reflexivity ].
  exfalso. pose proof (parseInt_string_of_Z Hn) as H.
  rewrite Hs in H. discriminate H.
Qed.

(** C1.  A 429 response whose Retry-After header is an HTTP date, which is
    present and not numeric, makes the request helper raise a RateLimitError
    whose retry-after value is NaN, the result of [parseInt], not 60. *)
Theorem rate_limit_non_numeric_header_gives_NaN :
  forall T (text : option json) (body : option T),
    handle_response
      (Sample.response 429 (Some Sample.http_date) text body)
    = Throws (RateLimitError "Rate limit exceeded" NaN)
    /\ NaN <> Num 60.
Proof.
  intros T text body. split.
  - reflexivity.
  - discriminate.
Qed.

Lemma envelope_message_or_spec (errorJson message : json) :
  match envelope_message_or errorJson message with
  | Returns m =>
      m = match envelope_message errorJson with
          | Some m' => m'
          | None => message
          end
  | Throws _ => envelope_message errorJson = None
  end.
Proof.
  destruct errorJson as [ | b | q | s | items | members ]; cbn;
    try reflexivity.
  unfold js_or_else, js_or.
  destruct (lookup "error" members) as [ [ | b | q | s | items | error ] | ];
    destruct (lookup "message" members) as [ m | ]; cbn;
    try destruct (truthy m) eqn:Hm; try reflexivity;
    destruct (lookup "message" error) as [ m' | ]; cbn;
    try destruct (truthy m') eqn:Hm'; cbn; rewrite ?Hm, ?Hm'; reflexivity.
Qed.

Lemma api_error_spec T (response : Response T) :
  api_error response
  = GoogleDocsApiError
      match text_parsed response with
      | Some body =>
          match envelope_message body with
          | Some m => m
          | None => generic_message (status response)
          end
      | None => generic_message (status response)
      end
      (status response).
Proof.
  unfold api_error, generic_message.
  destruct (text_parsed response) as [ errorJson | ]; [ | reflexivity ].
  pose proof (envelope_message_or_spec errorJson
                (JString ("API error: " ++ string_of_Z (status response))))
    as H.
  destruct (envelope_message_or errorJson _) as [ m | e ].
  - now rewrite H.
  - now rewrite H.
Qed.

(** C4.  The classification of a response by the request helper: 429 is a
    RateLimitError; 401 and 403 are an AuthenticationError whatever the body
    holds; any other status outside 200..299 is a GoogleDocsApiError with the
    status and the message of the JSON error envelope, or the generic message
    when there is none; 204 is success with an empty value; any other success
    is the body parsed as JSON. *)
Theorem request_error_classification :
  forall T (response : Response T),
    let s := status response in
    (s = 429 ->
     exists retryAfter,
       handle_response response
       = Throws (RateLimitError "Rate limit exceeded" retryAfter))
    /\ (s = 401 \/ s = 403 ->
        handle_response response
        = Throws (AuthenticationError
                    "Authentication failed. Check your OAuth access token."))
    /\ (s <> 429 -> s <> 401 -> s <> 403 -> s < 200 \/ 299 < s ->
        handle_response response
        = Throws (GoogleDocsApiError
                    match text_parsed response with
                    | Some body =>
                        match envelope_message body with
                        | Some m => m
                        | None => generic_message s
                        end
                    | None => generic_message s
                    end s))
    /\ (s = 204 -> handle_response response = Returns None)
    /\ (200 <= s <= 299 -> s <> 204 ->
        forall v, body_json response = Some v ->
                  handle_response response = Returns (Some v)).
Proof.
  intros T response s. subst s. unfold handle_response, ok.
  repeat split.
  - intros ->. cbn. eauto.
  - intros [-> | ->]; reflexivity.
  - intros H1 H2 H3 H4.
    destruct (Z.eqb_spec (status response) 429); [ contradiction | ].
    destruct (Z.eqb_spec (status response) 401); [ contradiction | ].
    destruct (Z.eqb_spec (status response) 403); [ contradiction | ].
    cbn.
    replace ((200 <=? status response) && (status response <=? 299))
      with false by (symmetry; apply andb_false_iff; lia).
    cbn. now rewrite api_error_spec.
  - intros ->. reflexivity.
  - intros H1 H2 v Hv.
    destruct (Z.eqb_spec (status response) 429); [ lia | ].
    destruct (Z.eqb_spec (status response) 401); [ lia | ].
    destruct (Z.eqb_spec (status response) 403); [ lia | ].
    cbn.
    replace ((200 <=? status response) && (status response <=? 299))
      with true by (symmetry; apply andb_true_iff; lia).
    cbn.
    destruct (Z.eqb_spec (status response) 204); [ contradiction | ].
    now rewrite Hv.
Qed.

(** The witness of [request_error_classification]: one response per clause. *)
Lemma request_error_classification_witness :
  (exists retryAfter,
     handle_response (Sample.response (T:=unit) 429 (Some "30") None None)
     = Throws (RateLimitError "Rate limit exceeded" retryAfter))
  /\ handle_response
       (Sample.response 401
          None (Some (JObject [("error", JString "ignored")])) (Some tt))
     = Throws (AuthenticationError
                 "Authentication failed. Check your OAuth access token.")
  /\ handle_response
       (Sample.response (T:=unit) 500 None
          (Some (JObject [("error", JObject [("message", JString "boom")])]))
          None)
     = Throws (GoogleDocsApiError (JString "boom") 500)
  /\ handle_response (Sample.response (T:=unit) 204 None None None)
     = Returns None
  /\ handle_response (Sample.response 200 None None (Some tt))
     = Returns (Some tt).
Proof.
  split; [ | split; [ | split; [ | split ] ] ].
  - apply (request_error_classification
             (Sample.response (T:=unit) 429 (Some "30") None None)).
    reflexivity.
  - apply (request_error_classification
             (Sample.response 401 None
                (Some (JObject [("error", JString "ignored")])) (Some tt))).
    left. reflexivity.
  - apply (request_error_classification
             (Sample.response (T:=unit) 500 None
                (Some (JObject
                         [("error", JObject [("message", JString "boom")])]))
                None)); cbn; lia.
  - apply (request_error_classification
             (Sample.response (T:=unit) 204 None None None)).
    reflexivity.
  - apply (request_error_classification
             (Sample.response 200 None None (Some tt))); cbn;
      [ lia | lia | reflexivity ].
Defined.

(* ========================================================================= *)
(** * What the client sends *)
(* ========================================================================= *)

Lemma skipn_length_app {A} (l l' : list A) :
  skipn (List.length l) (l ++ l')%list = l'.
Proof. induction l as [ | a l IH ]; [ reflexivity | exact IH ]. Qed.

Lemma issued_nothing {A} (m : Net A) (w : World) :
  fetches (snd (m w)) = fetches w -> issued m w = [].
Proof.
  unfold issued. intros ->.
  rewrite <- (app_nil_r (fetches w)) at 2. apply skipn_length_app.
Qed.

Lemma issued_app {A} (m : Net A) (w : World) (l : list Fetch.t) :
  fetches (snd (m w)) = (fetches w ++ l)%list -> issued m w = l.
Proof. unfold issued. intros ->. apply skipn_length_app. Qed.

Lemma has_token_inv (credentials : TenantCredentials.t) :
  has_token credentials ->
  exists accessToken,
    TenantCredentials.accessToken credentials = Some accessToken
    /\ (accessToken =? EmptyString)%string = false.
Proof.
  unfold has_token, truthy_string.
  destruct (TenantCredentials.accessToken credentials) as [ t | ];
    [ | discriminate ].
  intros H. exists t. split; [ reflexivity | ].
  now apply negb_true_iff.
Qed.

Section Requests.
Variable credentials : TenantCredentials.t.
Variable T : Type.
Context `{Fetched T}.

Lemma request_without_token endpoint options (w : World) :
  ~ has_token credentials ->
  exists e,
    GoogleDocsClientImpl.request (T:=T) credentials endpoint options w
    = (Throws e, w).
Proof.
  unfold has_token, truthy_string, GoogleDocsClientImpl.request,
    GoogleDocsClientImpl.getAuthHeaders, bind, lift.
  destruct (TenantCredentials.accessToken credentials) as [ t | ].
  - destruct (t =? EmptyString)%string; cbn; [ eauto | ].
    intros Hn. now contradiction Hn.
  - cbn. eauto.
Qed.

Lemma request_with_token accessToken endpoint options (w : World) :
  TenantCredentials.accessToken credentials = Some accessToken ->
  (accessToken =? EmptyString)%string = false ->
  let call :=
    {| Fetch.url := API_BASE_URL ++ endpoint;
       Fetch.method := RequestInit.method options;
       Fetch.headers := [("Authorization", "Bearer " ++ accessToken);
                         ("Content-Type", "application/json")];
       Fetch.body := RequestInit.body options |} in
  GoogleDocsClientImpl.request (T:=T) credentials endpoint options w
  = (match serve (remote w) (fetches w) call with
     | Rejects e => Throws e
     | Resolves response => handle_response response
     end,
     {| remote := remote w; fetches := (fetches w ++ [call])%list |}).
Proof.
  intros Ht Hne call.
  unfold GoogleDocsClientImpl.request,
    GoogleDocsClientImpl.getAuthHeaders, bind, lift.
  rewrite Ht, Hne. fold call.
  now destruct (serve (remote w) (fetches w) call).
Qed.

(** A request adds at most one call, the one its arguments describe. *)
Lemma request_fetches endpoint options (w : World) :
  let w' :=
    snd (GoogleDocsClientImpl.request (T:=T) credentials endpoint options w)
  in
  remote w' = remote w
  /\ (fetches w' = fetches w
      \/ exists f,
          fetches w' = (fetches w ++ [f])%list
          /\ Fetch.url f = API_BASE_URL ++ endpoint
          /\ Fetch.method f = RequestInit.method options
          /\ Fetch.body f = RequestInit.body options).
Proof.
  intros w'. subst w'.
  destruct (TenantCredentials.accessToken credentials) as [ t | ] eqn:Ht.
  - destruct (t =? EmptyString)%string eqn:Hne.
    + destruct (@request_without_token endpoint options w) as [ e He ].
      { unfold has_token, truthy_string. rewrite Ht, Hne. discriminate. }
      rewrite He. cbn. auto.
    + rewrite (request_with_token endpoint options w Ht Hne). cbn.
      split; [ reflexivity | right ]. eexists. repeat split.
  - destruct (@request_without_token endpoint options w) as [ e He ].
    { unfold has_token, truthy_string. rewrite Ht. discriminate. }
    rewrite He. cbn. auto.
Qed.
End Requests.

(* ========================================================================= *)
(** * appendText *)
(* ========================================================================= *)

Lemma slice_last_snoc {A} (blocks : list A) (last : A) :
  GoogleDocsClientImpl.slice_last (blocks ++ [last])%list = [last].
Proof.
  unfold GoogleDocsClientImpl.slice_last.
  rewrite length_app. cbn [List.length].
  replace (List.length blocks + 1 - 1)%nat with (List.length blocks) by lia.
  apply skipn_length_app.
Qed.

Lemma lastEndIndex_of_last_block (doc : Document.t) (e : Z) :
  last_block_ends_at doc e ->
  GoogleDocsClientImpl.lastEndIndex doc = if e =? 0 then 1 else e.
Proof.
  intros (body & blocks & last & Hb & Hc & He).
  unfold GoogleDocsClientImpl.lastEndIndex.
  rewrite Hb, Hc, slice_last_snoc. cbn. now rewrite He.
Qed.

Lemma lastEndIndex_no_content (doc : Document.t) :
  no_content doc -> GoogleDocsClientImpl.lastEndIndex doc = 1.
Proof.
  unfold no_content, GoogleDocsClientImpl.lastEndIndex.
  destruct (Document.body doc) as [ body | ]; [ | reflexivity ].
  destruct (Body.content body) as [ content | ]; [ | reflexivity ].
  now intros ->.
Qed.

Lemma getDocument_needs_token credentials documentId w r w1 :
  GoogleDocsClientImpl.getDocument credentials documentId w = (Returns r, w1)
  -> has_token credentials.
Proof.
  intros Hget. unfold has_token.
  destruct (truthy_string (TenantCredentials.accessToken credentials))
    eqn:Htok; [ reflexivity | exfalso ].
  destruct (@request_without_token credentials Document.t _
              ("/documents/" ++ encodeURIComponent documentId)
              RequestInit.empty w) as [ e He ].
  { unfold has_token. rewrite Htok. discriminate. }
  unfold GoogleDocsClientImpl.getDocument in Hget. congruence.
Qed.

Lemma batchUpdate_with_token credentials documentId requests w :
  has_token credentials ->
  exists f,
    fetches (snd (GoogleDocsClientImpl.batchUpdate credentials documentId
                    requests w))
    = (fetches w ++ [f])%list
    /\ submits f documentId requests.
Proof.
  intros Htok. destruct (has_token_inv Htok) as (t & Ht & Hne).
  unfold GoogleDocsClientImpl.batchUpdate.
  rewrite (@request_with_token credentials BatchUpdateResponse.t _ t _ _ w Ht Hne).
  cbn. eexists. split; [ reflexivity | ]. repeat split.
Qed.

Lemma appendText_after_getDocument credentials documentId text w doc w1 :
  GoogleDocsClientImpl.getDocument credentials documentId w
  = (Returns (Some doc), w1) ->
  GoogleDocsClientImpl.appendText credentials documentId text w
  = GoogleDocsClientImpl.insertText credentials documentId text
      (Z.max 1 (GoogleDocsClientImpl.lastEndIndex doc - 1)) w1.
Proof.
  intros Hget. unfold GoogleDocsClientImpl.appendText, bind.
  rewrite Hget. reflexivity.
Qed.

(** C2.  When the document that [appendText] reads has a last body content
    block ending at [e], [appendText] makes exactly one more request: a batch
    update with the single operation insert-text at index [max 1 (e - 1)]. *)
Theorem appendText_inserts_before_last_endIndex :
  forall credentials documentId text w doc w1 e,
    GoogleDocsClientImpl.getDocument credentials documentId w
    = (Returns (Some doc), w1) ->
    last_block_ends_at doc e ->
    GoogleDocsClientImpl.appendText credentials documentId text w
    = GoogleDocsClientImpl.insertText credentials documentId text
        (Z.max 1 (e - 1)) w1
    /\ exists f,
        fetches (snd (GoogleDocsClientImpl.appendText credentials documentId
                        text w))
        = (fetches w1 ++ [f])%list
        /\ submits f documentId
             [Request.insertText text
                {| Location.index := Z.max 1 (e - 1) |}].
Proof.
  intros credentials documentId text w doc w1 e Hget Hlast.
  assert (Happ :
    GoogleDocsClientImpl.appendText credentials documentId text w
    = GoogleDocsClientImpl.insertText credentials documentId text
        (Z.max 1 (e - 1)) w1).
  { rewrite (@appendText_after_getDocument _ _ text _ _ _ Hget).
    rewrite (@lastEndIndex_of_last_block _ _ Hlast).
    destruct (Z.eqb_spec e 0) as [ -> | _ ]; reflexivity. }
  split; [ exact Happ | ].
  rewrite Happ. unfold GoogleDocsClientImpl.insertText.
  apply batchUpdate_with_token.
  exact (@getDocument_needs_token _ _ _ _ _ Hget).
Qed.

(** The witness of C2: the last block ends at 50, the text goes to 49. *)
Lemma appendText_inserts_before_last_endIndex_witness :
  exists f,
    fetches (snd (GoogleDocsClientImpl.appendText Sample.credentials "doc1"
                    "hi" Sample.world))
    = [getDocument_fetch "ya29.token" "doc1"; f]
    /\ submits f "doc1"
         [Request.insertText "hi" {| Location.index := 49 |}].
Proof.
  destruct (@appendText_inserts_before_last_endIndex
              Sample.credentials "doc1" "hi" Sample.world Sample.document
              {| remote := Sample.service;
                 fetches := [getDocument_fetch "ya29.token" "doc1"] |}
              50 eq_refl)
    as [ _ (f & Hf & Hs) ].
  - exists {| Body.content := Some [Sample.block 0 1; Sample.block 1 50] |},
      [Sample.block 0 1], (Sample.block 1 50).
    repeat split.
  - exists f. split; [ exact Hf | exact Hs ].
Defined.

(** C8.  Whatever document [appendText] reads, the one request it then makes
    is an insert-text at an index that is at least 1, and the index is 1 when
    the body content list is absent or empty. *)
Theorem appendText_index_at_least_1 :
  forall credentials documentId text w doc w1,
    GoogleDocsClientImpl.getDocument credentials documentId w
    = (Returns (Some doc), w1) ->
    exists index,
      1 <= index
      /\ (no_content doc -> index = 1)
      /\ GoogleDocsClientImpl.appendText credentials documentId text w
         = GoogleDocsClientImpl.insertText credentials documentId text
             index w1
      /\ exists f,
          fetches (snd (GoogleDocsClientImpl.appendText credentials
                          documentId text w))
          = (fetches w1 ++ [f])%list
          /\ submits f documentId
               [Request.insertText text {| Location.index := index |}].
Proof.
  intros credentials documentId text w doc w1 Hget.
  exists (Z.max 1 (GoogleDocsClientImpl.lastEndIndex doc - 1)).
  split; [ apply Z.le_max_l | ].
  split.
  { intros Hnone. rewrite (@lastEndIndex_no_content _ Hnone). reflexivity. }
  split; [ exact (@appendText_after_getDocument _ _ text _ _ _ Hget) | ].
  rewrite (@appendText_after_getDocument _ _ text _ _ _ Hget).
  unfold GoogleDocsClientImpl.insertText.
  apply batchUpdate_with_token.
  exact (@getDocument_needs_token _ _ _ _ _ Hget).
Qed.

(** The witness of C8: a document without a body gets the text at index 1. *)
Lemma appendText_index_at_least_1_witness :
  exists index f,
    1 <= index /\ index = 1
    /\ fetches (snd (GoogleDocsClientImpl.appendText Sample.credentials
                       "doc2" "hi" Sample.blank_world))
       = [getDocument_fetch "ya29.token" "doc2"; f]
    /\ submits f "doc2"
         [Request.insertText "hi" {| Location.index := index |}].
Proof.
  destruct (@appendText_index_at_least_1
              Sample.credentials "doc2" "hi" Sample.blank_world Sample.blank
              {| remote := remote Sample.blank_world;
                 fetches := [getDocument_fetch "ya29.token" "doc2"] |}
              eq_refl)
    as (index & Hge & Hone & _ & f & Hf & Hs).
  exists index, f. split; [ exact Hge | ].
  split; [ apply Hone; exact I | ].
  split; [ exact Hf | exact Hs ].
Defined.

(* ========================================================================= *)
(** * batchUpdate and the other mutating requests *)
(* ========================================================================= *)

Lemma batchUpdate_fetches credentials documentId requests w :
  let w' :=
    snd (GoogleDocsClientImpl.batchUpdate credentials documentId requests w)
  in
  fetches w' = fetches w
  \/ exists f,
      fetches w' = (fetches w ++ [f])%list /\ submits f documentId requests.
Proof.
  intros w'. subst w'. unfold GoogleDocsClientImpl.batchUpdate.
  destruct (@request_fetches credentials BatchUpdateResponse.t _
              ("/documents/" ++ encodeURIComponent documentId
               ++ ":batchUpdate")
              {| RequestInit.method := Some POST;
                 RequestInit.body := Some (body_requests requests) |} w)
    as [ _ [ Hsame | (f & Hf & Hurl & Hm & Hb) ] ].
  - now left.
  - right. exists f. split; [ exact Hf | ]. repeat split; assumption.
Qed.

Lemma getDocument_fetches credentials documentId w :
  let w' := snd (GoogleDocsClientImpl.getDocument credentials documentId w) in
  fetches w' = fetches w
  \/ exists f, fetches w' = (fetches w ++ [f])%list /\ mutating f = false.
Proof.
  intros w'. subst w'. unfold GoogleDocsClientImpl.getDocument.
  destruct (@request_fetches credentials Document.t _
              ("/documents/" ++ encodeURIComponent documentId)
              RequestInit.empty w)
    as [ _ [ Hsame | (f & Hf & _ & Hm & _) ] ].
  - now left.
  - right. exists f. split; [ exact Hf | ].
    unfold mutating. now rewrite Hm.
Qed.

Lemma createDocument_fetches credentials title w :
  let w' := snd (GoogleDocsClientImpl.createDocument credentials title w) in
  fetches w' = fetches w
  \/ exists f, fetches w' = (fetches w ++ [f])%list /\ creates_document f.
Proof.
  intros w'. subst w'. unfold GoogleDocsClientImpl.createDocument.
  destruct (@request_fetches credentials Document.t _ "/documents"
              {| RequestInit.method := Some POST;
                 RequestInit.body := Some (body_title title) |} w)
    as [ _ [ Hsame | (f & Hf & Hurl & Hm & Hb) ] ].
  - now left.
  - right. exists f. split; [ exact Hf | ].
    repeat split; try assumption. now exists title.
Qed.

Lemma batchUpdate_issued credentials documentId requests single w :
  (single = true -> List.length requests = 1%nat) ->
  Forall (through_batchUpdate single)
    (issued (GoogleDocsClientImpl.batchUpdate credentials documentId requests)
       w).
Proof.
  intros Hsingle.
  destruct (batchUpdate_fetches credentials documentId requests w)
    as [ Hsame | (f & Hf & Hs) ].
  - rewrite (@issued_nothing _ _ w Hsame). constructor.
  - rewrite (@issued_app _ _ w _ Hf). repeat constructor.
    intros _. now exists documentId, requests.
Qed.

Lemma appendText_run credentials documentId text w :
  GoogleDocsClientImpl.appendText credentials documentId text w
  = match GoogleDocsClientImpl.getDocument credentials documentId w with
    | (Returns (Some doc), w1) =>
        GoogleDocsClientImpl.batchUpdate credentials documentId
          [Request.insertText text
             {| Location.index :=
                  Z.max 1 (GoogleDocsClientImpl.lastEndIndex doc - 1) |}] w1
    | (Returns None, w1) =>
        (Throws (TypeError
           "Cannot read properties of undefined (reading 'body')"), w1)
    | (Throws e, w1) => (Throws e, w1)
    end.
Proof.
  unfold GoogleDocsClientImpl.appendText, bind.
  now destruct (GoogleDocsClientImpl.getDocument credentials documentId w)
    as [ [ [ doc | ] | e ] w1 ].
Qed.

Lemma appendText_issued credentials documentId text w :
  Forall (through_batchUpdate true)
    (issued (GoogleDocsClientImpl.appendText credentials documentId text) w).
Proof.
  pose proof (getDocument_fetches credentials documentId w) as Hget.
  unfold issued. rewrite appendText_run.
  destruct (GoogleDocsClientImpl.getDocument credentials documentId w)
    as [ [ [ doc | ] | e ] w1 ] eqn:Hrun; cbn [snd fst] in *.
  - (* the document was read: the insert follows *)
    set (index := Z.max 1 (GoogleDocsClientImpl.lastEndIndex doc - 1)).
    pose proof (batchUpdate_fetches credentials documentId
                  [Request.insertText text {| Location.index := index |}] w1)
      as Hins.
    cbv zeta in Hins.
    assert (Hthrough : forall f,
      submits f documentId
        [Request.insertText text {| Location.index := index |}] ->
      through_batchUpdate true f).
    { intros f Hs _. exists documentId. eexists. split; [ exact Hs | ].
      reflexivity. }
    assert (Hread : forall f, mutating f = false -> through_batchUpdate true f).
    { intros f Hf Hmut. congruence. }
    destruct Hget as [ Hsame | (g & Hg & Hgm) ];
      destruct Hins as [ Hsame' | (f & Hf & Hs) ].
    + rewrite Hsame', Hsame.
      rewrite <- (app_nil_r (fetches w)) at 2.
      rewrite skipn_length_app. constructor.
    + rewrite Hf, Hsame, skipn_length_app. repeat constructor. auto.
    + rewrite Hsame', Hg, skipn_length_app. repeat constructor. auto.
    + rewrite Hf, Hg, <- app_assoc, skipn_length_app.
      repeat constructor; auto.
  - (* a 204: reading [doc.body] throws *)
    destruct Hget as [ Hsame | (g & Hg & Hgm) ].
    + rewrite Hsame. rewrite <- (app_nil_r (fetches w)) at 2.
      rewrite skipn_length_app. constructor.
    + rewrite Hg, skipn_length_app. repeat constructor. congruence.
  - destruct Hget as [ Hsame | (g & Hg & Hgm) ].
    + rewrite Hsame. rewrite <- (app_nil_r (fetches w)) at 2.
      rewrite skipn_length_app. constructor.
    + rewrite Hg, skipn_length_app. repeat constructor. congruence.
Qed.

Lemma getDocument_issued credentials documentId single w :
  Forall (through_batchUpdate single)
    (issued (GoogleDocsClientImpl.getDocument credentials documentId) w).
Proof.
  destruct (getDocument_fetches credentials documentId w)
    as [ Hsame | (f & Hf & Hm) ].
  - rewrite (@issued_nothing _ _ w Hsame). constructor.
  - rewrite (@issued_app _ _ w _ Hf). repeat constructor. intros Hmut. congruence.
Qed.

Lemma createDocument_issued credentials title w :
  Forall creates_document
    (issued (GoogleDocsClientImpl.createDocument credentials title) w).
Proof.
  destruct (createDocument_fetches credentials title w)
    as [ Hsame | (f & Hf & Hc) ].
  - rewrite (@issued_nothing _ _ w Hsame). constructor.
  - rewrite (@issued_app _ _ w _ Hf). constructor; [ exact Hc | constructor ].
Qed.

Lemma testConnection_issued credentials w :
  Forall creates_document
    (issued (GoogleDocsClientImpl.testConnection credentials) w).
Proof.
  pose proof (createDocument_issued credentials "MCP Connection Test" w) as H.
  unfold issued, GoogleDocsClientImpl.testConnection, try_catch, bind in *.
  destruct (GoogleDocsClientImpl.createDocument credentials
              "MCP Connection Test" w)
    as [ [ [ doc | ] | e ] w1 ]; exact H.
Qed.

(** C3, as the code has it.  Every client method other than createDocument
    and testConnection changes remote state only through batchUpdate: each
    request it issues that is not a GET is a batch update, of exactly one
    operation unless the method is batchUpdate itself.  createDocument and
    testConnection issue nothing but the POST of a title to the document
    collection. *)
Theorem mutations_go_through_batchUpdate_except_createDocument :
  forall credentials T (call : Call.t T) w,
    let sent := issued (createGoogleDocsClient credentials call) w in
    (bypasses_batchUpdate call = false ->
     Forall (through_batchUpdate (negb (is_batchUpdate call))) sent)
    /\ (bypasses_batchUpdate call = true -> Forall creates_document sent).
Proof.
  intros credentials T call w sent. subst sent.
  destruct call; cbn [bypasses_batchUpdate is_batchUpdate negb];
    (split; [ intros Hby | intros Hby ]); try discriminate;
    cbn [createGoogleDocsClient];
    try apply testConnection_issued;
    try apply createDocument_issued;
    try apply getDocument_issued;
    try apply appendText_issued;
    try (apply batchUpdate_issued; intros; try discriminate; reflexivity).
Qed.

(** The counterexample of C3 as stated: createDocument is not getDocument,
    and the one request it issues changes remote state without being a batch
    update. *)
Lemma createDocument_bypasses_batchUpdate :
  is_getDocument (Call.createDocument "Notes") = false
  /\ exists f,
      issued (createGoogleDocsClient Sample.credentials
                (Call.createDocument "Notes")) Sample.world = [f]
      /\ mutating f = true
      /\ Fetch.url f = "https://docs.googleapis.com/v1/documents"
      /\ forall documentId requests, ~ submits f documentId requests.
Proof.
  split; [ reflexivity | ].
  eexists. split; [ reflexivity | ].
  split; [ reflexivity | ]. split; [ reflexivity | ].
  intros documentId requests (_ & _ & Hbody). discriminate Hbody.
Qed.

(** The witness of C3: insertText sends one batch update of one operation;
    createDocument sends the POST of the title. *)
Lemma mutations_go_through_batchUpdate_except_createDocument_witness :
  Forall (through_batchUpdate true)
    (issued (createGoogleDocsClient Sample.credentials
               (Call.insertText "doc1" "hi" 1)) Sample.world)
  /\ Forall creates_document
       (issued (createGoogleDocsClient Sample.credentials
                  (Call.createDocument "Notes")) Sample.world).
Proof.
  split.
  - apply (mutations_go_through_batchUpdate_except_createDocument
             Sample.credentials (Call.insertText "doc1" "hi" 1) Sample.world).
    reflexivity.
  - apply (mutations_go_through_batchUpdate_except_createDocument
             Sample.credentials (Call.createDocument "Notes") Sample.world).
    reflexivity.
Defined.

(* ========================================================================= *)
(** * Tool handlers *)
(* ========================================================================= *)

(** Runs a handler symbolically: every client call and every test is split
    into its outcomes. *)
Ltac run_handler :=
  unfold try_catch, bind, ret, throw, first_reply, read;
  repeat match goal with
         | p : (_ * _)%type |- _ => destruct p
         | |- context [match ?x with _ => _ end] =>
             lazymatch x with
             | context [match _ with _ => _ end] => fail
             | _ => destruct x
             end
         end.

Ltac settle :=
  do 2 eexists; split; [ reflexivity | cbn; reflexivity ].

Ltac handler_total :=
  intros args w; cbn in args |- *;
  repeat match goal with
         | p : (_ * _)%type |- _ => destruct p
         end;
  run_handler; settle.

Section Handlers.
Variable client : GoogleDocsClient.
Variable isURL : string -> bool.

Lemma document_tools_total tool :
  In tool (registerDocumentTools client) ->
  forall args w, exists result w',
    Tool.handler tool args w = (Returns result, w') /\ structured result.
Proof.
  intros Hin. unfold registerDocumentTools in Hin. cbn [In] in Hin.
  repeat destruct Hin as [ <- | Hin ]; [ .. | contradiction ];
    handler_total.
Qed.

Lemma content_tools_total tool :
  In tool (registerContentTools client) ->
  forall args w, exists result w',
    Tool.handler tool args w = (Returns result, w') /\ structured result.
Proof.
  intros Hin. unfold registerContentTools in Hin. cbn [In] in Hin.
  repeat destruct Hin as [ <- | Hin ]; [ .. | contradiction ];
    handler_total.
Qed.

Lemma formatting_tools_total tool :
  In tool (registerFormattingTools client) ->
  forall args w, exists result w',
    Tool.handler tool args w = (Returns result, w') /\ structured result.
Proof.
  intros Hin. unfold registerFormattingTools in Hin. cbn [In] in Hin.
  repeat destruct Hin as [ <- | Hin ]; [ .. | contradiction ];
    handler_total.
Qed.

Lemma table_tools_total tool :
  In tool (registerTableTools client) ->
  forall args w, exists result w',
    Tool.handler tool args w = (Returns result, w') /\ structured result.
Proof.
  intros Hin. unfold registerTableTools in Hin. cbn [In] in Hin.
  repeat destruct Hin as [ <- | Hin ]; [ .. | contradiction ];
    handler_total.
Qed.

Lemma image_tools_total tool :
  In tool (registerImageTools client isURL) ->
  forall args w, exists result w',
    Tool.handler tool args w = (Returns result, w') /\ structured result.
Proof.
  intros Hin. unfold registerImageTools in Hin. cbn [In] in Hin.
  repeat destruct Hin as [ <- | Hin ]; [ .. | contradiction ];
    handler_total.
Qed.

Lemma list_tools_total tool :
  In tool (registerListTools client) ->
  forall args w, exists result w',
    Tool.handler tool args w = (Returns result, w') /\ structured result.
Proof.
  intros Hin. unfold registerListTools in Hin. cbn [In] in Hin.
  repeat destruct Hin as [ <- | Hin ]; [ .. | contradiction ];
    handler_total.
Qed.

Lemma named_range_tools_total tool :
  In tool (registerNamedRangeTools client) ->
  forall args w, exists result w',
    Tool.handler tool args w = (Returns result, w') /\ structured result.
Proof.
  intros Hin. unfold registerNamedRangeTools in Hin. cbn [In] in Hin.
  repeat destruct Hin as [ <- | Hin ]; [ .. | contradiction ];
    handler_total.
Qed.

Lemma header_footer_tools_total tool :
  In tool (registerHeaderFooterTools client) ->
  forall args w, exists result w',
    Tool.handler tool args w = (Returns result, w') /\ structured result.
Proof.
  intros Hin. unfold registerHeaderFooterTools in Hin. cbn [In] in Hin.
  repeat destruct Hin as [ <- | Hin ]; [ .. | contradiction ];
    handler_total.
Qed.

Lemma test_connection_total :
  forall args w, exists result w',
    Tool.handler (googledocs_test_connection client) args w
    = (Returns result, w') /\ structured result.
Proof. handler_total. Qed.
End Handlers.

(** C7.  Every handler registered on the server returns a structured result
    for every input and every behaviour of the client it calls, whether the
    call returns or throws any error: it never throws itself. *)
Theorem handlers_never_throw :
  forall (client : GoogleDocsClient) (isURL : string -> bool) (tool : Tool.t),
    In tool (registerAllTools client isURL) ->
    forall (args : Tool.Args tool) (w : World),
    exists result w',
      Tool.handler tool args w = (Returns result, w') /\ structured result.
Proof.
  intros client isURL tool Hin. unfold registerAllTools in Hin.
  repeat (apply in_app_or in Hin; destruct Hin as [ Hin | Hin ]).
  - now apply document_tools_total with (client := client).
  - now apply content_tools_total with (client := client).
  - now apply formatting_tools_total with (client := client).
  - now apply table_tools_total with (client := client).
  - now apply image_tools_total with (client := client) (isURL := isURL).
  - now apply list_tools_total with (client := client).
  - now apply named_range_tools_total with (client := client).
  - now apply header_footer_tools_total with (client := client).
  - destruct Hin as [ <- | [] ]. apply test_connection_total.
Qed.

(** The witness of C7: the insert-text handler against a remote that answers
    429 returns the error envelope of the RateLimitError. *)
Lemma handlers_never_throw_witness :
  exists result w',
    Tool.handler (googledocs_insert_text Sample.client) ("doc1", "hi", 1)
      Sample.throttled_world
    = (Returns result, w')
    /\ structured result.
Proof.
  apply (@handlers_never_throw Sample.client Sample.isURL
           (googledocs_insert_text Sample.client)).
  unfold registerAllTools. apply in_or_app. right. apply in_or_app. left.
  left. reflexivity.
Defined.

Lemma insert_text_throttled :
  Tool.handler (googledocs_insert_text Sample.client) ("doc1", "hi", 1)
    Sample.throttled_world
  = (Returns (formatError (RateLimitError "Rate limit exceeded" (Num 30))),
     {| remote := remote Sample.throttled_world;
        fetches :=
          [batchUpdate_fetch "ya29.token" "doc1"
             [Request.insertText "hi" {| Location.index := 1 |}]] |}).
Proof. reflexivity. Qed.

(* ========================================================================= *)
(** * Schema validation before the handler *)
(* ========================================================================= *)

Lemma index_below_1_fails (q : Q) :
  Qnum q < Zpos (Qden q) ->
  z.min 1 (z.int z.number) (Some (JNumber q)) = None.
Proof.
  intros Hlt. unfold z.min, z.int, z.number.
  destruct (Qnum q mod Zpos (Qden q) =? 0); [ | reflexivity ].
  assert (Qnum q / Zpos (Qden q) < 1) by (apply Z.div_lt_upper_bound; lia).
  destruct (Z.leb_spec 1 (Qnum q / Zpos (Qden q))); [ lia | reflexivity ].
Qed.

Lemma insert_text_schema_index_below_1 client o q :
  lookup "index" o = Some (JNumber q) ->
  Qnum q < Zpos (Qden q) ->
  Tool.inputSchema (googledocs_insert_text client) (Some (JObject o)) = None.
Proof.
  intros Hindex Hlt.
  cbv [Tool.inputSchema googledocs_insert_text z.object].
  destruct (z.string (lookup "documentId" o)); [ | reflexivity ].
  destruct (z.string (lookup "text" o)); [ | reflexivity ].
  now rewrite Hindex, index_below_1_fails.
Qed.

Lemma insert_text_schema_accepts client documentId text (index : Z) :
  1 <= index ->
  Tool.inputSchema (googledocs_insert_text client)
    (Some (JObject [("documentId", JString documentId);
                    ("text", JString text);
                    ("index", JNumber (inject_Z index))]))
  = Some (documentId, text, index).
Proof.
  intros Hge. cbn.
  unfold z.min, z.int, z.number. cbn.
  rewrite Z.mod_1_r, Z.div_1_r. cbn.
  destruct (Z.leb_spec 1 index); [ reflexivity | lia ].
Qed.

Lemma callTool_rejects tools name tool arguments w :
  find_tool tools name = Some tool ->
  Tool.inputSchema tool arguments = None ->
  callTool tools name arguments w
  = (Returns (protocol_error InvalidParams
                ("Invalid arguments for tool " ++ name)), w).
Proof. intros Hfind Hschema. unfold callTool. now rewrite Hfind, Hschema. Qed.

(** C6.  On the server of any tenant, arguments that violate the declared
    input schema of the tool they are sent to are answered with an
    InvalidParams rejection, the handler is not run and the list of network
    calls is left as it was; in particular the insert-text tool rejects
    every [index] below 1. *)
Theorem schema_violation_is_rejected_before_any_call :
  forall credentials isURL w,
    let server := createStatelessServer credentials isURL in
    (forall name tool arguments,
        find_tool server name = Some tool ->
        Tool.inputSchema tool arguments = None ->
        exists message,
          callTool server name arguments w
          = (Returns (protocol_error InvalidParams message), w)
          /\ issued (callTool server name arguments) w = [])
    /\ (forall o q,
           lookup "index" o = Some (JNumber q) ->
           Qnum q < Zpos (Qden q) ->
           exists message,
             callTool server "googledocs_insert_text" (Some (JObject o)) w
             = (Returns (protocol_error InvalidParams message), w)
             /\ issued (callTool server "googledocs_insert_text"
                          (Some (JObject o))) w = []).
Proof.
  intros credentials isURL w server.
  assert (Hgeneral : forall name tool arguments,
    find_tool server name = Some tool ->
    Tool.inputSchema tool arguments = None ->
    exists message,
      callTool server name arguments w
      = (Returns (protocol_error InvalidParams message), w)
      /\ issued (callTool server name arguments) w = []).
  { intros name tool arguments Hfind Hschema.
    eexists. split.
    - exact (@callTool_rejects _ _ _ _ w Hfind Hschema).
    - apply issued_nothing.
      now rewrite (@callTool_rejects _ _ _ _ w Hfind Hschema). }
  split; [ exact Hgeneral | ].
  intros o q Hindex Hlt.
  apply Hgeneral
    with (tool := googledocs_insert_text (createGoogleDocsClient credentials)).
  - reflexivity.
  - now apply insert_text_schema_index_below_1 with (q := q).
Qed.

(** The witness of C6: [index = 0] sent to the insert-text tool. *)
Lemma schema_violation_is_rejected_before_any_call_witness :
  exists message,
    callTool Sample.server "googledocs_insert_text"
      (Some (JObject [("documentId", JString "doc1"); ("text", JString "hi");
                      ("index", JNumber 0)]))
      Sample.world
    = (Returns (protocol_error InvalidParams message), Sample.world)
    /\ issued
         (callTool Sample.server "googledocs_insert_text"
            (Some (JObject [("documentId", JString "doc1");
                            ("text", JString "hi"); ("index", JNumber 0)])))
         Sample.world = [].
Proof.
  destruct (schema_violation_is_rejected_before_any_call
              Sample.credentials Sample.isURL Sample.world) as [ H _ ].
  apply H with (tool := googledocs_insert_text Sample.client).
  - reflexivity.
  - reflexivity.
Defined.

(* ========================================================================= *)
(** * Formatting without changes *)
(* ========================================================================= *)

(** C9.  Called with none of the optional styling arguments, the format-text
    and format-paragraph handlers return the success envelope with the
    message that no changes were specified and empty data, whatever client
    they hold, and leave the list of network calls as it was: the client is
    not called. *)
Theorem formatting_without_changes_calls_nothing :
  forall (client : GoogleDocsClient) documentId startIndex endIndex w,
    Tool.handler (googledocs_format_text client)
      (documentId, startIndex, endIndex, None, None, None, None, None, None) w
    = (Returns (formatSuccess "No formatting changes specified"
                  data_empty_object), w)
    /\ Tool.handler (googledocs_format_paragraph client)
         (documentId, startIndex, endIndex, None, None, None, None, None) w
       = (Returns (formatSuccess "No paragraph formatting changes specified"
                     data_empty_object), w).
Proof. intros client documentId startIndex endIndex w. split; reflexivity. Qed.

Lemma format_text_absent_arguments_parse :
  Tool.inputSchema (googledocs_format_text Sample.client)
    (Some (JObject [("documentId", JString "doc1");
                    ("startIndex", JNumber 1); ("endIndex", JNumber (5 # 1))]))
  = Some ("doc1", 1, 5, None, None, None, None, None, None).
Proof. reflexivity. Qed.

(* ========================================================================= *)
(** * Named-range tools *)
(* ========================================================================= *)

(** C5, as the code has it.  When both identifier fields are absent or
    empty, the delete and replace handlers return their error result without
    calling the client, whatever the client is, and the list of network calls
    is left as it was; when at least one identifier is a non-empty string,
    each handler is the guarded call of the client method with the three
    (four) arguments as given. *)
Theorem named_range_tools_require_an_identifier :
  forall (client : GoogleDocsClient) documentId text id name w,
    (truthy_string id = false -> truthy_string name = false ->
     Tool.handler (googledocs_delete_named_range client)
       (documentId, id, name) w
     = (Returns (missing_identifier
                   "Either namedRangeId or name must be provided"), w)
     /\ Tool.handler (googledocs_replace_named_range_content client)
          (documentId, text, id, name) w
        = (Returns (missing_identifier
                      "Either namedRangeId or namedRangeName must be provided"),
           w))
    /\ (truthy_string id = true \/ truthy_string name = true ->
        (exists message,
            Tool.handler (googledocs_delete_named_range client)
              (documentId, id, name) w
            = try_catch
                (result <- client _
                   (Call.deleteNamedRange documentId id name) ;;
                 ret (formatSuccess message (data_of_update result)))
                (fun error => ret (formatError error)) w)
        /\ (exists message,
               Tool.handler (googledocs_replace_named_range_content client)
                 (documentId, text, id, name) w
               = try_catch
                   (result <- client _
                      (Call.replaceNamedRangeContent documentId text id
                         name) ;;
                    ret (formatSuccess message (data_of_update result)))
                   (fun error => ret (formatError error)) w)).
Proof.
  intros client documentId text id name w. split.
  - intros Hid Hname. cbn. rewrite Hid, Hname. split; reflexivity.
  - intros Hsome. cbn.
    assert (Hguard :
      negb (truthy_string id) && negb (truthy_string name) = false).
    { destruct Hsome as [ -> | -> ]; cbn; [ reflexivity | ].
      apply andb_false_r. }
    rewrite Hguard. split; eexists; reflexivity.
Qed.

(** The counterexample of C5 as stated: [namedRangeId] is provided, as the
    empty string, the schema accepts the arguments, and the handler still
    answers with its own error and makes no call, although the tenant has a
    token and the remote would answer. *)
Lemma empty_identifier_is_rejected_locally :
  Tool.inputSchema (googledocs_delete_named_range Sample.client)
    (Some (JObject [("documentId", JString "doc1");
                    ("namedRangeId", JString EmptyString)]))
  = Some ("doc1", Some EmptyString, None)
  /\ callTool Sample.server "googledocs_delete_named_range"
       (Some (JObject [("documentId", JString "doc1");
                       ("namedRangeId", JString EmptyString)]))
       Sample.world
     = (Returns
          (tool_result
             (missing_identifier
                "Either namedRangeId or name must be provided")),
        Sample.world)
  /\ issued
       (callTool Sample.server "googledocs_delete_named_range"
          (Some (JObject [("documentId", JString "doc1");
                          ("namedRangeId", JString EmptyString)])))
       Sample.world = [].
Proof. repeat split. Qed.

(** The witness of C5: no identifier at all is rejected; a name alone goes to
    the client. *)
Lemma named_range_tools_require_an_identifier_witness :
  Tool.handler (googledocs_delete_named_range Sample.client)
    ("doc1", None, None) Sample.world
  = (Returns (missing_identifier
                "Either namedRangeId or name must be provided"),
     Sample.world)
  /\ exists message,
      Tool.handler (googledocs_delete_named_range Sample.client)
        ("doc1", None, Some "intro") Sample.world
      = try_catch
          (result <- Sample.client
             (Call.deleteNamedRange "doc1" None (Some "intro")) ;;
           ret (formatSuccess message (data_of_update result)))
          (fun error => ret (formatError error)) Sample.world.
Proof.
  split.
  - apply (named_range_tools_require_an_identifier
             Sample.client "doc1" "x" None None Sample.world); reflexivity.
  - apply (named_range_tools_require_an_identifier
             Sample.client "doc1" "x" None (Some "intro") Sample.world).
    right. reflexivity.
Defined.

Lemma guarded_batchUpdate_issued credentials documentId requests message w :
  has_token credentials ->
  exists f,
    issued
      (try_catch
         (result <- GoogleDocsClientImpl.batchUpdate credentials documentId
                      requests ;;
          ret (formatSuccess message (data_of_update result)))
         (fun error => ret (formatError error))) w = [f]
    /\ submits f documentId requests.
Proof.
  intros Htok.
  destruct (batchUpdate_with_token documentId requests w Htok)
    as (f & Hf & Hs).
  exists f. split; [ | exact Hs ].
  apply issued_app. unfold try_catch, bind, ret.
  destruct (GoogleDocsClientImpl.batchUpdate credentials documentId requests w)
    as [ [ r | e ] w' ]; exact Hf.
Qed.

(** C10, as the code has it.  When both identifiers are supplied and at
    least one of them is not empty, the handler of a tenant with a token
    issues exactly one request: the batch update whose single operation
    carries both identifiers as they were given. *)
Theorem named_range_identifiers_are_forwarded_verbatim :
  forall credentials documentId text id name w,
    has_token credentials ->
    id <> EmptyString \/ name <> EmptyString ->
    let client := createGoogleDocsClient credentials in
    (exists f,
        issued (Tool.handler (googledocs_delete_named_range client)
                  (documentId, Some id, Some name)) w = [f]
        /\ submits f documentId
             [Request.deleteNamedRange (Some id) (Some name)])
    /\ (exists f,
           issued (Tool.handler (googledocs_replace_named_range_content client)
                     (documentId, text, Some id, Some name)) w = [f]
           /\ submits f documentId
                [Request.replaceNamedRangeContent (Some id) (Some name)
                   text]).
Proof.
  intros credentials documentId text id name w Htok Hsome client.
  assert (Hguard :
    negb (truthy_string (Some id)) && negb (truthy_string (Some name))
    = false).
  { cbn. rewrite !negb_involutive. apply andb_false_iff.
    destruct Hsome as [ H | H ]; [ left | right ];
      now apply String.eqb_neq. }
  split.
  - cbn [Tool.handler googledocs_delete_named_range]. rewrite Hguard.
    apply guarded_batchUpdate_issued. exact Htok.
  - cbn [Tool.handler googledocs_replace_named_range_content].
    rewrite Hguard.
    apply guarded_batchUpdate_issued. exact Htok.
Qed.

(** The counterexample of C10 as stated: both identifiers are supplied, as
    empty strings, and nothing is forwarded: the handler answers with its own
    error and issues no request. *)
Lemma empty_identifiers_are_not_forwarded :
  Tool.handler (googledocs_delete_named_range Sample.client)
    ("doc1", Some EmptyString, Some EmptyString) Sample.world
  = (Returns (missing_identifier
                "Either namedRangeId or name must be provided"),
     Sample.world)
  /\ issued (Tool.handler (googledocs_delete_named_range Sample.client)
               ("doc1", Some EmptyString, Some EmptyString))
       Sample.world = [].
Proof. split; reflexivity. Qed.

(** The witness of C10: an id and a name together reach the remote in one
    operation. *)
Lemma named_range_identifiers_are_forwarded_verbatim_witness :
  exists f,
    issued (Tool.handler (googledocs_delete_named_range Sample.client)
              ("doc1", Some "kix.abc", Some "intro")) Sample.world = [f]
    /\ submits f "doc1"
         [Request.deleteNamedRange (Some "kix.abc") (Some "intro")].
Proof.
  destruct (@named_range_identifiers_are_forwarded_verbatim
              Sample.credentials "doc1" "x" "kix.abc" "intro" Sample.world)
    as [ H _ ].
  - reflexivity.
  - left. discriminate.
  - exact H.
Defined.

(* ========================================================================= *)
(** * Further properties of the client and of the tools *)
(* ========================================================================= *)

(* ========================================================================= *)
(** * encodeURIComponent *)
(* ========================================================================= *)

Lemma escape_is_unreserved (c : ascii) :
  uriUnreserved (hexDigit (nat_of_ascii c / 16)) = true
  /\ uriUnreserved (hexDigit (nat_of_ascii c mod 16)) = true.
Proof.
  destruct c as [ [ | ] [ | ] [ | ] [ | ] [ | ] [ | ] [ | ] [ | ] ];
    split; vm_compute; reflexivity.
Qed.




(** What [encodeURIComponent] returns holds unreserved characters, the
    percent sign and upper-case hexadecimal digits only. *)
Lemma encodeURIComponent_output_is_path_safe :
  forall (s : string) (c : ascii),
    In c (list_ascii_of_string (encodeURIComponent s)) ->
    (uriUnreserved c = true \/ c = "%"%char)
    /\ c <> "/"%char /\ c <> "?"%char /\ c <> "#"%char /\ c <> ":"%char
    /\ c <> "&"%char /\ c <> "="%char /\ c <> " "%char.
Proof.
  intros s c Hin.
  assert (Hsafe : uriUnreserved c = true \/ c = "%"%char).
  { induction s as [ | a s IH ]; cbn in Hin; [ contradiction | ].
    destruct (uriUnreserved a) eqn:Ha; cbn in Hin.
    - destruct Hin as [ <- | Hin ]; [ now left | now apply IH ].
    - destruct (escape_is_unreserved a) as [ Hhi Hlo ].
      destruct Hin as [ <- | [ <- | [ <- | Hin ] ] ];
        [ now right | now left | now left | now apply IH ]. }
  split; [ exact Hsafe | ].
  repeat split; intros ->; destruct Hsafe as [ H | H ]; discriminate H.
Qed.


(** A string of unreserved characters is its own encoding. *)
Lemma encodeURIComponent_keeps_unreserved :
  forall s : string,
    forallb uriUnreserved (list_ascii_of_string s) = true ->
    encodeURIComponent s = s.
Proof.
  induction s as [ | c s IH ]; cbn; [ reflexivity | ].
  intros H. apply andb_true_iff in H as [ Hc Hs ].
  rewrite Hc. f_equal. now apply IH.
Qed.

Lemma encodeURIComponent_keeps_unreserved_witness :
  encodeURIComponent "1BxiMVs0XRA5nFMdKvBdBZjgmUUqptlbs74OgvE2upms"
  = "1BxiMVs0XRA5nFMdKvBdBZjgmUUqptlbs74OgvE2upms".
Proof.
  apply encodeURIComponent_keeps_unreserved. reflexivity.
Defined.

(* ========================================================================= *)
(** * The requests of the client, exactly *)
(* ========================================================================= *)

Lemma getAuthHeaders_bearer (credentials : TenantCredentials.t) :
  GoogleDocsClientImpl.getAuthHeaders credentials
  = match bearer credentials with
    | Some t => Returns [("Authorization", "Bearer " ++ t);
                         ("Content-Type", "application/json")]
    | None => Throws (AuthenticationError no_token_message)
    end.
Proof.
  unfold GoogleDocsClientImpl.getAuthHeaders, bearer.
  destruct (TenantCredentials.accessToken credentials) as [ t | ];
    [ | reflexivity ].
  now destruct (t =? EmptyString)%string.
Qed.

Lemma bearer_has_token (credentials : TenantCredentials.t) :
  has_token credentials <-> exists t, bearer credentials = Some t.
Proof.
  unfold has_token, truthy_string, bearer.
  destruct (TenantCredentials.accessToken credentials) as [ t | ].
  - destruct (t =? EmptyString)%string; cbn; split;
      try discriminate; eauto.
    intros [ t' H ]. discriminate H.
  - split; [ discriminate | ]. intros [ t' H ]. discriminate H.
Qed.

Section Exact.
Variable credentials : TenantCredentials.t.

Lemma request_run T `{Fetched T} endpoint options (w : World) :
  GoogleDocsClientImpl.request (T:=T) credentials endpoint options w
  = match bearer credentials with
    | None => (Throws (AuthenticationError no_token_message), w)
    | Some t =>
        let call :=
          {| Fetch.url := API_BASE_URL ++ endpoint;
             Fetch.method := RequestInit.method options;
             Fetch.headers := [("Authorization", "Bearer " ++ t);
                               ("Content-Type", "application/json")];
             Fetch.body := RequestInit.body options |} in
        (match serve (remote w) (fetches w) call with
         | Rejects e => Throws e
         | Resolves response => handle_response response
         end,
         {| remote := remote w; fetches := (fetches w ++ [call])%list |})
    end.
Proof.
  unfold GoogleDocsClientImpl.request, bind, lift.
  rewrite getAuthHeaders_bearer.
  destruct (bearer credentials) as [ t | ]; [ | reflexivity ].
  cbv zeta.
  now destruct (serve (remote w) (fetches w) _).
Qed.

Lemma batchUpdate_run documentId requests (w : World) :
  GoogleDocsClientImpl.batchUpdate credentials documentId requests w
  = match bearer credentials with
    | None => (Throws (AuthenticationError no_token_message), w)
    | Some t =>
        let call := batchUpdate_fetch t documentId requests in
        (match serve_BatchUpdateResponse (remote w) (fetches w) call with
         | Rejects e => Throws e
         | Resolves response => handle_response response
         end,
         {| remote := remote w; fetches := (fetches w ++ [call])%list |})
    end.
Proof.
  unfold GoogleDocsClientImpl.batchUpdate. rewrite request_run.
  destruct (bearer credentials); reflexivity.
Qed.

Lemma getDocument_run documentId (w : World) :
  GoogleDocsClientImpl.getDocument credentials documentId w
  = match bearer credentials with
    | None => (Throws (AuthenticationError no_token_message), w)
    | Some t =>
        let call := getDocument_fetch t documentId in
        (match serve_Document (remote w) (fetches w) call with
         | Rejects e => Throws e
         | Resolves response => handle_response response
         end,
         {| remote := remote w; fetches := (fetches w ++ [call])%list |})
    end.
Proof.
  unfold GoogleDocsClientImpl.getDocument. rewrite request_run.
  destruct (bearer credentials); reflexivity.
Qed.

Lemma createDocument_run title (w : World) :
  GoogleDocsClientImpl.createDocument credentials title w
  = match bearer credentials with
    | None => (Throws (AuthenticationError no_token_message), w)
    | Some t =>
        let call := createDocument_fetch t title in
        (match serve_Document (remote w) (fetches w) call with
         | Rejects e => Throws e
         | Resolves response => handle_response response
         end,
         {| remote := remote w; fetches := (fetches w ++ [call])%list |})
    end.
Proof.
  unfold GoogleDocsClientImpl.createDocument. rewrite request_run.
  destruct (bearer credentials); reflexivity.
Qed.

Lemma batchUpdate_sent documentId requests (w : World) :
  issued (GoogleDocsClientImpl.batchUpdate credentials documentId requests) w
  = match bearer credentials with
    | Some t => [batchUpdate_fetch t documentId requests]
    | None => []
    end.
Proof.
  unfold issued. rewrite batchUpdate_run.
  destruct (bearer credentials) as [ t | ]; cbn [snd fetches].
  - apply skipn_length_app.
  - rewrite <- (app_nil_r (fetches w)) at 2. apply skipn_length_app.
Qed.

Lemma getDocument_sent documentId (w : World) :
  issued (GoogleDocsClientImpl.getDocument credentials documentId) w
  = match bearer credentials with
    | Some t => [getDocument_fetch t documentId]
    | None => []
    end.
Proof.
  unfold issued. rewrite getDocument_run.
  destruct (bearer credentials) as [ t | ]; cbn [snd fetches].
  - apply skipn_length_app.
  - rewrite <- (app_nil_r (fetches w)) at 2. apply skipn_length_app.
Qed.

Lemma createDocument_sent title (w : World) :
  issued (GoogleDocsClientImpl.createDocument credentials title) w
  = match bearer credentials with
    | Some t => [createDocument_fetch t title]
    | None => []
    end.
Proof.
  unfold issued. rewrite createDocument_run.
  destruct (bearer credentials) as [ t | ]; cbn [snd fetches].
  - apply skipn_length_app.
  - rewrite <- (app_nil_r (fetches w)) at 2. apply skipn_length_app.
Qed.

Lemma testConnection_sent (w : World) :
  issued (GoogleDocsClientImpl.testConnection credentials) w
  = match bearer credentials with
    | Some t => [createDocument_fetch t "MCP Connection Test"]
    | None => []
    end.
Proof.
  rewrite <- createDocument_sent with (w := w).
  unfold issued, GoogleDocsClientImpl.testConnection, try_catch, bind.
  now destruct (GoogleDocsClientImpl.createDocument credentials
                  "MCP Connection Test" w) as [ [ [ doc | ] | e ] w1 ].
Qed.

(** What [appendText] sends: the read, then the insert when the read
    returned a document. *)
Lemma appendText_sent documentId text (w : World) :
  issued (GoogleDocsClientImpl.appendText credentials documentId text) w
  = match bearer credentials with
    | None => []
    | Some t =>
        getDocument_fetch t documentId
        :: match fst (GoogleDocsClientImpl.getDocument credentials
                        documentId w) with
           | Returns (Some doc) =>
               [batchUpdate_fetch t documentId
                  [Request.insertText text
                     {| Location.index :=
                          Z.max 1
                            (GoogleDocsClientImpl.lastEndIndex doc - 1) |}]]
           | _ => []
           end
    end.
Proof.
  unfold issued. rewrite appendText_run, getDocument_run.
  destruct (bearer credentials) as [ t | ] eqn:Hb; cbn [snd fst fetches].
  - cbv zeta.
    destruct (match serve_Document (remote w) (fetches w)
                      (getDocument_fetch t documentId) with
              | Rejects e => Throws e
              | Resolves response => handle_response response
              end) as [ [ doc | ] | e ]; cbn [snd fetches].
    + rewrite batchUpdate_run, Hb. cbn [snd fetches].
      rewrite <- app_assoc. apply skipn_length_app.
    + apply skipn_length_app.
    + apply skipn_length_app.
  - rewrite <- (app_nil_r (fetches w)) at 2. apply skipn_length_app.
Qed.
End Exact.

Create HintDb client.

#[local] Hint Unfold
  GoogleDocsClientImpl.insertText GoogleDocsClientImpl.deleteContent
  GoogleDocsClientImpl.replaceAllText GoogleDocsClientImpl.updateTextStyle
  GoogleDocsClientImpl.updateParagraphStyle
  GoogleDocsClientImpl.createParagraphBullets
  GoogleDocsClientImpl.deleteParagraphBullets
  GoogleDocsClientImpl.createNamedRange GoogleDocsClientImpl.deleteNamedRange
  GoogleDocsClientImpl.replaceNamedRangeContent
  GoogleDocsClientImpl.insertTable GoogleDocsClientImpl.insertTableRow
  GoogleDocsClientImpl.insertTableColumn GoogleDocsClientImpl.deleteTableRow
  GoogleDocsClientImpl.deleteTableColumn GoogleDocsClientImpl.mergeTableCells
  GoogleDocsClientImpl.unmergeTableCells
  GoogleDocsClientImpl.updateTableCellStyle
  GoogleDocsClientImpl.updateTableRowStyle
  GoogleDocsClientImpl.updateTableColumnProperties
  GoogleDocsClientImpl.pinTableHeaderRows
  GoogleDocsClientImpl.insertInlineImage GoogleDocsClientImpl.replaceImage
  GoogleDocsClientImpl.deletePositionedObject
  GoogleDocsClientImpl.insertPageBreak GoogleDocsClientImpl.insertSectionBreak
  GoogleDocsClientImpl.createHeader GoogleDocsClientImpl.createFooter
  GoogleDocsClientImpl.deleteHeader GoogleDocsClientImpl.deleteFooter
  GoogleDocsClientImpl.createFootnote
  GoogleDocsClientImpl.updateDocumentStyle
  GoogleDocsClientImpl.updateSectionStyle : client.

(** Rewrites what a call of the client sends into the list of its
    requests. *)
Ltac sent :=
  cbn [createGoogleDocsClient]; autounfold with client;
  rewrite ?batchUpdate_sent, ?getDocument_sent, ?createDocument_sent,
    ?testConnection_sent, ?appendText_sent.





(* ========================================================================= *)
(** * The URL of a request *)
(* ========================================================================= *)












(* ========================================================================= *)
(** * How many requests, and what a failure leaves *)
(* ========================================================================= *)

(** X6.  One call of a method of the client sends at most two requests,
    of which at most one is a write; every method but [appendText] sends at
    most one. *)
Theorem client_call_sends_at_most_two_requests :
  forall credentials T (call : Call.t T) (w : World),
    let sent := issued (createGoogleDocsClient credentials call) w in
    (List.length sent <= 2)%nat
    /\ (List.length (filter mutating sent) <= 1)%nat
    /\ (is_appendText call = false -> (List.length sent <= 1)%nat).
Proof.
  intros credentials T call w sent. subst sent.
  destruct call; sent;
    destruct (bearer credentials) as [ t | ]; cbn; try lia.
  destruct (fst _) as [ [ doc | ] | e ]; cbn;
    (split; [ lia | split; [ lia | discriminate ] ]).
Qed.

Lemma client_call_sends_at_most_two_requests_witness :
  (List.length
     (issued (createGoogleDocsClient Sample.credentials
                (Call.deleteContent "doc1" 1 5)) Sample.world) <= 1)%nat.
Proof.
  apply (@client_call_sends_at_most_two_requests Sample.credentials _
           (Call.deleteContent "doc1" 1 5) Sample.world).
  reflexivity.
Defined.

(** X7.  When the read of [appendText] does not return a document,
    [appendText] throws, leaves the world as the read left it, and sends no
    write. *)
Theorem appendText_writes_nothing_when_the_read_fails :
  forall credentials documentId text w,
    (forall doc,
        fst (GoogleDocsClientImpl.getDocument credentials documentId w)
        <> Returns (Some doc)) ->
    (exists e,
        fst (GoogleDocsClientImpl.appendText credentials documentId text w)
        = Throws e)
    /\ snd (GoogleDocsClientImpl.appendText credentials documentId text w)
       = snd (GoogleDocsClientImpl.getDocument credentials documentId w)
    /\ filter mutating
         (issued (GoogleDocsClientImpl.appendText credentials documentId text)
            w) = [].
Proof.
  intros credentials documentId text w Hread.
  rewrite appendText_sent, appendText_run.
  destruct (GoogleDocsClientImpl.getDocument credentials documentId w)
    as [ [ [ doc | ] | e ] w1 ]; cbn [fst snd] in *.
  - now contradiction (Hread doc).
  - repeat split; [ eauto | ].
    now destruct (bearer credentials).
  - repeat split; [ eauto | ].
    now destruct (bearer credentials).
Qed.

Lemma appendText_writes_nothing_when_the_read_fails_witness :
  (exists e,
      fst (GoogleDocsClientImpl.appendText Sample.credentials "doc1" "hi"
             Sample.throttled_world) = Throws e)
  /\ filter mutating
       (issued (GoogleDocsClientImpl.appendText Sample.credentials "doc1" "hi")
          Sample.throttled_world) = [].
Proof.
  destruct (@appendText_writes_nothing_when_the_read_fails
              Sample.credentials "doc1" "hi" Sample.throttled_world)
    as (He & _ & Hno).
  - intros doc. discriminate.
  - split; [ exact He | exact Hno ].
Defined.

(** X8.  [testConnection] never throws: it returns a status after the one
    attempt to create a document.  The status is connected exactly when the
    attempt returned a document, and when the attempt threw an error, the
    message of the status is the message of that error. *)
Theorem testConnection_reports_instead_of_throwing :
  forall credentials w,
    exists status,
      GoogleDocsClientImpl.testConnection credentials w
      = (Returns status,
         snd (GoogleDocsClientImpl.createDocument credentials
                "MCP Connection Test" w))
      /\ (ConnectionStatus.connected status = true <->
          exists doc,
            fst (GoogleDocsClientImpl.createDocument credentials
                   "MCP Connection Test" w) = Returns (Some doc))
      /\ (forall e,
             fst (GoogleDocsClientImpl.createDocument credentials
                    "MCP Connection Test" w) = Throws e ->
             ConnectionStatus.message status
             = message_or e (JString "Connection failed")).
Proof.
  intros credentials w.
  unfold GoogleDocsClientImpl.testConnection, try_catch, bind.
  destruct (GoogleDocsClientImpl.createDocument credentials
              "MCP Connection Test" w) as [ [ [ doc | ] | e ] w1 ];
    cbn [read ret throw fst snd]; eexists; (split; [ reflexivity | ]); cbn;
    split.
  - split; [ eauto | reflexivity ].
  - intros e H. discriminate H.
  - split; [ discriminate | ]. intros [ doc H ]. discriminate H.
  - intros e H. discriminate H.
  - split; [ discriminate | ]. intros [ doc H ]. discriminate H.
  - intros e' H. now injection H as <-.
Qed.

Lemma testConnection_reports_instead_of_throwing_witness :
  exists status,
    fst (GoogleDocsClientImpl.testConnection Sample.credentials
           Sample.throttled_world) = Returns status
    /\ ConnectionStatus.message status = JString "Rate limit exceeded".
Proof.
  destruct (@testConnection_reports_instead_of_throwing Sample.credentials
              Sample.throttled_world) as (status & Hrun & _ & Hmessage).
  exists status. split.
  - now rewrite Hrun.
  - apply (Hmessage (RateLimitError "Rate limit exceeded" (Num 30))).
    reflexivity.
Defined.

(** X9.  The error [request] throws for a response that is not ok carries
    the status of the response and a message that is truthy: a missing, empty or
    otherwise falsy message in the body gives way to the generic message. *)
Theorem api_error_message_is_never_empty :
  forall T (response : Response T),
    exists message,
      api_error response = GoogleDocsApiError message (status response)
      /\ truthy message = true.
Proof.
  intros T response. rewrite api_error_spec. eexists.
  split; [ reflexivity | ].
  assert (Hgeneric : truthy (generic_message (status response)) = true)
    by reflexivity.
  destruct (text_parsed response) as [ body | ]; [ | exact Hgeneric ].
  destruct (envelope_message body) as [ m | ] eqn:Hm; [ | exact Hgeneric ].
  destruct body as [ | b | q | s | items | members ]; try discriminate Hm.
  cbn in Hm.
  destruct (lookup "error" members) as [ [ | b | q | s | items | error ] | ];
    try destruct (lookup "message" error) as [ m1 | ];
    try destruct (truthy m1) eqn:H1;
    try (injection Hm as <-; exact H1);
    destruct (lookup "message" members) as [ m2 | ]; try discriminate Hm;
    destruct (truthy m2) eqn:H2; try discriminate Hm;
    injection Hm as <-; exact H2.
Qed.

(** * Retry-After *)








(* ========================================================================= *)
(** * One call of the client per tool call *)
(* ========================================================================= *)

(** Splits the tests of a handler that do not depend on the client. *)
Ltac split_tests client :=
  repeat match goal with
         | p : (_ * _)%type |- _ => destruct p
         | |- context [match ?x with _ => _ end] =>
             lazymatch x with
             | context [match _ with _ => _ end] => fail
             | context [client] => fail
             | _ => destruct x
             end
         end.

(** Either the handler has not touched the world, or it has made the one
    call of the client that the goal shows. *)
Ltac one_call client :=
  intros args w; cbn in args |- *;
  cbv beta delta [try_catch bind ret throw first_reply read];
  split_tests client;
  first
    [ left; reflexivity
    | match goal with
      | |- context [client ?T ?c ?w'] =>
          right; exists T, c;
          destruct (client T c w') as [ [ ? | ? ] ? ];
          split_tests client; reflexivity
      end ].

Section OneCall.
Variable client : GoogleDocsClient.
Variable isURL : string -> bool.

Lemma handler_calls_once tool :
  In tool (registerAllTools client isURL) ->
  forall args w,
    snd (Tool.handler tool args w) = w
    \/ exists T (call : Call.t T),
        snd (Tool.handler tool args w) = snd (@client T call w).
Proof.
  intros Hin. unfold registerAllTools in Hin.
  repeat (apply in_app_or in Hin; destruct Hin as [ Hin | Hin ]);
    cbv [registerDocumentTools registerContentTools registerFormattingTools
         registerTableTools registerImageTools registerListTools
         registerNamedRangeTools registerHeaderFooterTools] in Hin;
    cbn [In] in Hin;
    repeat destruct Hin as [ <- | Hin ]; try contradiction;
    one_call client.
Qed.
End OneCall.


Lemma issued_of_world {A B} (m : Net A) (m' : Net B) (w : World) :
  snd (m w) = snd (m' w) -> issued m w = issued m' w.
Proof. unfold issued. now intros ->. Qed.

Lemma issued_untouched {A} (m : Net A) (w : World) :
  snd (m w) = w -> issued m w = [].
Proof. intros H. apply issued_nothing. now rewrite H. Qed.

Lemma find_tool_In tools name tool :
  find_tool tools name = Some tool -> In tool tools.
Proof.
  induction tools as [ | t tools IH ]; cbn; [ discriminate | ].
  destruct (Tool.name t =? name)%string.
  - intros [= <-]. now left.
  - intros H. right. now apply IH.
Qed.

Lemma callTool_calls_once (client : GoogleDocsClient) isURL name arguments w :
  let server := registerAllTools client isURL in
  snd (callTool server name arguments w) = w
  \/ exists T (call : Call.t T),
      snd (callTool server name arguments w) = snd (@client T call w).
Proof.
  intros server. unfold callTool.
  destruct (find_tool server name) as [ tool | ] eqn:Hfind;
    [ | now left ].
  destruct (Tool.inputSchema tool arguments) as [ args | ]; [ | now left ].
  destruct (@handler_calls_once client isURL tool
              (@find_tool_In _ _ _ Hfind) args w) as [ Hsame | (T & call & Hcall) ];
    [ left | right; exists T, call ];
    unfold bind;
    destruct (Tool.handler tool args w) as [ [ r | e ] w' ]; cbn in *;
    assumption.
Qed.

(** X11.  Whatever client the tools are registered with, a tools/call
    request either leaves the world untouched or leaves it as one call of one
    method of the client, made from the initial world, leaves it. *)
Theorem tool_call_makes_at_most_one_client_call :
  forall (client : GoogleDocsClient) isURL name arguments w,
    snd (callTool (registerAllTools client isURL) name arguments w) = w
    \/ exists T (call : Call.t T),
        snd (callTool (registerAllTools client isURL) name arguments w)
        = snd (@client T call w).
Proof. intros. apply callTool_calls_once. Qed.



(* ========================================================================= *)
(** * Document positions *)
(* ========================================================================= *)

Lemma z_min_ge (m : Z) (s : z.t Z) v n : z.min m s v = Some n -> m <= n.
Proof.
  unfold z.min. destruct (s v) as [ k | ]; [ | discriminate ].
  destruct (Z.leb_spec m k); [ | discriminate ]. now intros [= <-].
Qed.

Lemma z_optional_min_ge (m : Z) (s : z.t Z) v o :
  z.optional (z.min m s) v = Some o -> forall n, o = Some n -> m <= n.
Proof.
  unfold z.optional. destruct v as [ j | ].
  - destruct (z.min m s (Some j)) as [ k | ] eqn:Hk; [ | discriminate ].
    intros [= <-] n [= <-]. exact (z_min_ge _ _ _ Hk).
  - intros [= <-] n H. discriminate H.
Qed.

Lemma raw_requests_have_no_position requests :
  flat_map request_positions (map Request.raw requests) = [].
Proof. induction requests as [ | r rs IH ]; [ reflexivity | exact IH ]. Qed.

Lemma client_positions :
  forall credentials T (call : Call.t T) (w : World) (f : Fetch.t) (p : Z),
    In f (issued (createGoogleDocsClient credentials call) w) ->
    In p (fetch_positions f) ->
    In p (call_positions call) \/ (is_appendText call = true /\ 1 <= p).
Proof.
  intros credentials T call w f p.
  destruct call; sent;
    destruct (bearer credentials) as [ t | ]; cbn [In];
    try contradiction;
    try (intros [ <- | [] ]; cbn; tauto).
  - (* appendText *)
    intros [ <- | Hin ]; [ cbn; tauto | ].
    destruct (fst _) as [ [ doc | ] | e ]; cbn [In] in Hin;
      try contradiction.
    destruct Hin as [ <- | [] ]. cbn. intros [ <- | [] ].
    right. split; [ reflexivity | apply Z.le_max_l ].
  - (* createHeader *)
    intros [ <- | [] ]. cbn.
    destruct sectionBreakIndex as [ i | ]; cbn; [ | tauto ].
    destruct (i =? 0); cbn; tauto.
  - (* createFooter *)
    intros [ <- | [] ]. cbn.
    destruct sectionBreakIndex as [ i | ]; cbn; [ | tauto ].
    destruct (i =? 0); cbn; tauto.
Qed.

(** Turns the equation of an accepted schema into the parsed arguments and
    the bounds that the schema has checked. *)
Ltac parsed H :=
  cbn in H; unfold z.object in H;
  match type of H with
  | context [match ?a with _ => _ end] =>
      destruct a as [ [ | ? | ? | ? | ? | ? ] | ]; try discriminate H
  end;
  repeat match type of H with
         | match ?x with _ => _ end = Some _ =>
             let E := fresh "E" in
             destruct x eqn:E; [ | discriminate H ]
         end;
  injection H as <-;
  repeat match goal with
         | E : z.min _ _ _ = Some _ |- _ => apply z_min_ge in E
         | E : z.optional (z.min _ _) _ = Some _ |- _ =>
             apply z_optional_min_ge in E
         end.

Ltac positions_ok :=
  cbn [call_positions];
  rewrite ?raw_requests_have_no_position;
  repeat match goal with
         | |- Forall _ (match ?o with _ => _ end) => destruct o eqn:?
         end;
  repeat constructor; eauto;
  try (eapply z_optional_min_ge; [ eassumption | reflexivity ]).

(** As [one_call], keeping the bounds of the positions of the call. *)
Ltac one_call_positions client :=
  cbn; cbv beta delta [try_catch bind ret throw first_reply read];
  split_tests client;
  first
    [ left; reflexivity
    | match goal with
      | |- context [client ?T ?c ?w'] =>
          right; exists T, c; split;
          [ destruct (client T c w') as [ [ ? | ? ] ? ];
            split_tests client; reflexivity
          | positions_ok ]
      end ].

Section Positions.
Variable client : GoogleDocsClient.
Variable isURL : string -> bool.

Lemma handler_call_positions tool :
  In tool (registerAllTools client isURL) ->
  forall arguments args w,
    Tool.inputSchema tool arguments = Some args ->
    snd (Tool.handler tool args w) = w
    \/ exists T (call : Call.t T),
        snd (Tool.handler tool args w) = snd (@client T call w)
        /\ Forall (Z.le 1) (call_positions call).
Proof.
  intros Hin. unfold registerAllTools in Hin.
  repeat (apply in_app_or in Hin; destruct Hin as [ Hin | Hin ]);
    cbv [registerDocumentTools registerContentTools registerFormattingTools
         registerTableTools registerImageTools registerListTools
         registerNamedRangeTools registerHeaderFooterTools] in Hin;
    cbn [In] in Hin;
    repeat destruct Hin as [ <- | Hin ]; try contradiction;
    intros arguments args w H; parsed H; one_call_positions client.
Qed.
End Positions.

(** X13.  Every document position that a tools/call request puts into a
    request to the API, the index of a location or an end of a range, is at
    least 1.  The operations of the batch update tool are passed through as
    given and are not looked into. *)
Theorem tool_call_positions_are_one_based :
  forall credentials isURL name arguments w f p,
    In f (issued (callTool (createStatelessServer credentials isURL) name
                    arguments) w) ->
    In p (fetch_positions f) ->
    1 <= p.
Proof.
  intros credentials isURL name arguments w f p.
  unfold createStatelessServer.
  set (client := createGoogleDocsClient credentials).
  assert (Hcases :
    issued (callTool (registerAllTools client isURL) name arguments) w = []
    \/ exists T (call : Call.t T),
        issued (callTool (registerAllTools client isURL) name arguments) w
        = issued (@client T call) w
        /\ Forall (Z.le 1) (call_positions call)).
  { unfold callTool.
    destruct (find_tool (registerAllTools client isURL) name)
      as [ tool | ] eqn:Hfind; [ | left; now apply issued_untouched ].
    destruct (Tool.inputSchema tool arguments) as [ args | ] eqn:Hparse;
      [ | left; now apply issued_untouched ].
    destruct (@handler_call_positions client isURL tool
                (@find_tool_In _ _ _ Hfind) arguments args w Hparse)
      as [ Hsame | (T & call & Hcall & Hpos) ].
    - left. apply issued_untouched. unfold bind.
      destruct (Tool.handler tool args w) as [ [ r | e ] w' ]; exact Hsame.
    - right. exists T, call. split; [ | exact Hpos ].
      apply issued_of_world. unfold bind.
      destruct (Tool.handler tool args w) as [ [ r | e ] w' ]; exact Hcall. }
  destruct Hcases as [ -> | (T & call & -> & Hpos) ]; [ contradiction | ].
  intros Hf Hp.
  destruct (@client_positions credentials T call w f p Hf Hp)
    as [ Hgiven | [ _ Hge ] ]; [ | exact Hge ].
  rewrite Forall_forall in Hpos. now apply Hpos.
Qed.

Lemma tool_call_positions_are_one_based_witness : 1 <= 49.
Proof.
  apply (@tool_call_positions_are_one_based Sample.credentials Sample.isURL
           "googledocs_append_text"
           (Some (JObject [("documentId", JString "doc1");
                           ("text", JString "hi")]))
           Sample.world
           (batchUpdate_fetch "ya29.token" "doc1"
              [Request.insertText "hi" {| Location.index := 49 |}])).
  - vm_compute. right. left. reflexivity.
  - left. reflexivity.
Defined.

(* ========================================================================= *)
(** * The registry of tools *)
(* ========================================================================= *)

Ltac each_tool Hin :=
  unfold registerAllTools in Hin;
  repeat (apply in_app_or in Hin; destruct Hin as [ Hin | Hin ]);
  cbv [registerDocumentTools registerContentTools registerFormattingTools
       registerTableTools registerImageTools registerListTools
       registerNamedRangeTools registerHeaderFooterTools] in Hin;
  cbn [In] in Hin;
  repeat destruct Hin as [ <- | Hin ]; try contradiction.

(** X14.  A registered tool is found under its own name: no two of the
    tools that [registerAllTools] registers share a name, so that none hides
    another. *)
Theorem registered_tool_is_found_by_its_name :
  forall (client : GoogleDocsClient) isURL tool,
    In tool (registerAllTools client isURL) ->
    find_tool (registerAllTools client isURL) (Tool.name tool) = Some tool.
Proof.
  intros client isURL tool Hin. each_tool Hin; reflexivity.
Qed.

Lemma registered_tool_is_found_by_its_name_witness :
  find_tool (registerAllTools Sample.client Sample.isURL)
    "googledocs_create_footnote"
  = Some (googledocs_create_footnote Sample.client).
Proof.
  apply (@registered_tool_is_found_by_its_name Sample.client Sample.isURL
           (googledocs_create_footnote Sample.client)).
  unfold registerAllTools. do 7 (apply in_or_app; right).
  apply in_or_app. left. cbn. tauto.
Defined.

(** X15.  The tools that the default route of the worker advertises are
    the tools that the server registers: the two lists are as long as each
    other and hold the same names. *)
Theorem advertised_tools_are_the_registered_tools :
  forall (client : GoogleDocsClient) isURL,
    List.length advertised_tools
    = List.length (registerAllTools client isURL)
    /\ forall name,
        In name (map advertised_name advertised_tools)
        <-> In name (tool_names (registerAllTools client isURL)).
Proof.
  intros client isURL. split; [ reflexivity | ].
  intros name.
  assert (Hfwd : forallb (fun n =>
            mem_name n (tool_names (registerAllTools client isURL)))
            (map advertised_name advertised_tools) = true) by reflexivity.
  assert (Hbwd : forallb (fun n =>
            mem_name n (map advertised_name advertised_tools))
            (tool_names (registerAllTools client isURL)) = true)
    by reflexivity.
  rewrite forallb_forall in Hfwd, Hbwd.
  split; intros Hin.
  - apply Hfwd in Hin. unfold mem_name in Hin.
    apply existsb_exists in Hin as (n & Hn & Heq).
    apply String.eqb_eq in Heq. now subst n.
  - apply Hbwd in Hin. unfold mem_name in Hin.
    apply existsb_exists in Hin as (n & Hn & Heq).
    apply String.eqb_eq in Heq. now subst n.
Qed.

(* ========================================================================= *)
(** * Style and field mask of the simple formatting tools *)
(* ========================================================================= *)

Lemma assign_mask k v (acc : Style * list string) :
  snd acc = map fst (fst acc) ->
  snd (assign k v acc) = map fst (fst (assign k v acc)).
Proof.
  intros H. unfold assign. destruct v as [ v | ]; [ | exact H ].
  cbn [fst snd]. rewrite map_app, H. reflexivity.
Qed.

Lemma issued_bind_ret {A B} (m : Net A) (f : A -> B) (w : World) :
  issued (x <- m ;; ret (f x)) w = issued m w.
Proof.
  apply issued_of_world. unfold bind, ret.
  now destruct (m w) as [ [ a | e ] w' ].
Qed.

Lemma issued_guarded {A B} (m : Net A) (k : A -> Net B)
    (h : Error -> Net B) (w : World) :
  (forall a w', snd (k a w') = w') ->
  (forall e w', snd (h e w') = w') ->
  issued (try_catch (x <- m ;; k x) h) w = issued m w.
Proof.
  intros Hk Hh. apply issued_of_world. unfold try_catch, bind.
  destruct (m w) as [ [ a | e ] w' ]; cbn [snd].
  - specialize (Hk a w').
    destruct (k a w') as [ [ b | e ] w'' ]; cbn [snd] in *.
    + exact Hk.
    + subst w''. apply Hh.
  - apply Hh.
Qed.

Lemma issued_ret {A} (a : A) (w : World) : issued (ret a) w = [].
Proof. now apply issued_untouched. Qed.

(** X16.  When the format-text or the format-paragraph tool sends a
    request, it is one style update whose style is not empty and whose field
    mask is the keys of that style, in order, joined by commas. *)
Theorem simple_formatting_mask_names_the_style_keys :
  forall credentials isURL arguments w f,
    let server := createStatelessServer credentials isURL in
    (In f (issued (callTool server "googledocs_format_text" arguments) w) ->
     exists range style,
       style <> []
       /\ Fetch.body f
          = Some (body_requests
                    [Request.updateTextStyle range style
                       (String.concat "," (map fst style))]))
    /\ (In f (issued (callTool server "googledocs_format_paragraph"
                        arguments) w) ->
        exists range style,
          style <> []
          /\ Fetch.body f
             = Some (body_requests
                       [Request.updateParagraphStyle range style
                          (String.concat "," (map fst style))])).
Proof.
  intros credentials isURL arguments w f server. subst server.
  unfold createStatelessServer, callTool.
  set (client := createGoogleDocsClient credentials).
  split.
  - change (find_tool (registerAllTools client isURL)
              "googledocs_format_text")
      with (Some (googledocs_format_text client)).
    cbv iota beta.
    destruct (Tool.inputSchema (googledocs_format_text client) arguments)
      as [ args | ]; [ | rewrite issued_ret; contradiction ].
    rewrite issued_bind_ret.
    cbn in args.
    destruct args as [ [ [ [ [ [ [ [ d s ] e ] b ] i ] u ] st ] fs ] ff ].
    cbn [Tool.handler googledocs_format_text].
    match goal with
    | |- context [match ?acc with pair _ _ => _ end] =>
        assert (Hinv : snd acc = map fst (fst acc))
          by (repeat apply assign_mask; reflexivity);
        revert Hinv; generalize acc
    end.
    intros [ style fields ] Hinv. cbn [fst snd] in Hinv. subst fields.
    destruct style as [ | kv style ].
    + cbn [List.length map Nat.eqb].
      rewrite (@issued_untouched _ _ w); [ contradiction | reflexivity ].
    + cbn [List.length map Nat.eqb].
      rewrite issued_guarded; [ | reflexivity | reflexivity ].
      subst client. sent.
      destruct (bearer credentials) as [ t | ]; [ | contradiction ].
      intros [ <- | [] ]. exists (GoogleDocsClientImpl.range s e), (kv :: style).
      split; [ discriminate | reflexivity ].
  - change (find_tool (registerAllTools client isURL)
              "googledocs_format_paragraph")
      with (Some (googledocs_format_paragraph client)).
    cbv iota beta.
    destruct (Tool.inputSchema (googledocs_format_paragraph client) arguments)
      as [ args | ]; [ | rewrite issued_ret; contradiction ].
    rewrite issued_bind_ret.
    cbn in args.
    destruct args as [ [ [ [ [ [ [ d s ] e ] a ] h ] l ] sa ] sb ].
    cbn [Tool.handler googledocs_format_paragraph].
    match goal with
    | |- context [match ?acc with pair _ _ => _ end] =>
        assert (Hinv : snd acc = map fst (fst acc))
          by (repeat apply assign_mask; reflexivity);
        revert Hinv; generalize acc
    end.
    intros [ style fields ] Hinv. cbn [fst snd] in Hinv. subst fields.
    destruct style as [ | kv style ].
    + cbn [List.length map Nat.eqb].
      rewrite (@issued_untouched _ _ w); [ contradiction | reflexivity ].
    + cbn [List.length map Nat.eqb].
      rewrite issued_guarded; [ | reflexivity | reflexivity ].
      subst client. sent.
      destruct (bearer credentials) as [ t | ]; [ | contradiction ].
      intros [ <- | [] ]. exists (GoogleDocsClientImpl.range s e), (kv :: style).
      split; [ discriminate | reflexivity ].
Qed.

Lemma simple_formatting_mask_names_the_style_keys_witness :
  exists range style,
    style <> []
    /\ Fetch.body
         (batchUpdate_fetch "ya29.token" "doc1"
            [Request.updateTextStyle (GoogleDocsClientImpl.range 1 5)
               [("bold", JBool true); ("underline", JBool false)]
               "bold,underline"])
       = Some (body_requests
                 [Request.updateTextStyle range style
                    (String.concat "," (map fst style))]).
Proof.
  apply (proj1 (@simple_formatting_mask_names_the_style_keys
                  Sample.credentials Sample.isURL
                  (Some (JObject [("documentId", JString "doc1");
                                  ("startIndex", JNumber 1);
                                  ("endIndex", JNumber 5);
                                  ("underline", JBool false);
                                  ("bold", JBool true)]))
                  Sample.world _)).
  vm_compute. left. reflexivity.
Defined.

(* ========================================================================= *)
(** * The error flag of a tool result *)
(* ========================================================================= *)

Ltac reported client :=
  intros args w; cbn in args |- *;
  cbv beta delta [try_catch bind ret throw first_reply read];
  split_tests client;
  first
    [ eexists; split;
      [ reflexivity
      | left; first [ left; eexists; reflexivity
                    | right; eexists; reflexivity ] ]
    | match goal with
      | |- context [client ?T ?c ?w'] =>
          let Hc := fresh "Hc" in
          destruct (client T c w') as [ [ ? | ? ] ? ] eqn:Hc;
          split_tests client;
          (eexists; split;
           [ reflexivity
           | right; exists T, c; rewrite Hc; cbn [fst snd];
             split;
             [ reflexivity
             | first [ left; reflexivity
                     | right; eexists; reflexivity
                     | split; [ reflexivity
                              | first [ left; reflexivity
                                      | right; reflexivity ] ] ] ] ])
      end ].

(** X17.  The result of a handler is either built without the client, or
    follows one call of the client: when that call throws, the result is flagged
    as an error and carries the message of the error thrown; when it returns, the
    result is not flagged, unless a member of an undefined response is read. *)
Theorem error_flag_reports_the_failed_call :
  forall (client : GoogleDocsClient) isURL tool,
    In tool (registerAllTools client isURL) ->
    forall args w,
    exists r,
      fst (Tool.handler tool args w) = Returns r
      /\ (local_result r
          \/ exists T (call : Call.t T),
              snd (Tool.handler tool args w) = snd (@client T call w)
              /\ match fst (@client T call w) with
              | Throws e =>
                  let message := message_or e (JString "Unknown error") in
                  CallToolResult.isError r = true
                  /\ (CallToolResult.content r = [text_error message]
                      \/ CallToolResult.content r
                         = [text_template "Connection failed: " message])
              | Returns _ =>
                  CallToolResult.isError r = false
                  \/ exists message, r = formatError (TypeError message)
              end).
Proof.
  intros client isURL tool Hin. unfold local_result.
  each_tool Hin; reported client.
Qed.

Lemma error_flag_reports_the_failed_call_witness :
  exists r,
    fst (Tool.handler (googledocs_insert_page_break Sample.client)
           ("doc1", 4) Sample.throttled_world) = Returns r
    /\ (local_result r
        \/ exists T (call : Call.t T),
            snd (Tool.handler (googledocs_insert_page_break Sample.client)
                   ("doc1", 4) Sample.throttled_world)
            = snd (Sample.client call Sample.throttled_world)
            /\ match fst (Sample.client call Sample.throttled_world) with
            | Throws e =>
                let message := message_or e (JString "Unknown error") in
                CallToolResult.isError r = true
                /\ (CallToolResult.content r = [text_error message]
                    \/ CallToolResult.content r
                       = [text_template "Connection failed: " message])
            | Returns _ =>
                CallToolResult.isError r = false
                \/ exists message, r = formatError (TypeError message)
            end).
Proof.
  apply (@error_flag_reports_the_failed_call Sample.client Sample.isURL
           (googledocs_insert_page_break Sample.client)).
  unfold registerAllTools. apply in_or_app. right. apply in_or_app. left.
  cbn. tauto.
Defined.

(* ========================================================================= *)
(** * What the schemas demand of every call *)
(* ========================================================================= *)




(* ========================================================================= *)
(** * Optional arguments on their way to the request *)
(* ========================================================================= *)

Lemma z_optional_absent {A} (s : z.t A) v a :
  z.optional s v = Some a -> (a = None <-> v = None).
Proof.
  unfold z.optional. destruct v as [ v | ].
  - destruct (s (Some v)); cbn; [ | discriminate ].
    intros [= <-]. split; discriminate.
  - intros [= <-]. tauto.
Qed.

Lemma z_positive_nonzero s v q :
  z.positive s v = Some q -> (Qnum q =? 0) = false.
Proof.
  unfold z.positive. destruct (s v) as [ q' | ]; [ | discriminate ].
  destruct (Z.ltb_spec 0 (Qnum q')); [ | discriminate ].
  intros [= <-]. apply Z.eqb_neq. lia.
Qed.

Lemma z_optional_positive_nonzero s v q :
  z.optional (z.positive s) v = Some (Some q) -> (Qnum q =? 0) = false.
Proof.
  unfold z.optional. destruct v as [ v | ]; [ | discriminate ].
  destruct (z.positive s (Some v)) as [ q' | ] eqn:E; [ | discriminate ].
  intros [= <-]. exact (z_positive_nonzero _ _ E).
Qed.

Lemma z_optional_min_nonzero v i :
  z.optional (z.min 1 (z.int z.number)) v = Some (Some i) -> (i =? 0) = false.
Proof.
  intros H. apply Z.eqb_neq.
  assert (1 <= i) by (eapply z_optional_min_ge; [ exact H | reflexivity ]).
  lia.
Qed.

(** X19.  When the replace-text tool is called without [matchCase], the
    request it sends asks for a match that ignores case. *)
Theorem replace_text_ignores_case_unless_told :
  forall credentials isURL o w f,
    lookup "matchCase" o = None ->
    In f (issued (callTool (createStatelessServer credentials isURL)
                    "googledocs_replace_text" (Some (JObject o))) w) ->
    exists findText replaceText,
      Fetch.body f
      = Some (body_requests
                [Request.replaceAllText findText false replaceText]).
Proof.
  intros credentials isURL o w f Hcase.
  unfold createStatelessServer, callTool.
  set (client := createGoogleDocsClient credentials).
  change (find_tool (registerAllTools client isURL) "googledocs_replace_text")
    with (Some (googledocs_replace_text client)).
  cbv iota beta.
  destruct (Tool.inputSchema (googledocs_replace_text client)
              (Some (JObject o))) as [ args | ] eqn:Hargs;
    [ | rewrite issued_ret; contradiction ].
  rewrite issued_bind_ret.
  cbn in args, Hargs. rewrite Hcase in Hargs.
  destruct (z.string (lookup "documentId" o)) as [ d | ];
    [ | discriminate Hargs ].
  destruct (z.string (lookup "findText" o)) as [ find | ];
    [ | discriminate Hargs ].
  destruct (z.string (lookup "replaceText" o)) as [ repl | ];
    [ | discriminate Hargs ].
  cbn in Hargs. injection Hargs as <-.
  cbn [Tool.handler googledocs_replace_text].
  rewrite issued_guarded.
  - subst client. sent.
    destruct (bearer credentials) as [ t | ]; [ | contradiction ].
    intros [ <- | [] ]. exists find, repl. reflexivity.
  - intros a w'. unfold bind, first_reply, read, ret, throw.
    now destruct a.
  - reflexivity.
Qed.

Lemma replace_text_ignores_case_unless_told_witness :
  exists findText replaceText,
    Fetch.body
      (batchUpdate_fetch "ya29.token" "doc1"
         [Request.replaceAllText "colour" false "color"])
    = Some (body_requests
              [Request.replaceAllText findText false replaceText]).
Proof.
  apply (@replace_text_ignores_case_unless_told
           Sample.credentials Sample.isURL
           [("documentId", JString "doc1"); ("findText", JString "colour");
            ("replaceText", JString "color")]
           Sample.world).
  - reflexivity.
  - vm_compute. left. reflexivity.
Defined.

Lemma z_default_enum_one d v t :
  z.default d (z.enum [d]) v = Some t -> t = d.
Proof.
  unfold z.default, z.enum. destruct v as [ [ | | | s | | ] | ];
    try discriminate; [ | now intros [= <-] ].
  cbn [existsb]. rewrite orb_false_r.
  destruct (String.eqb_spec s d); [ | discriminate ].
  now intros [= <-].
Qed.

(** X20.  The request of the create-header and of the create-footer tool
    is of type DEFAULT, and carries a section break location exactly when a
    section break index is given: the test for a truthy index in the client never
    drops an index the schema accepts. *)
Theorem header_and_footer_keep_the_section_break :
  forall credentials isURL o w f,
    let server := createStatelessServer credentials isURL in
    (In f (issued (callTool server "googledocs_create_header"
                     (Some (JObject o))) w) ->
     exists location,
       Fetch.body f
       = Some (body_requests [Request.createHeader "DEFAULT" location])
       /\ (location = None <-> lookup "sectionBreakIndex" o = None))
    /\ (In f (issued (callTool server "googledocs_create_footer"
                        (Some (JObject o))) w) ->
        exists location,
          Fetch.body f
          = Some (body_requests [Request.createFooter "DEFAULT" location])
          /\ (location = None <-> lookup "sectionBreakIndex" o = None)).
Proof.
  intros credentials isURL o w f server. subst server.
  unfold createStatelessServer, callTool.
  set (client := createGoogleDocsClient credentials).
  split.
  - change (find_tool (registerAllTools client isURL)
              "googledocs_create_header")
      with (Some (googledocs_create_header client)).
    cbv iota beta.
    destruct (Tool.inputSchema (googledocs_create_header client)
                (Some (JObject o))) as [ args | ] eqn:Hargs;
      [ | rewrite issued_ret; contradiction ].
    rewrite issued_bind_ret.
    cbn in args, Hargs.
    destruct (z.string (lookup "documentId" o)) as [ d | ];
      [ | discriminate Hargs ].
    destruct (z.default _ _ (lookup "type" o)) as [ type | ] eqn:Htype;
      [ | discriminate Hargs ].
    destruct (z.optional _ (lookup "sectionBreakIndex" o))
      as [ index | ] eqn:Hindex; [ | discriminate Hargs ].
    injection Hargs as <-.
    apply z_default_enum_one in Htype. subst type.
    cbn [Tool.handler googledocs_create_header].
    rewrite issued_guarded.
    + subst client. sent.
      destruct (bearer credentials) as [ t | ]; [ | contradiction ].
      intros [ <- | [] ]. eexists. split; [ reflexivity | ].
      rewrite <- (z_optional_absent _ _ Hindex).
      unfold GoogleDocsClientImpl.sectionBreakLocation.
      destruct index as [ i | ]; [ | tauto ].
      rewrite (z_optional_min_nonzero _ Hindex). split; discriminate.
    + intros a w'. unfold bind, first_reply, read, ret, throw.
      now destruct a.
    + reflexivity.
  - change (find_tool (registerAllTools client isURL)
              "googledocs_create_footer")
      with (Some (googledocs_create_footer client)).
    cbv iota beta.
    destruct (Tool.inputSchema (googledocs_create_footer client)
                (Some (JObject o))) as [ args | ] eqn:Hargs;
      [ | rewrite issued_ret; contradiction ].
    rewrite issued_bind_ret.
    cbn in args, Hargs.
    destruct (z.string (lookup "documentId" o)) as [ d | ];
      [ | discriminate Hargs ].
    destruct (z.default _ _ (lookup "type" o)) as [ type | ] eqn:Htype;
      [ | discriminate Hargs ].
    destruct (z.optional _ (lookup "sectionBreakIndex" o))
      as [ index | ] eqn:Hindex; [ | discriminate Hargs ].
    injection Hargs as <-.
    apply z_default_enum_one in Htype. subst type.
    cbn [Tool.handler googledocs_create_footer].
    rewrite issued_guarded.
    + subst client. sent.
      destruct (bearer credentials) as [ t | ]; [ | contradiction ].
      intros [ <- | [] ]. eexists. split; [ reflexivity | ].
      rewrite <- (z_optional_absent _ _ Hindex).
      unfold GoogleDocsClientImpl.sectionBreakLocation.
      destruct index as [ i | ]; [ | tauto ].
      rewrite (z_optional_min_nonzero _ Hindex). split; discriminate.
    + intros a w'. unfold bind, first_reply, read, ret, throw.
      now destruct a.
    + reflexivity.
Qed.

Lemma header_and_footer_keep_the_section_break_witness :
  exists location,
    Fetch.body
      (batchUpdate_fetch "ya29.token" "doc1"
         [Request.createHeader "DEFAULT"
            (Some (GoogleDocsClientImpl.location 12))])
    = Some (body_requests [Request.createHeader "DEFAULT" location])
    /\ (location = None
        <-> lookup "sectionBreakIndex"
              [("documentId", JString "doc1");
               ("sectionBreakIndex", JNumber 12)] = None).
Proof.
  apply (proj1 (@header_and_footer_keep_the_section_break
                  Sample.credentials Sample.isURL
                  [("documentId", JString "doc1");
                   ("sectionBreakIndex", JNumber 12)]
                  Sample.world _)).
  vm_compute. left. reflexivity.
Defined.

(** X21.  The request of the insert-image tool carries a URI that the URL
    test accepts, and carries a size exactly when both a width and a height are
    given. *)
Theorem image_size_is_sent_when_both_sides_are_given :
  forall credentials isURL o w f,
    In f (issued (callTool (createStatelessServer credentials isURL)
                    "googledocs_insert_image" (Some (JObject o))) w) ->
    exists uri location size,
      Fetch.body f
      = Some (body_requests [Request.insertInlineImage uri location size])
      /\ isURL uri = true
      /\ (size = None
          <-> lookup "width" o = None \/ lookup "height" o = None).
Proof.
  intros credentials isURL o w f.
  unfold createStatelessServer, callTool.
  set (client := createGoogleDocsClient credentials).
  change (find_tool (registerAllTools client isURL) "googledocs_insert_image")
    with (Some (googledocs_insert_image client isURL)).
  cbv iota beta.
  destruct (Tool.inputSchema (googledocs_insert_image client isURL)
              (Some (JObject o))) as [ args | ] eqn:Hargs;
    [ | rewrite issued_ret; contradiction ].
  rewrite issued_bind_ret.
  cbn in args, Hargs.
  destruct (z.string (lookup "documentId" o)) as [ d | ];
    [ | discriminate Hargs ].
  destruct (z.url isURL z.string (lookup "uri" o)) as [ uri | ] eqn:Huri;
    [ | discriminate Hargs ].
  destruct (z.min 1 _ (lookup "index" o)) as [ index | ];
    [ | discriminate Hargs ].
  destruct (z.optional _ (lookup "width" o)) as [ width | ] eqn:Hwidth;
    [ | discriminate Hargs ].
  destruct (z.optional _ (lookup "height" o)) as [ height | ] eqn:Hheight;
    [ | discriminate Hargs ].
  injection Hargs as <-.
  cbn [Tool.handler googledocs_insert_image].
  rewrite issued_guarded.
  - subst client. sent.
    destruct (bearer credentials) as [ t | ]; [ | contradiction ].
    intros [ <- | [] ]. do 3 eexists. split; [ reflexivity | ]. split.
    + unfold z.url in Huri.
      destruct (z.string (lookup "uri" o)) as [ u | ]; [ | discriminate ].
      destruct (isURL u) eqn:Hu; [ | discriminate ].
      now injection Huri as <-.
    + rewrite <- (z_optional_absent _ _ Hwidth).
      rewrite <- (z_optional_absent _ _ Hheight).
      unfold GoogleDocsClientImpl.objectSize.
      destruct width as [ wd | ]; [ | tauto ].
      destruct height as [ ht | ]; [ | tauto ].
      rewrite (z_optional_positive_nonzero _ _ Hwidth).
      rewrite (z_optional_positive_nonzero _ _ Hheight).
      cbn. split; [ discriminate | ]. intros [ H | H ]; discriminate H.
  - intros a w'. unfold bind, first_reply, read, ret, throw.
    now destruct a.
  - reflexivity.
Qed.

Lemma image_size_is_sent_when_both_sides_are_given_witness :
  exists uri location size,
    Fetch.body
      (batchUpdate_fetch "ya29.token" "doc1"
         [Request.insertInlineImage "https://example.com/a.png"
            (GoogleDocsClientImpl.location 3) None])
    = Some (body_requests [Request.insertInlineImage uri location size])
    /\ Sample.isURL uri = true
    /\ (size = None
        <-> lookup "width"
              [("documentId", JString "doc1");
               ("uri", JString "https://example.com/a.png");
               ("index", JNumber 3); ("width", JNumber 120)] = None
            \/ lookup "height"
                 [("documentId", JString "doc1");
                  ("uri", JString "https://example.com/a.png");
                  ("index", JNumber 3); ("width", JNumber 120)] = None).
Proof.
  apply (@image_size_is_sent_when_both_sides_are_given
           Sample.credentials Sample.isURL
           [("documentId", JString "doc1");
            ("uri", JString "https://example.com/a.png");
            ("index", JNumber 3); ("width", JNumber 120)]
           Sample.world).
  vm_compute. left. reflexivity.
Defined.

